(** * News-Analyzer-Agent: the quota-aware retry and rate-limiting layer

    A shallow embedding of the throttling, classification, backoff and retry
    code of [config.py], [crew.py] and [tools.py], followed by the properties
    of that code.

    Conventions of the embedding.
    - A Python [str] is a [string] whose characters are the code points
      0..255; [lower], the character classes of [re] and [re.IGNORECASE] are
      the restrictions of Python's Unicode behaviour to that range.
    - A [datetime] is an integer number of microseconds; a duration in
      seconds is the same number of microseconds, so [timedelta(minutes=1)]
      is [60 * second].
    - A Python call that may raise returns an [exc]; code that reads the
      clock, sleeps or calls a remote service runs in the state-and-exception
      monad [M] over a [world]. *)

From Stdlib Require Import String Ascii ZArith NArith List Lia Bool Arith DecimalString.
Import ListNotations.
Open Scope string_scope.
Open Scope Z_scope.

Set Implicit Arguments.

(** ** Python strings *)

Module PyStr.

Definition code (c : ascii) : N := N_of_ascii c.

Definition between (lo hi : N) (c : ascii) : bool :=
  (N.leb lo (code c) && N.leb (code c) hi)%bool.

(** [str.lower] on one character: A-Z and the Latin-1 capitals except the
    multiplication sign move up by 32. *)
Definition lower_char (c : ascii) : ascii :=
  if (between 65 90 c || (between 192 222 c && negb (N.eqb (code c) 215)))%bool
  then ascii_of_N (code c + 32)
  else c.

Fixpoint lower (s : string) : string :=
  match s with
  | EmptyString => EmptyString
  | String c s' => String (lower_char c) (lower s')
  end.

(** [needle in hay]: [needle] occurs in [hay] at some position. *)
Fixpoint str_in (needle hay : string) : bool :=
  (String.prefix needle hay ||
   match hay with
   | EmptyString => false
   | String _ hay' => str_in needle hay'
   end)%bool.

(** [any(p(x) for x in xs)] *)
Definition any {A : Type} (p : A -> bool) (xs : list A) : bool := existsb p xs.

(** [str(n)] inside an f-string, for a non-negative integer. *)
Definition str_of_nat (n : nat) : string := NilZero.string_of_uint (Nat.to_uint n).

(** The reversal of a string, used by the matcher to return what a group
    consumed. *)
Fixpoint rev_onto (s acc : string) : string :=
  match s with
  | EmptyString => acc
  | String c s' => rev_onto s' (String c acc)
  end.

Definition is_digit (c : ascii) : bool := between 48 57 c.

(** [str.isspace] on one character, which is what [\s] tests. *)
Definition is_space (c : ascii) : bool :=
  (between 9 13 c || between 28 32 c || N.eqb (code c) 133 || N.eqb (code c) 160)%bool.

Definition digit_value (c : ascii) : Z := Z.of_N (code c) - 48.

(** The value of a run of decimal digits, most significant first. *)
Fixpoint digits_value (acc : Z) (s : string) : Z :=
  match s with
  | EmptyString => acc
  | String c s' => digits_value (10 * acc + digit_value c) s'
  end.

End PyStr.

(** ** Exceptions *)

Inductive exn : Type :=
| Exception (msg : string)
| ValueError (msg : string)
| TypeError (msg : string).

(** [str(e)] *)
Definition str (e : exn) : string :=
  match e with
  | Exception m | ValueError m | TypeError m => m
  end.

Inductive exc (A : Type) : Type :=
| Ok (a : A)
| Raised (e : exn).
Arguments Ok {A} a.
Arguments Raised {A} e.

Definition exc_bind {A B : Type} (m : exc A) (k : A -> exc B) : exc B :=
  match m with
  | Ok a => k a
  | Raised e => Raised e
  end.

(** [try: m  except Exception as e: h e] *)
Definition exc_catch {A : Type} (m : exc A) (h : exn -> exc A) : exc A :=
  match m with
  | Ok a => Ok a
  | Raised e => h e
  end.

(** ** The fragment of [re] the patterns use

    A pattern is a sequence of quantified single-character atoms, one of which
    may be the capture group.  The matcher is a backtracking matcher with the
    priorities of [re]: a greedy quantifier tries the longest run first, a
    lazy one the shortest, and [search] takes the leftmost start. *)

Module Re.
Import PyStr.

Inductive atom : Type :=
| Chr (c : ascii)      (* a literal character *)
| Space                (* \s *)
| Digit                (* \d *)
| Dot.                 (* . *)

Inductive quant : Type :=
| Once
| Star                 (* *  *)
| Plus                 (* +  *)
| LazyStar.            (* *? *)

Inductive item : Type :=
| It (a : atom) (q : quant)
| Group (a : atom) (q : quant).   (* ( a q ), group 1 *)

Definition regex : Type := list item.

(** Does one character match the atom; [icase] is [re.IGNORECASE]. *)
Definition atom_matches (icase : bool) (a : atom) (c : ascii) : bool :=
  match a with
  | Chr l => if icase then Ascii.eqb (lower_char l) (lower_char c) else Ascii.eqb l c
  | Space => is_space c
  | Digit => is_digit c
  | Dot => negb (N.eqb (code c) 10)
  end.

Section Quantifiers.
Variable A : Type.
Variable p : ascii -> bool.
(** The continuation receives what was consumed, reversed, and the rest. *)
Variable k : string -> string -> option A.

Fixpoint greedy (taken s : string) : option A :=
  match s with
  | String c s' =>
      if p c then
        match greedy (String c taken) s' with
        | Some r => Some r
        | None => k taken s
        end
      else k taken s
  | EmptyString => k taken s
  end.

Fixpoint lazy (taken s : string) : option A :=
  match k taken s with
  | Some r => Some r
  | None =>
      match s with
      | String c s' => if p c then lazy (String c taken) s' else None
      | EmptyString => None
      end
  end.

Definition quantified (q : quant) (s : string) : option A :=
  match q with
  | Once =>
      match s with
      | String c s' => if p c then k (String c EmptyString) s' else None
      | EmptyString => None
      end
  | Star => greedy EmptyString s
  | Plus =>
      match s with
      | String c s' => if p c then greedy (String c EmptyString) s' else None
      | EmptyString => None
      end
  | LazyStar => lazy EmptyString s
  end.
End Quantifiers.

(** Match the pattern at the start of [s]; the result is group 1. *)
Fixpoint match_here (icase : bool) (r : regex) (g : option string) (s : string)
  : option (option string) :=
  match r with
  | [] => Some g
  | It a q :: r' =>
      quantified (atom_matches icase a) (fun _ rest => match_here icase r' g rest) q s
  | Group a q :: r' =>
      quantified (atom_matches icase a)
        (fun taken rest => match_here icase r' (Some (rev_onto taken EmptyString)) rest) q s
  end.

(** A match object: where the match starts and what group 1 holds. *)
Record match_object : Type := { m_start : nat; group1 : option string }.

Fixpoint search_from (icase : bool) (r : regex) (pos : nat) (s : string)
  : option match_object :=
  match match_here icase r None s with
  | Some g => Some {| m_start := pos; group1 := g |}
  | None =>
      match s with
      | EmptyString => None
      | String _ s' => search_from icase r (S pos) s'
      end
  end.

Definition search (r : regex) (s : string) (icase : bool) : option match_object :=
  search_from icase r 0 s.

(** Reading a pattern as the source writes it.  The reader covers what the
    patterns of this program use: literal characters, the escapes [\s], [\d]
    and escaped punctuation, [.], the quantifiers [*], [+] and [*?], and one
    group around a single quantified atom. *)
Record reader : Type := {
  items_rev : list item;             (* what has been read, last first *)
  pending : option (atom * quant);   (* the atom a quantifier may still follow *)
  escaped : bool;                    (* the previous character was a backslash *)
  in_group : bool                    (* between ( and ) *)
}.

Definition flush (st : reader) : list item :=
  match pending st with
  | None => items_rev st
  | Some (a, q) => (if in_group st then Group a q else It a q) :: items_rev st
  end.

Definition push (st : reader) (a : atom) : reader :=
  {| items_rev := flush st; pending := Some (a, Once); escaped := false;
     in_group := in_group st |}.

Definition requantify (st : reader) (f : quant -> quant) : reader :=
  {| items_rev := items_rev st;
     pending := option_map (fun aq => (fst aq, f (snd aq))) (pending st);
     escaped := false; in_group := in_group st |}.

Definition read_char (st : reader) (c : ascii) : reader :=
  if escaped st then
    push st (if Ascii.eqb c "s" then Space else if Ascii.eqb c "d" then Digit else Chr c)
  else if Ascii.eqb c "\" then
    {| items_rev := items_rev st; pending := pending st; escaped := true;
       in_group := in_group st |}
  else if Ascii.eqb c "*" then requantify st (fun _ => Star)
  else if Ascii.eqb c "+" then requantify st (fun _ => Plus)
  else if Ascii.eqb c "?" then requantify st (fun _ => LazyStar)
  else if Ascii.eqb c "(" then
    {| items_rev := flush st; pending := None; escaped := false; in_group := true |}
  else if Ascii.eqb c ")" then
    {| items_rev := flush st; pending := None; escaped := false; in_group := false |}
  else if Ascii.eqb c "." then push st Dot
  else push st (Chr c).

Fixpoint read (st : reader) (pattern : string) : reader :=
  match pattern with
  | EmptyString => st
  | String c rest => read (read_char st c) rest
  end.

(** [re.compile(pattern)] *)
Definition compile (pattern : string) : regex :=
  rev (flush (read {| items_rev := []; pending := None; escaped := false;
                      in_group := false |} pattern)).

(** [re.search(pattern, s)] and [re.search(pattern, s, re.IGNORECASE)] *)
Definition re_search (pattern : string) (s : string) (icase : bool) : option match_object :=
  search (compile pattern) s icase.

(** CPython's default [sys.int_max_str_digits]. *)
Definition int_max_str_digits : nat := 4300.

(** [int(match.group(1))]: [int(None)] is a [TypeError]; a run of digits
    longer than the interpreter's limit is a [ValueError]. *)
Definition int_of_group (m : match_object) : exc Z :=
  match group1 m with
  | None => Raised (TypeError "int() argument must be a string, a bytes-like object or a real number, not 'NoneType'")
  | Some ds =>
      if Nat.ltb int_max_str_digits (String.length ds)
      then Raised (ValueError "Exceeds the limit (4300 digits) for integer string conversion")
      else Ok (digits_value 0 ds)
  end.

End Re.

(** ** Integers in log lines

    An f-string that holds an integer converts it with [str]; CPython refuses
    to convert an integer of more than 4300 decimal digits.  The text goes to
    the log, so only whether the conversion raises is kept. *)

(** The least magnitude [str] refuses: 1 followed by 4300 zeros. *)
Definition int_str_limit : Z := 10 ^ Z.of_nat Re.int_max_str_digits.

Definition int_too_long : exn :=
  ValueError "Exceeds the limit (4300 digits) for integer string conversion; use sys.set_int_max_str_digits() to increase the limit".

(** [f"{n}"] for an integer [n] *)
Definition format_int (n : Z) : exc unit :=
  if Z.abs n <? int_str_limit then Ok tt else Raised int_too_long.

(** ** Attributes of a pydantic model

    [ChatGoogleGenerativeAI] is a pydantic model: assigning, with
    [self.name = value], an attribute that is no declared field of the class
    raises.  [object.__setattr__], which [__init__] and the retry loops of
    [QuotaAwareLLM] use, does not ask the model and succeeds. *)

(** The double quote, as a string. *)
Definition dquote : string := String (ascii_of_nat 34) EmptyString.

(** The error of [setattr] on a model of class [cls] for a name that is no
    field of it. *)
Definition no_field (cls name : string) : exn :=
  ValueError (dquote ++ cls ++ dquote ++ " object has no field " ++ dquote ++ name ++ dquote).


(** ** The world: clock, remote service, and the instrumented trace *)

(** What a run does, in order.  [ECountdown] records the seconds waited and
    the limiter history as it stands when the wait begins. *)
Inductive event : Type :=
| EAcquire                                     (* _wait_for_rate_limit entered *)
| ECall (i : nat)                              (* the wrapped operation, i-th invocation *)
| EClear                                       (* request_times = [] *)
| ECountdown (secs : Z) (recorded : list Z)    (* _countdown_wait entered *)
| EDelay (secs : Z).                           (* a fixed time.sleep of the crew driver *)

Record world : Type := mkWorld {
  clock : Z;                  (* microseconds *)
  tick : nat;                 (* how many times the clock was read or slept on *)
  calls : nat;                (* invocations of the wrapped operation so far *)
  request_times : list Z;     (* self.request_times of the running object *)
  trace : list event
}.

Definition second : Z := 1000000.
Definition minute : Z := 60 * second.

Module Runtime.

(** State and exceptions: the state survives a raise, as in Python. *)
Definition M (A : Type) : Type := world -> exc A * world.

Definition ret {A : Type} (a : A) : M A := fun w => (Ok a, w).

Definition raise {A : Type} (e : exn) : M A := fun w => (Raised e, w).

Definition bind {A B : Type} (m : M A) (k : A -> M B) : M B :=
  fun w =>
    match m w with
    | (Ok a, w') => k a w'
    | (Raised e, w') => (Raised e, w')
    end.

(** [try: m  except Exception as e: h e] *)
Definition try_except {A : Type} (m : M A) (h : exn -> M A) : M A :=
  fun w =>
    match m w with
    | (Ok a, w') => (Ok a, w')
    | (Raised e, w') => h e w'
    end.

Definition lift {A : Type} (r : exc A) : M A := fun w => (r, w).

Definition emit (e : event) : M unit :=
  fun w => (Ok tt, mkWorld (clock w) (tick w) (calls w) (request_times w) (trace w ++ [e])).

Definition get_request_times : M (list Z) := fun w => (Ok (request_times w), w).

Definition set_request_times (l : list Z) : M unit :=
  fun w => (Ok tt, mkWorld (clock w) (tick w) (calls w) l (trace w)).

Section Clock.
(** [lag k] is the time that passes, beyond what was asked for, at the k-th
    interaction with the clock: scheduling, the duration of the code and of
    the remote calls in between. *)
Variable lag : nat -> Z.

(** [datetime.now()] *)
Definition now : M Z :=
  fun w =>
    let t := clock w + lag (tick w) in
    (Ok t, mkWorld t (S (tick w)) (calls w) (request_times w) (trace w)).

(** [time.sleep(secs)], the duration in microseconds; a negative duration is
    a [ValueError]. *)
Definition sleep (d : Z) : M unit :=
  fun w =>
    if d <? 0 then (Raised (ValueError "sleep length must be non-negative"), w)
    else (Ok tt, mkWorld (clock w + d + lag (tick w)) (S (tick w)) (calls w)
                   (request_times w) (trace w)).
End Clock.

Section Remote.
Variable R : Type.
(** The wrapped remote operation: what its i-th invocation does when made
    at time t. *)
Variable op : nat -> Z -> exc R.

Definition call_op : M R :=
  fun w =>
    (op (calls w) (clock w),
     mkWorld (clock w) (tick w) (S (calls w)) (request_times w)
       (trace w ++ [ECall (calls w)])).
End Remote.

(** [min(l)] *)
Definition py_min (l : list Z) : exc Z :=
  match l with
  | [] => Raised (ValueError "min() arg is an empty sequence")
  | x :: l' => Ok (fold_left Z.min l' x)
  end.

End Runtime.

Declare Scope monad_scope.
Delimit Scope monad_scope with monad.
Notation "x <- m ;; k" := (Runtime.bind m (fun x => k))
  (at level 100, m at next level, right associativity) : monad_scope.
Notation "m ;; k" := (Runtime.bind m (fun _ => k))
  (at level 100, right associativity) : monad_scope.

(** ** The sliding-window rate limiter

    The limiters of the plain classes ([EmbeddingRateLimiter.wait_for_rate_limit]
    and [RateLimitedTool._wait_for_rate_limit]) differ in the ceiling, in the
    buffer added to the wait, and in the tools' unconditional two-second
    pause; they share this body.  [QuotaAwareLLM._wait_for_rate_limit] has
    the same steps inside a pydantic model and is written out there. *)

Module Limiter.
Import Runtime.
Local Open Scope monad_scope.

Section Limiter.
Variable lag : nat -> Z.
Variable requests_per_minute : Z.
Variable buffer : Z.            (* seconds added to the wait *)
Variable pause : option Z.      (* seconds always slept before recording *)

Definition wait_for_rate_limit : M unit :=
  emit EAcquire ;;
  current_time <- now lag ;;
  (* Remove requests older than 1 minute *)
  let cutoff_time := current_time - minute in
  old <- get_request_times ;;
  let kept := filter (fun req_time => req_time >? cutoff_time) old in
  set_request_times kept ;;
  (* Check if we need to wait *)
  (if Z.of_nat (length kept) >=? requests_per_minute then
     oldest_request <- lift (py_min kept) ;;
     let wait_until := oldest_request + minute in
     let wait_seconds := wait_until - current_time in
     if wait_seconds >? 0 then sleep lag (wait_seconds + buffer * second)
     else ret tt
   else ret tt) ;;
  match pause with
  | Some d => sleep lag (d * second)
  | None => ret tt
  end ;;
  (* Record this request *)
  t <- now lag ;;
  recorded <- get_request_times ;;
  set_request_times (recorded ++ [t]).

End Limiter.


End Limiter.

(** ** config.py *)

Module QuotaAwareLLM.
Import PyStr Re Runtime.
Local Open Scope monad_scope.

(** At import, before anything else is built: the module raises when the
    API key is unset. *)
Definition check_google_api_key (GOOGLE_API_KEY : option string) : exc unit :=
  match GOOGLE_API_KEY with
  | None => Raised (ValueError "GOOGLE_API_KEY environment variable is not set")
  | Some _ => Ok tt
  end.

(** The attributes [__init__] sets on the instance. *)
Record self_t : Type := {
  requests_per_minute : Z;
  max_quota_retries : nat
}.

Definition init : self_t := {| requests_per_minute := 6; max_quota_retries := 5 |}.

Definition retry_pattern : string := "retry_delay\s*\{\s*seconds:\s*(\d+)\s*\}".

Definition seconds_patterns : list string :=
  [ "seconds:\s*(\d+)";
    "retry.*?(\d+).*?second";
    "wait.*?(\d+).*?second" ].

(** The [for pattern in seconds_patterns] loop; falling out of it reaches the
    final [return None]. *)
Fixpoint first_seconds_match (patterns : list string) (error_message : string)
  : exc (option Z) :=
  match patterns with
  | [] => Ok None
  | pattern :: rest =>
      match re_search pattern error_message true with
      | Some m => exc_bind (int_of_group m) (fun n => Ok (Some n))
      | None => first_seconds_match rest error_message
      end
  end.

Definition _extract_retry_delay (error_message : string) : exc (option Z) :=
  exc_catch
    (match re_search retry_pattern error_message false with
     | Some m => exc_bind (int_of_group m) (fun n => Ok (Some n))
     | None => first_seconds_match seconds_patterns error_message
     end)
    (fun e => (* logger.warning *) Ok None).

Definition quota_indicators : list string :=
  [ "429";
    "quota";
    "rate limit";
    "resourceexhausted";
    "exceeded your current quota";
    "rate-limits";
    "too many requests" ].

Definition _is_quota_error (error : exn) : bool :=
  let error_str := lower (str error) in
  any (fun indicator => str_in indicator error_str) quota_indicators.

(** Truth value of an [Optional[int]]: [None] and [0] are false. *)
Definition truthy (d : option Z) : bool :=
  match d with
  | None => false
  | Some n => negb (n =? 0)
  end.

(** Each branch logs its wait in an f-string before it returns. *)
Definition _handle_quota_error (error : exn) : exc Z :=
  let error_str := str error in
  exc_bind (_extract_retry_delay error_str) (fun retry_delay =>
  match retry_delay with
  | Some n =>
      if truthy retry_delay then
        let wait_time := n + 10 in
        (* f"... Waiting {wait_time}s (API specified: {retry_delay}s + 10s buffer)" *)
        exc_bind (format_int wait_time) (fun _ =>
        exc_bind (format_int n) (fun _ =>
        Ok wait_time))
      else
        let wait_time := 70 in
        exc_bind (format_int wait_time) (fun _ => Ok wait_time)
  | None =>
      let wait_time := 70 in
      exc_bind (format_int wait_time) (fun _ => Ok wait_time)
  end).

Definition quota_exceeded (self : self_t) : exn :=
  Exception ("Google API quota exceeded after " ++ str_of_nat (max_quota_retries self)
             ++ " attempts. "
             ++ "Please check your quota at https://ai.google.dev/gemini-api/docs/rate-limits or try again later.").

Section Methods.
Variable R : Type.
Variable lag : nat -> Z.
(** [super().invoke(input_messages, config, **kwargs)] *)
Variable super_invoke : nat -> Z -> exc R.
Variable self : self_t.

(** [self.request_times = value], written as a plain assignment inside a
    method of the model: [request_times] is no field of the class. *)
Definition setattr_request_times (value : list Z) : M unit :=
  raise (no_field "QuotaAwareLLM" "request_times").

(** The limiter body of [Limiter], with buffer 3 and no pause, as this class
    writes it: the pruned history is stored by a plain assignment, the new
    timestamp by [append] on the list. *)
Definition _wait_for_rate_limit : M unit :=
  emit EAcquire ;;
  current_time <- now lag ;;
  (* Remove requests older than 1 minute *)
  let cutoff_time := current_time - minute in
  old <- get_request_times ;;
  setattr_request_times (filter (fun req_time => req_time >? cutoff_time) old) ;;
  (* Check if we need to wait *)
  kept <- get_request_times ;;
  (if Z.of_nat (length kept) >=? requests_per_minute self then
     oldest_request <- lift (py_min kept) ;;
     let wait_until := oldest_request + minute in
     let wait_seconds := wait_until - current_time in
     if wait_seconds >? 0 then sleep lag (wait_seconds + 3 * second)
     else ret tt
   else ret tt) ;;
  (* Record this request *)
  t <- now lag ;;
  recorded <- get_request_times ;;
  set_request_times (recorded ++ [t]).

Fixpoint countdown (remaining : nat) : M unit :=
  match remaining with
  | O => ret tt
  | S remaining' => sleep lag (1 * second) ;; countdown remaining'
  end.

Definition _countdown_wait (wait_seconds : Z) : M unit :=
  recorded <- get_request_times ;;
  emit (ECountdown wait_seconds recorded) ;;
  (* f"... Starting {wait_seconds}s countdown..." *)
  lift (format_int wait_seconds) ;;
  countdown (Z.to_nat wait_seconds).

(** The body of [for attempt in range(self.max_quota_retries)], over the
    attempts still to run; [final] is the error raised when the loop runs
    out. *)
Fixpoint attempts_loop (final : exn) (attempts : list nat) : M R :=
  match attempts with
  | [] => raise final
  | attempt :: rest =>
      try_except
        (_wait_for_rate_limit ;;
         result <- call_op super_invoke ;;
         ret result)
        (fun e =>
           if _is_quota_error e then
             if (attempt <? max_quota_retries self - 1)%nat then
               wait_time <- lift (_handle_quota_error e) ;;
               (* Clear request history to reset rate limiting *)
               set_request_times [] ;;
               emit EClear ;;
               _countdown_wait wait_time ;;
               attempts_loop final rest
             else raise (quota_exceeded self)
           else raise e)
  end.

Definition invoke : M R :=
  attempts_loop (Exception "Failed to invoke LLM after maximum attempts")
    (seq 0 (max_quota_retries self)).

(** [_generate] repeats [invoke] around [super()._generate]. *)
Definition _generate : M R :=
  attempts_loop (Exception "Failed to generate LLM response after maximum attempts")
    (seq 0 (max_quota_retries self)).
End Methods.

End QuotaAwareLLM.

Module EmbeddingRateLimiter.
Record self_t : Type := { requests_per_minute : Z }.

Definition init : self_t := {| requests_per_minute := 8 |}.

Definition wait_for_rate_limit (lag : nat -> Z) (self : self_t) : Runtime.M unit :=
  Limiter.wait_for_rate_limit lag (requests_per_minute self) 2 None.
End EmbeddingRateLimiter.

Module QuotaAwareEmbeddings.
Import PyStr Runtime.
Local Open Scope monad_scope.

(** The test both methods make on the lower-cased text of an error. *)
Definition retry_worthy (e : exn) : bool :=
  let error_str := lower (str e) in
  (str_in "429" error_str || str_in "quota" error_str || str_in "rate" error_str)%bool.

Section Methods.
Variable R : Type.
Variable lag : nat -> Z.
(** [super().embed_documents(texts)], or [super().embed_query(text)] *)
Variable super_embed : nat -> Z -> exc R.
(** The global [_embedding_rate_limiter] *)
Variable limiter : EmbeddingRateLimiter.self_t.

(** The body the two methods share; [delay] is the small sleep before the
    call, in microseconds. *)
Definition embed (delay : Z) : M R :=
  EmbeddingRateLimiter.wait_for_rate_limit lag limiter ;;
  try_except
    (sleep lag delay ;;
     result <- call_op super_embed ;;
     ret result)
    (fun e =>
       if retry_worthy e then
         sleep lag (60 * second) ;;
         (* Try once more after waiting *)
         try_except
           (result <- call_op super_embed ;;
            ret result)
           (fun retry_error => raise retry_error)
       else raise e).

Definition embed_documents : M R := embed (1 * second).

(** [time.sleep(0.5)] *)
Definition embed_query : M R := embed (second / 2).
End Methods.

End QuotaAwareEmbeddings.

(** ** crew.py *)

Module EnhancedNewsCrew.
Import PyStr Re Runtime.
Local Open Scope monad_scope.

Record self_t : Type := {
  max_retries : nat;
  base_retry_delay : Z;
  max_retry_delay : Z
}.

Definition init : self_t :=
  {| max_retries := 5; base_retry_delay := 30; max_retry_delay := 300 |}.

Definition retry_pattern : string := "retry_delay\s*\{\s*seconds:\s*(\d+)\s*\}".

Definition seconds_pattern : string := "seconds:\s*(\d+)".

Definition _extract_retry_delay (error_message : string) : exc (option Z) :=
  exc_catch
    (match re_search retry_pattern error_message false with
     | Some m => exc_bind (int_of_group m) (fun n => Ok (Some n))
     | None =>
         match re_search seconds_pattern error_message false with
         | Some m => exc_bind (int_of_group m) (fun n => Ok (Some n))
         | None => Ok None
         end
     end)
    (fun e => (* logger.warning *) Ok None).

Definition quota_indicators : list string :=
  [ "429";
    "quota";
    "rate limit";
    "resourceexhausted";
    "exceeded your current quota";
    "rate-limits" ].

Definition _is_quota_error (error_message : string) : bool :=
  let error_lower := lower error_message in
  any (fun indicator => str_in indicator error_lower) quota_indicators.

(** The [else] branch of [_calculate_wait_time]. *)
Definition exponential_backoff (self : self_t) (attempt : nat) : exc Z :=
  let wait_time :=
    Z.min (base_retry_delay self * 2 ^ Z.of_nat attempt) (max_retry_delay self) in
  (* f"Using exponential backoff: {wait_time}s" *)
  exc_bind (format_int wait_time) (fun _ => Ok wait_time).

(** Each branch logs its wait in an f-string before it returns. *)
Definition _calculate_wait_time (self : self_t) (attempt : nat) (error_message : string)
  : exc Z :=
  exc_bind (_extract_retry_delay error_message) (fun api_retry_delay =>
  match api_retry_delay with
  | Some n =>
      if QuotaAwareLLM.truthy api_retry_delay then
        let wait_time := n + 10 in
        (* f"Using API-specified retry delay: {api_retry_delay}s + 10s buffer = {wait_time}s" *)
        exc_bind (format_int n) (fun _ =>
        exc_bind (format_int wait_time) (fun _ =>
        Ok wait_time))
      else exponential_backoff self attempt
  | None => exponential_backoff self attempt
  end).

Definition quota_exceeded (self : self_t) : exn :=
  Exception ("Google API quota exceeded after " ++ str_of_nat (max_retries self)
             ++ " attempts. "
             ++ "Please check your API quota and billing at https://ai.google.dev/gemini-api/docs/rate-limits. "
             ++ "Consider upgrading your plan or trying again later.").

(** What [main] prints around the run. *)
Inductive banner : Type := Completed | Cancelled | Failed.

Section Methods.
Variable R : Type.
Variable lag : nat -> Z.
(** [self.crew.kickoff()] *)
Variable kickoff : nat -> Z -> exc R.
(** [self.create_news_crew()]: a crew was built ([true]), the user gave no
    topic ([false]), or building it raised. *)
Variable create_news_crew : exc bool.
(** Truth value of a result of [kickoff]. *)
Variable result_truthy : R -> bool.
Variable self : self_t.

Fixpoint countdown (remaining : nat) : M unit :=
  match remaining with
  | O => ret tt
  | S remaining' => sleep lag (1 * second) ;; countdown remaining'
  end.

Definition _countdown_wait (wait_seconds : Z) : M unit :=
  recorded <- get_request_times ;;
  emit (ECountdown wait_seconds recorded) ;;
  (* f"... Starting countdown: {wait_seconds} seconds..." *)
  lift (format_int wait_seconds) ;;
  countdown (Z.to_nat wait_seconds).

Fixpoint attempts_loop (attempts : list nat) : M (option R) :=
  match attempts with
  | [] => raise (Exception "Failed to execute crew after maximum retry attempts")
  | attempt :: rest =>
      try_except
        ((* Add progressive delay before each retry attempt *)
         (if (0 <? attempt)%nat then
            let delay := 15 + Z.of_nat attempt * 10 in
            emit (EDelay delay) ;; sleep lag (delay * second)
          else ret tt) ;;
         result <- call_op kickoff ;;
         ret (Some result))
        (fun e =>
           let error_str := str e in
           if _is_quota_error error_str then
             if (attempt <? max_retries self - 1)%nat then
               wait_time <- lift (_calculate_wait_time self attempt error_str) ;;
               _countdown_wait wait_time ;;
               attempts_loop rest
             else raise (quota_exceeded self)
           else raise e)
  end.

(** On the fresh instance [main] builds, [self.crew] is unset. *)
Definition execute_with_retry : M (option R) :=
  created <- lift create_news_crew ;;
  if negb created then ret None
  else
    emit (EDelay 10) ;;
    sleep lag (10 * second) ;;
    attempts_loop (seq 0 (max_retries self)).

Definition main : M (option R * banner) :=
  try_except
    (result <- execute_with_retry ;;
     match result with
     | Some r => if result_truthy r then ret (result, Completed) else ret (result, Cancelled)
     | None => ret (result, Cancelled)
     end)
    (fun e => ret (None, Failed)).

(** The [if __name__ == "__main__"] block: [result = main(topic)], then the
    script ends. *)
Definition script : M unit :=
  result <- main ;;
  ret tt.

(** Running the file: the imports at its top, among them [config], whose
    outcome is [imports], and then the block above. *)
Definition run_as_script (imports : exc unit) : M unit :=
  lift imports ;;
  script.
End Methods.

(** The status the interpreter exits with: 0 when the script runs to its end,
    1 when an exception escapes it. *)
Definition exit_status (r : exc unit) : Z :=
  match r with
  | Ok _ => 0
  | Raised _ => 1
  end.

End EnhancedNewsCrew.

(** ** tools.py *)

Module RateLimitedTool.
Definition _wait_for_rate_limit (lag : nat -> Z) (requests_per_minute : Z) : Runtime.M unit :=
  Limiter.wait_for_rate_limit lag requests_per_minute 3 (Some 2).
End RateLimitedTool.

Module RateLimitedSerperTool.
Import PyStr Runtime.
Local Open Scope monad_scope.

Definition requests_per_minute : Z := 5.

(** [__init__]: the tool is enabled when [SERPER_API_KEY] is set and not
    empty and the wrapper could be built. *)
Definition init_search_enabled (SERPER_API_KEY : option string) (wrapper_built : bool) : bool :=
  match SERPER_API_KEY with
  | None => false
  | Some key => if String.eqb key "" then false else wrapper_built
  end.

Definition not_configured : string :=
  "Serper API key not configured. Please set SERPER_API_KEY environment variable.".

Section Methods.
Variable lag : nat -> Z.
(** [self.serper_wrapper.run(query)] *)
Variable run : string -> nat -> Z -> exc string.
Variable search_enabled : bool.

Definition search (query : string) : M string :=
  if negb search_enabled then ret not_configured
  else
    try_except
      (RateLimitedTool._wait_for_rate_limit lag requests_per_minute ;;
       (* Add delay before API call *)
       sleep lag (2 * second) ;;
       result <- call_op (run query) ;;
       ret result)
      (fun e => ret ("Search error: " ++ str e)).

(** [search_tool(query)] *)
Definition search_tool (query : string) : M string := search query.
End Methods.

End RateLimitedSerperTool.

(** More of Python's [str]. *)
Module PyText.
Import PyStr.

(** The newline character, as a string. *)
Definition nl : string := String (ascii_of_nat 10) EmptyString.

(** [s[:n]] *)
Fixpoint take (n : nat) (s : string) : string :=
  match n, s with
  | S n', String c s' => String c (take n' s')
  | _, _ => EmptyString
  end.

(** [s[-n:]], for [n] of at least 1 *)
Definition last_chars (n : nat) (s : string) : string :=
  substring (String.length s - n) n s.

(** [sep.join(parts)] *)
Fixpoint join (sep : string) (parts : list string) : string :=
  match parts with
  | [] => EmptyString
  | [part] => part
  | part :: rest => part ++ sep ++ join sep rest
  end.

(** [s.lstrip()] *)
Fixpoint lstrip (s : string) : string :=
  match s with
  | String c s' => if is_space c then lstrip s' else s
  | EmptyString => EmptyString
  end.

(** [s.rstrip()] *)
Fixpoint rstrip (s : string) : string :=
  match s with
  | String c s' =>
      match rstrip s' with
      | EmptyString => if is_space c then EmptyString else String c EmptyString
      | rest => String c rest
      end
  | EmptyString => EmptyString
  end.

(** [s.strip()] *)
Definition strip (s : string) : string := rstrip (lstrip s).

(** Truth value of a string that may be [None]: [None] and the empty string
    are false. *)
Definition truthy (s : option string) : bool :=
  match s with
  | None => false
  | Some EmptyString => false
  | Some _ => true
  end.

End PyText.

(** A document of the vector store: its text and the [source] entry of its
    metadata, if there is one. *)
Record document : Type := {
  page_content : string;
  source : option string
}.

Module GetNews.
Import PyStr PyText Runtime.
Local Open Scope monad_scope.

Definition requests_per_minute : Z := 6.

Definition no_database : string :=
  "No news database found. Please run the News DB Tool first to populate the database.".

(** One entry of the report: the first [limit] characters of the text, and
    the source or [Unknown]. *)
Definition format_doc (limit : nat) (doc : document) : string :=
  "Content: " ++ take limit (page_content doc) ++ nl ++ "Source: "
  ++ match source doc with Some s => s | None => "Unknown" end.

Section Methods.
Variable lag : nat -> Z.
(** [os.path.exists(CHROMA_DB_PATH)] *)
Variable db_exists : bool.
(** [Chroma(persist_directory=..., embedding_function=...)] *)
Variable open_store : exc unit.
(** [vectorstore.similarity_search(query, k=3)] *)
Variable similarity_search : string -> nat -> Z -> exc (list document).

Definition news (query : string) : M string :=
  (* instance = GetNews(): a new limiter, its history empty *)
  set_request_times [] ;;
  RateLimitedTool._wait_for_rate_limit lag requests_per_minute ;;
  try_except
    (if negb db_exists then ret no_database
     else
       sleep lag (1 * second) ;;
       lift open_store ;;
       sleep lag (1 * second) ;;
       retriever <- call_op (similarity_search query) ;;
       match retriever with
       | [] => ret ("No relevant news found for query: " ++ query)
       | _ :: _ =>
           ret ("Found " ++ str_of_nat (length retriever) ++ " relevant articles:" ++ nl ++ nl
                ++ join (nl ++ "---" ++ nl) (map (format_doc 400) retriever))
       end)
    (fun e => ret ("Error retrieving news from database: " ++ str e)).
End Methods.

End GetNews.

Module SearchNewsDB.
Import PyStr PyText Runtime.
Local Open Scope monad_scope.

Definition requests_per_minute : Z := 2.

(** An entry of the [articles] list: its [url] and its [title], each absent
    or null as [None]. *)
Record article : Type := {
  url : option string;
  title : option string
}.

(** The response of the news API: its status code and what
    [response.json().get('articles', [])] gives, which raises when the body
    is not JSON. *)
Record response : Type := {
  status_code : nat;
  json_articles : exc (list article)
}.

(** [article['title'][:50]], which raises when the title is absent or null. *)
Definition title_prefix (a : article) : exc string :=
  match title a with
  | Some t => Ok (take 50 t)
  | None => Raised (TypeError "'NoneType' object is not subscriptable")
  end.

Section Methods.
Variable lag : nat -> Z.
(** [requests.get(NEWS_API_BASE_URL, params=params, timeout=30)] *)
Variable requests_get : string -> exc response.
(** [WebBaseLoader(url).load()] *)
Variable load : string -> exc (list document).
(** [text_splitter.split_documents(docs)] *)
Variable split_documents : list document -> exc (list document).
(** [Chroma.from_documents(chunks, ...)] *)
Variable from_documents : list document -> exc unit.
(** [vectorstore.similarity_search(query, k=2)] *)
Variable similarity_search : string -> nat -> Z -> exc (list document).

(** The [for i, article in enumerate(...)] loop, threading [all_splits] and
    [processed_count]. *)
Fixpoint process (articles : list article) (all_splits : list document)
    (processed_count : nat) : M (list document * nat) :=
  match articles with
  | [] => ret (all_splits, processed_count)
  | a :: rest =>
      state <- try_except
        (match url a with
         | Some link =>
             if negb (truthy (url a)) then ret (all_splits, processed_count)
             else
               shown <- lift (title_prefix a) ;;
               (if (0 <? processed_count)%nat then sleep lag (10 * second) else ret tt) ;;
               docs <- lift (load link) ;;
               splits <- lift (split_documents docs) ;;
               ret ((all_splits ++ splits)%list, S processed_count)
         | None => ret (all_splits, processed_count)
         end)
        (fun e => ret (all_splits, processed_count)) ;;
      process rest (fst state) (snd state)
  end.

Definition news (query : string) : M string :=
  (* instance = SearchNewsDB(): a new limiter, its history empty *)
  set_request_times [] ;;
  RateLimitedTool._wait_for_rate_limit lag requests_per_minute ;;
  try_except
    (resp <- lift (requests_get query) ;;
     if negb (status_code resp =? 200)%nat then
       ret ("Failed to retrieve news. Status code: " ++ str_of_nat (status_code resp))
     else
       articles <- lift (json_articles resp) ;;
       match articles with
       | [] => ret "No articles found for the given query."
       | _ :: _ =>
           (* Process only 1 article to minimize API calls *)
           state <- process (firstn 1 articles) [] 0 ;;
           let all_splits := fst state in
           let processed_count := snd state in
           match all_splits with
           | _ :: _ =>
               try_except
                 (sleep lag (5 * second) ;;
                  lift (from_documents (firstn 5 all_splits)) ;;
                  sleep lag (3 * second) ;;
                  retriever <- call_op (similarity_search query) ;;
                  ret ("Successfully processed " ++ str_of_nat processed_count
                       ++ " article(s). Found " ++ str_of_nat (length retriever)
                       ++ " relevant chunks:" ++ nl ++ nl
                       ++ join (nl ++ "---" ++ nl) (map (GetNews.format_doc 300) retriever)))
                 (fun e => ret ("Error creating vector store: " ++ str e))
           | [] =>
               ret ("Processed " ++ str_of_nat processed_count
                    ++ " article(s) but no content was available for indexing.")
           end
       end)
    (fun e => ret ("Error fetching news: " ++ str e)).
End Methods.

End SearchNewsDB.

(** ** tasks.py *)

Module Tasks.
Import PyStr PyText.

(** The text of a [Task] and the tasks it takes as context.  The agent and
    the tools of a task are constants of the program. *)
#[local] Unset Elimination Schemes.
Inductive task : Type :=
  mkTask { description : string; expected_output : string; context : list task }.
#[local] Set Elimination Schemes.

(** [if not topic: topic = fallback] *)
Definition topic_or (fallback : string) (topic : option string) : string :=
  match topic with
  | Some t => if negb (truthy topic) then fallback else t
  | None => fallback
  end.

Definition create_news_search_task (topic : option string) : task :=
  let topic := topic_or "AI 2024" topic in
  {| description := "Search for " ++ topic ++ " and create key points for each news.";
     expected_output :=
       "A comprehensive list of key points from recent news articles about " ++ topic ++ ".";
     context := [] |}.

Definition create_writer_task (news_search_task : task) (topic : option string) : task :=
  let topic := topic_or "the specified topic" topic in
  {| description :=
       nl
       ++ "        Go step by step." ++ nl
       ++ "        Step 1: Identify all the topics received related to " ++ topic ++ "." ++ nl
       ++ "        Step 2: Use the Get News Tool to verify each topic by going through one by one." ++ nl
       ++ "        Step 3: Use the Search tool to search for information on each topic one by one. " ++ nl
       ++ "        Step 4: Go through every topic and write an in-depth summary of the information retrieved." ++ nl
       ++ "        Don't skip any topic." ++ nl
       ++ "        Focus specifically on: " ++ topic ++ nl
       ++ "        ";
     expected_output :=
       "An in-depth summary report covering all identified topics related to " ++ topic
       ++ " with detailed information retrieved from both the news database and web search.";
     context := [news_search_task] |}.

Definition initialize_tasks (topic : option string) : task * task :=
  let news_search_task := create_news_search_task topic in
  let writer_task := create_writer_task news_search_task topic in
  (news_search_task, writer_task).

End Tasks.

(** ** crew.py: the topic and the crew *)

(** What [input()] does at one prompt. *)
Inductive input_event : Type :=
| Line (text : string)      (* the line typed, without its newline *)
| KeyboardInterrupt         (* Ctrl-C, which is no [Exception] *)
| InputError (e : exn).     (* an [Exception]; [EOFError] on a closed input *)

(** A function that reads the console either returns, or has used up the
    input there is and waits at a prompt. *)
Inductive run (A : Type) : Type :=
| Returned (a : A)
| AwaitingInput.
Arguments Returned {A} a.
Arguments AwaitingInput {A}.

Module TopicSelection.
Import PyStr PyText.

(** [confirm in [...]] *)
Definition among (answers : list string) (confirm : string) : bool :=
  existsb (String.eqb confirm) answers.

(** The [while True] loop of [get_topic_from_user]. *)
Fixpoint prompt_loop (inputs : list input_event) : run (option string) :=
  match inputs with
  | [] => AwaitingInput
  | KeyboardInterrupt :: _ => Returned None
  | InputError e :: rest => prompt_loop rest
  | Line text :: rest =>
      let topic := strip text in
      if negb (truthy (Some topic)) then prompt_loop rest
      else
        match rest with
        | [] => AwaitingInput
        | KeyboardInterrupt :: _ => Returned None
        | InputError e :: rest' => prompt_loop rest'
        | Line answer :: rest' =>
            let confirm := lower (strip answer) in
            if among ["y"; "yes"] confirm then
              (* self.topic = topic; break; return self.topic *)
              Returned (Some topic)
            else if among ["n"; "no"] confirm then prompt_loop rest'
            else prompt_loop rest'
        end
  end.

(** [self_topic] is [self.topic] on entry. *)
Definition get_topic_from_user (self_topic : option string) (inputs : list input_event)
  : run (option string) :=
  if negb (truthy self_topic) then prompt_loop inputs
  else Returned self_topic.

Section Crew.
Variable C : Type.
(** [Crew(agents=..., tasks=[...], ...)] *)
Variable Crew : list Tasks.task -> exc C.

(** The method of [EnhancedNewsCrew]; its handler logs and raises again. *)
Definition create_news_crew (self_topic : option string) (inputs : list input_event)
  : run (exc (option C)) :=
  match get_topic_from_user self_topic inputs with
  | AwaitingInput => AwaitingInput
  | Returned topic =>
      if negb (truthy topic) then Returned (Ok None)
      else
        let tasks := Tasks.initialize_tasks topic in
        Returned (exc_catch
                    (exc_bind (Crew [fst tasks; snd tasks]) (fun crew => Ok (Some crew)))
                    (fun e => Raised e))
  end.

(** What [execute_with_retry] tests with [if not self.crew]. *)
Definition crew_created (made : exc (option C)) : exc bool :=
  exc_bind made (fun crew => Ok (match crew with Some _ => true | None => false end)).
End Crew.

(** The topic the [__main__] block hands to [main]. *)
Definition script_topic (argv : list string) : option string :=
  if (1 <? length argv)%nat then Some (join " " (tl argv)) else None.

End TopicSelection.

(** ** test.py *)

Module ApiTests.
Import PyStr PyText.

Definition required_vars : list string :=
  [ "GOOGLE_API_KEY"; "NEWSAPI_KEY"; "SERPER_API_KEY" ].

(** [os.environ], after [load_dotenv()]. *)
Definition environ : Type := string -> option string.

(** [os.environ[var] = value] *)
Definition setenv (env : environ) (var value : string) : environ :=
  fun name => if String.eqb name var then Some value else env name.

(** What the report shows of a value:
    ['*' * 10] and then [value[-4:] if len(value) > 4 else '****']. *)
Definition mask (value : string) : string :=
  "**********" ++ (if (4 <? String.length value)%nat then last_chars 4 value else "****").

(** The [for var in required_vars] loop, threading the environment, the
    missing names and the lines shown (the name and the masked value). *)
Fixpoint check_vars (vars : list string) (env : environ) (missing_vars : list string)
    (shown : list (string * string)) : environ * list string * list (string * string) :=
  match vars with
  | [] => (env, missing_vars, shown)
  | var :: rest =>
      match env var with
      | Some v =>
          if negb (truthy (env var)) then check_vars rest env (missing_vars ++ [var])%list shown
          else
            let value := strip v in
            check_vars rest (setenv env var value) missing_vars
              (shown ++ [(var, mask value)])%list
      | None => check_vars rest env (missing_vars ++ [var])%list shown
      end
  end.

Definition test_environment_setup (env : environ)
  : bool * environ * list (string * string) :=
  let '(env', missing_vars, shown) := check_vars required_vars env [] [] in
  match missing_vars with
  | _ :: _ => (false, env', shown)
  | [] => (true, env', shown)
  end.

(** The loop of [main]: a test that raises counts as failed, and the tests
    after it still run. *)
Definition results_of (outcomes : list (exc bool)) : list bool :=
  map (fun outcome => match outcome with Ok result => result | Raised _ => false end)
      outcomes.

(** [main()]: the first test is [test_environment_setup]; [others] are the
    outcomes of the five that follow.  It returns [all(results)]. *)
Definition main (env : environ) (others : list (exc bool)) : bool :=
  let results := results_of (Ok (fst (fst (test_environment_setup env))) :: others) in
  forallb (fun result => result) results.

(** [exit(0 if success else 1)] *)
Definition exit_status (env : environ) (others : list (exc bool)) : Z :=
  if main env others then 0 else 1.

End ApiTests.

(** ** Vocabulary of the statements *)

(** [phrase] is a substring of [text]. *)
Definition occurs_in (phrase text : string) : Prop :=
  exists pre post, text = pre ++ phrase ++ post.

(** The seven indicator phrases of the specification. *)
Definition seven_indicators : list string :=
  [ "429"; "quota"; "rate limit"; "resourceexhausted";
    "exceeded your current quota"; "rate-limits"; "too many requests" ].

(** The classifier as the specification words it: some indicator phrase is a
    substring of the lower-cased text. *)
Definition spec_is_quota_error (text : string) : Prop :=
  exists phrase, In phrase seven_indicators /\ occurs_in phrase (PyStr.lower text).

(** [c * n]: the character repeated, for building long inputs. *)
Fixpoint replicate (n : nat) (c : ascii) : string :=
  match n with
  | O => EmptyString
  | S n' => String c (replicate n' c)
  end.

(** The exponential policy of the crew driver. *)
Definition exponential (self : EnhancedNewsCrew.self_t) (attempt : nat) : Z :=
  Z.min (EnhancedNewsCrew.base_retry_delay self * 2 ^ Z.of_nat attempt)
        (EnhancedNewsCrew.max_retry_delay self).

(** No character of the text is a decimal digit: the text carries no numeric
    hint. *)
Fixpoint no_digit (s : string) : bool :=
  match s with
  | EmptyString => true
  | String c s' => (negb (PyStr.is_digit c) && no_digit s')%bool
  end.

(** The pattern cannot match without consuming a digit. *)
Fixpoint needs_digit (r : Re.regex) : bool :=
  match r with
  | [] => false
  | Re.It Re.Digit Re.Once :: _ | Re.It Re.Digit Re.Plus :: _
  | Re.Group Re.Digit Re.Once :: _ | Re.Group Re.Digit Re.Plus :: _ => true
  | _ :: r' => needs_digit r'
  end.

(** An error text whose delay has more digits than [int] converts. *)
Definition overlong_delay : string := "seconds: " ++ replicate 4301 "9".


(** A pause, when there is one, is not negative. *)
Definition pause_ok (pause : option Z) : Prop :=
  match pause with
  | Some d => 0 <= d
  | None => True
  end.

(** The three limiters of the program, each with its ceiling as configured
    by the caller. *)
Inductive limiter : Type := LLMLimiter | EmbeddingLimiter | ToolLimiter.

Definition acquire (kind : limiter) (lag : nat -> Z) (ceiling : Z) : Runtime.M unit :=
  match kind with
  | LLMLimiter =>
      QuotaAwareLLM._wait_for_rate_limit lag
        {| QuotaAwareLLM.requests_per_minute := ceiling;
           QuotaAwareLLM.max_quota_retries := 5 |}
  | EmbeddingLimiter =>
      EmbeddingRateLimiter.wait_for_rate_limit lag
        {| EmbeddingRateLimiter.requests_per_minute := ceiling |}
  | ToolLimiter => RateLimitedTool._wait_for_rate_limit lag ceiling
  end.

(** The buffer each limiter adds to its wait, in seconds. *)
Definition buffer_of (kind : limiter) : Z :=
  match kind with
  | LLMLimiter => 3
  | EmbeddingLimiter => 2
  | ToolLimiter => 3
  end.

(** [n] calls in a row. *)
Fixpoint in_a_row (call : Runtime.M unit) (n : nat) : Runtime.M unit :=
  match n with
  | O => Runtime.ret tt
  | S n' => Runtime.bind call (fun _ => in_a_row call n')
  end.

(** What the history keeps when pruned at time [t]. *)
Definition pruned (t : Z) (recorded : list Z) : list Z :=
  filter (fun req_time => req_time >? t - minute) recorded.

(** The pause each limiter always makes before recording, in seconds. *)
Definition pause_of (kind : limiter) : option Z :=
  match kind with
  | ToolLimiter => Some 2
  | _ => None
  end.

(** Scenarios of the wrapped operation, by invocation index; [classify] is
    the classifier of the driver under consideration. *)
Section Scenarios.
Variable R : Type.
Variable classify : exn -> bool.
Variable op : nat -> Z -> exc R.


End Scenarios.



(** The delay events a turn logs before it invokes the operation. *)
Definition progressive_delay (attempt : nat) : list event :=
  if (0 <? attempt)%nat then [EDelay (15 + Z.of_nat attempt * 10)] else [].

(** Concrete runs: a fresh world, a clock with no lag, and three remote
    operations. *)
Definition fresh_world : world := mkWorld 0 0 0 [] [].

Definition no_lag (k : nat) : Z := 0.

Definition quota_429 : exn :=
  Exception "429 Resource has been exhausted (e.g. check quota).".

Definition invalid_argument : exn :=
  ValueError "invalid argument: field x required".

Definition twice_quota_then_seven (i : nat) (t : Z) : exc nat :=
  if (i <? 2)%nat then Raised quota_429 else Ok 7%nat.

Definition always_quota (i : nat) (t : Z) : exc nat := Raised quota_429.

Definition always_invalid (i : nat) (t : Z) : exc nat := Raised invalid_argument.

(** Kinds of events. *)
Definition is_acquire (e : event) : bool :=
  match e with EAcquire => true | _ => false end.

Definition is_call (e : event) : bool :=
  match e with ECall _ => true | _ => false end.

Definition is_clear (e : event) : bool :=
  match e with EClear => true | _ => false end.

Definition is_countdown (e : event) : bool :=
  match e with ECountdown _ _ => true | _ => false end.

Definition touches_limiter (e : event) : bool := (is_acquire e || is_clear e)%bool.

(** Every event of the kind [second] comes right after one of the kind
    [first]; [prev] is the event before the trace. *)
Fixpoint right_after (first second : event -> bool) (prev : option event)
    (tr : list event) : bool :=
  match tr with
  | [] => true
  | e :: tr' =>
      ((if second e
        then match prev with Some p => first p | None => false end
        else true)
       && right_after first second (Some e) tr')%bool
  end.

(** Every wait begins on an empty limiter history. *)
Definition waits_on_cleared_history (tr : list event) : bool :=
  forallb (fun e => match e with
                    | ECountdown _ [] => true
                    | ECountdown _ (_ :: _) => false
                    | _ => true
                    end) tr.

(** What a turn of the LLM-layer loop that is not the last leaves in the
    trace: the acquire, the clearing of the history, and the wait of 70
    seconds on the empty history. *)
Definition llm_retry_events : list event := [EAcquire; EClear; ECountdown 70 []].

(** The sleep the crew driver makes right before the invocation number [k]
    of a run, in seconds: 10 before the first, 15 + 10 * k before a retry. *)
Definition sleep_before (k : nat) : Z :=
  if (k =? 0)%nat then 10 else 15 + 10 * Z.of_nat k.

(** Every invocation in the trace comes right after the sleep that belongs
    to it; [first] is the index of the first invocation of the run, [prev]
    the event before the trace. *)
Fixpoint spaced (first : nat) (prev : option event) (tr : list event) : bool :=
  match tr with
  | [] => true
  | e :: tr' =>
      (match e with
       | ECall i =>
           match prev with
           | Some (EDelay d) => d =? sleep_before (i - first)
           | _ => false
           end
       | _ => true
       end && spaced first (Some e) tr')%bool
  end.

(** How a run of the crew driver ends, after the invocation [last] made at
    time [t]; [first] is the index of the first invocation of the run.  The
    run returns what that invocation returned; or raises its error, which
    is no quota error; or raises the aggregate error, the budget used up; or
    raises the error of the log line of the wait, the budget not used up. *)
Definition crew_ending (R : Type) (self : EnhancedNewsCrew.self_t)
    (op : nat -> Z -> exc R) (first last : nat) (t : Z) (r : exc (option R)) : Prop :=
  match r with
  | Ok result => exists v, result = Some v /\ op last t = Ok v
  | Raised e =>
      (op last t = Raised e /\ EnhancedNewsCrew._is_quota_error (str e) = false)
      \/ (e = EnhancedNewsCrew.quota_exceeded self
          /\ S last = (first + EnhancedNewsCrew.max_retries self)%nat
          /\ exists e', op last t = Raised e'
                        /\ EnhancedNewsCrew._is_quota_error (str e') = true)
      \/ (e = int_too_long
          /\ (S last < first + EnhancedNewsCrew.max_retries self)%nat
          /\ exists e', op last t = Raised e'
                        /\ EnhancedNewsCrew._is_quota_error (str e') = true
                        /\ EnhancedNewsCrew._calculate_wait_time self (last - first) (str e')
                           = Raised int_too_long)
  end.

(** Every character of the string satisfies [p]. *)
Fixpoint string_forall (p : ascii -> bool) (s : string) : bool :=
  match s with
  | EmptyString => true
  | String c s' => (p c && string_forall p s')%bool
  end.

(** Every group of the pattern is a group of digits. *)
Fixpoint group_digits (r : Re.regex) : bool :=
  match r with
  | [] => true
  | Re.Group Re.Digit _ :: r' => group_digits r'
  | Re.Group _ _ :: _ => false
  | Re.It _ _ :: r' => group_digits r'
  end.

(** The indicator phrases without the one that contains another. *)
Definition six_distinct_indicators : list string :=
  [ "429"; "quota"; "rate limit"; "resourceexhausted"; "rate-limits";
    "too many requests" ].

(** The error [min] raises on an empty list. *)
Definition min_of_empty : exn := ValueError "min() arg is an empty sequence".

(** The seconds a limiter always pauses before recording. *)
Definition pause_seconds (kind : limiter) : Z :=
  match pause_of kind with
  | Some d => d
  | None => 0
  end.

(** The block a quota error carries: [retry_delay { seconds: N }], with any
    white space at the four places the first pattern allows it. *)
Definition retry_delay_block (ws0 ws1 ws2 ds ws3 : string) : string :=
  "retry_delay" ++ ws0 ++ "{" ++ ws1 ++ "seconds:" ++ ws2 ++ ds ++ ws3 ++ "}".

(** [needle] starts at no position of [pre], when [rest] follows [pre]. *)
Fixpoint starts_nowhere (needle pre rest : string) : bool :=
  match pre with
  | EmptyString => true
  | String c pre' =>
      (negb (String.prefix needle (pre ++ rest)) && starts_nowhere needle pre' rest)%bool
  end.

(** An answer at the confirmation prompt that accepts the topic. *)
Definition accepts (answer : string) : bool :=
  TopicSelection.among ["y"; "yes"] (PyStr.lower (PyText.strip answer)).

(** An input that can end the prompt: Ctrl-C, or a line that reads as yes. *)
Definition can_end_prompt (ev : input_event) : bool :=
  match ev with
  | Line text => accepts text
  | KeyboardInterrupt => true
  | InputError _ => false
  end.

(** [EOFError], which [input()] raises on a closed input. *)
Definition eof_error : exn := Exception "EOF when reading a line".

(** A variable of the environment is set and not empty. *)
Definition is_set (env : ApiTests.environ) (var : string) : Prop :=
  exists value, env var = Some value /\ value <> "".

(** [rest] does not begin with a character of the class [p]. *)
Definition begins_outside (p : ascii -> bool) (rest : string) : bool :=
  match rest with
  | String c _ => negb (p c)
  | EmptyString => true
  end.

(** The topic [t] was typed at one prompt and accepted at the next, with no
    Ctrl-C before. *)
Definition confirmed_in (inputs : list input_event) (t : string) : Prop :=
  exists before line answer after,
    inputs = (before ++ Line line :: Line answer :: after)%list
    /\ t = PyText.strip line /\ accepts answer = true
    /\ ~ In KeyboardInterrupt before.

(** What a returned value of the prompt rests on. *)
Definition prompt_result_justified (inputs : list input_event) (r : option string) : Prop :=
  match r with
  | None => In KeyboardInterrupt inputs
  | Some t => t <> "" /\ PyText.strip t = t /\ confirmed_in inputs t
  end.

(** The arguments after the script name make a topic: one of them is not
    empty, or there are two or more. *)
Definition names_a_topic (args : list string) : bool :=
  (existsb (fun a => negb (String.eqb a "")) args || (1 <? length args)%nat)%bool.

(** The two tasks speak of the topic [t], and the second takes the first as
    its context. *)
Definition about (t : string) (tasks : Tasks.task * Tasks.task) : Prop :=
  Tasks.description (fst tasks) = "Search for " ++ t ++ " and create key points for each news."
  /\ Tasks.expected_output (fst tasks)
     = "A comprehensive list of key points from recent news articles about " ++ t ++ "."
  /\ Tasks.expected_output (snd tasks)
     = "An in-depth summary report covering all identified topics related to " ++ t
       ++ " with detailed information retrieved from both the news database and web search."
  /\ occurs_in ("Focus specifically on: " ++ t ++ PyText.nl) (Tasks.description (snd tasks))
  /\ Tasks.context (snd tasks) = [fst tasks].

(** * Properties *)

(** ** Strings *)

Section StringFacts.
Import PyStr.

Lemma prefix_iff (n h : string) :
  String.prefix n h = true <-> exists post, h = n ++ post.
Proof.
  revert h; induction n as [|a n IH]; intros h; simpl.
  - split; [intros _; exists h; reflexivity | intros _; destruct h; reflexivity].
  - destruct h as [|b h].
    + split; [discriminate | intros [post H]; discriminate].
    + simpl. destruct (ascii_dec a b) as [->|Hab].
      * rewrite IH. split; intros [post H]; exists post.
        -- now rewrite H.
        -- now injection H.
      * split; [discriminate | intros [post H]; injection H; intros; congruence].
Qed.

Lemma str_in_iff (n h : string) : str_in n h = true <-> occurs_in n h.
Proof.
  unfold occurs_in. induction h as [|c h IH]; cbn [str_in].
  - rewrite orb_false_r, prefix_iff. split.
    + intros [post H]. exists "", post. exact H.
    + intros [pre [post H]]. destruct pre; simpl in H.
      * exists post; exact H.
      * discriminate.
  - rewrite orb_true_iff, IH, prefix_iff. split.
    + intros [[post H]|[pre [post H]]].
      * exists "", post. exact H.
      * exists (String c pre), post. simpl. now rewrite H.
    + intros [pre [post H]]. destruct pre as [|c' pre]; simpl in H.
      * left. exists post; exact H.
      * right. exists pre, post. now injection H.
Qed.

Lemma any_str_in_iff (phrases : list string) (text : string) :
  any (fun phrase => str_in phrase text) phrases = true
  <-> exists phrase, In phrase phrases /\ occurs_in phrase text.
Proof.
  unfold any. rewrite existsb_exists.
  split; intros [x [Hin H]]; exists x; (split; [exact Hin | now apply str_in_iff]).
Qed.

Lemma str_in_app_left (n a b : string) : str_in n a = true -> str_in n (a ++ b) = true.
Proof.
  rewrite !str_in_iff. intros [pre [post ->]].
  exists pre, (post ++ b). clear.
  induction pre as [|c pre IH]; simpl.
  - induction n as [|c n IHn]; simpl; [reflexivity | now rewrite IHn].
  - now rewrite IH.
Qed.

End StringFacts.

(** ** C2: the two classifiers *)

(** The LLM-layer classifier is the classifier of the specification: true
    exactly when one of the seven phrases occurs in the lower-cased text. *)
Lemma llm_is_quota_error_iff (error : exn) :
  QuotaAwareLLM._is_quota_error error = true <-> spec_is_quota_error (str error).
Proof.
  unfold QuotaAwareLLM._is_quota_error, spec_is_quota_error.
  apply any_str_in_iff.
Qed.

(** The crew-layer classifier tests its own six phrases only. *)
Lemma crew_is_quota_error_iff (error_message : string) :
  EnhancedNewsCrew._is_quota_error error_message = true
  <-> exists phrase, In phrase EnhancedNewsCrew.quota_indicators
                     /\ occurs_in phrase (PyStr.lower error_message).
Proof.
  unfold EnhancedNewsCrew._is_quota_error. apply any_str_in_iff.
Qed.

(** C2 (the crew-layer code departs from it): on the text [Too Many Requests] the
    seventh phrase occurs in the lower-cased text and the LLM-layer classifier
    answers true, but the crew-layer classifier, whose list lacks that phrase,
    answers false. *)
Theorem crew_classifier_misses_too_many_requests :
  spec_is_quota_error "Too Many Requests"
  /\ QuotaAwareLLM._is_quota_error (Exception "Too Many Requests") = true
  /\ EnhancedNewsCrew._is_quota_error "Too Many Requests" = false.
Proof.
  split; [|split; reflexivity].
  apply (proj1 (llm_is_quota_error_iff (Exception "Too Many Requests"))).
  reflexivity.
Qed.

(** ** The matcher on texts without digits *)

Section NoDigit.
Import PyStr Re.

Section Quantified.
Variable A : Type.
Variable p : ascii -> bool.
Variable k : string -> string -> option A.
Hypothesis k_none : forall taken s, no_digit s = true -> k taken s = None.

Lemma greedy_no_digit s : forall taken, no_digit s = true -> greedy p k taken s = None.
Proof.
  induction s as [|c s IH]; intros taken Hs; simpl.
  - now apply k_none.
  - pose proof Hs as Hs'. simpl in Hs'. apply andb_true_iff in Hs' as [_ Hs'].
    destruct (p c); [rewrite (IH _ Hs')|]; now apply k_none.
Qed.

Lemma lazy_no_digit s : forall taken, no_digit s = true -> lazy p k taken s = None.
Proof.
  induction s as [|c s IH]; intros taken Hs; simpl.
  - now rewrite k_none.
  - rewrite (k_none _ _ Hs). simpl in Hs. apply andb_true_iff in Hs as [_ Hs'].
    destruct (p c); [now apply IH | reflexivity].
Qed.

Lemma quantified_no_digit q s : no_digit s = true -> quantified p k q s = None.
Proof.
  intros Hs. destruct q; simpl.
  - destruct s as [|c s]; [reflexivity|].
    simpl in Hs. apply andb_true_iff in Hs as [_ Hs'].
    destruct (p c); [now apply k_none | reflexivity].
  - now apply greedy_no_digit.
  - destruct s as [|c s]; [reflexivity|].
    simpl in Hs. apply andb_true_iff in Hs as [_ Hs'].
    destruct (p c); [now apply greedy_no_digit | reflexivity].
  - now apply lazy_no_digit.
Qed.
End Quantified.

Lemma digit_item_no_digit (A : Type) (k : string -> string -> option A) icase q s :
  q = Once \/ q = Plus -> no_digit s = true ->
  quantified (atom_matches icase Digit) k q s = None.
Proof.
  intros Hq Hs. destruct s as [|c s].
  - destruct Hq as [-> | ->]; reflexivity.
  - simpl in Hs. apply andb_true_iff in Hs as [Hc _].
    apply negb_true_iff in Hc.
    destruct Hq as [-> | ->]; simpl; now rewrite Hc.
Qed.

Lemma match_here_no_digit icase r : forall g s,
  needs_digit r = true -> no_digit s = true -> match_here icase r g s = None.
Proof.
  induction r as [|i r IH]; intros g s Hr Hs; [discriminate|].
  destruct i as [a q | a q]; cbn [match_here];
    destruct a;
    try (apply quantified_no_digit; [intros; apply IH; assumption | assumption]);
    destruct q;
    try (apply digit_item_no_digit; [tauto | assumption]);
    apply quantified_no_digit; try assumption; intros; apply IH; assumption.
Qed.

Lemma search_no_digit (pattern s : string) icase :
  needs_digit (compile pattern) = true -> no_digit s = true ->
  re_search pattern s icase = None.
Proof.
  intros Hr. unfold re_search, search. generalize 0%nat.
  induction s as [|c s IH]; intros pos Hs; cbn [search_from];
    rewrite (match_here_no_digit _ _ _ _ Hr Hs); [reflexivity|].
  simpl in Hs. apply andb_true_iff in Hs as [_ Hs]. now apply IH.
Qed.

End NoDigit.

(** ** C3: delay extraction *)

(** Both extractors read the explicit phrase, wherever it stands in the
    text. *)
Lemma extract_explicit_phrase :
  QuotaAwareLLM._extract_retry_delay "429 quota ... retry_delay { seconds: 42 } ..." = Ok (Some 42)
  /\ EnhancedNewsCrew._extract_retry_delay "429 quota ... retry_delay { seconds: 42 } ..." = Ok (Some 42).
Proof. split; reflexivity. Qed.

(** The explicit phrase is tried first: it wins over a looser phrase that
    stands earlier in the text. *)
Lemma extract_explicit_phrase_first :
  QuotaAwareLLM._extract_retry_delay "wait 5 seconds: 7, retry_delay { seconds: 42 }" = Ok (Some 42)
  /\ EnhancedNewsCrew._extract_retry_delay "wait 5 seconds: 7, retry_delay { seconds: 42 }" = Ok (Some 42).
Proof. split; reflexivity. Qed.

(** A text without a digit yields no delay, in both extractors. *)
Lemma extract_no_numeric_hint (text : string) :
  no_digit text = true ->
  QuotaAwareLLM._extract_retry_delay text = Ok None
  /\ EnhancedNewsCrew._extract_retry_delay text = Ok None.
Proof.
  intros H. unfold QuotaAwareLLM._extract_retry_delay, EnhancedNewsCrew._extract_retry_delay.
  unfold QuotaAwareLLM.seconds_patterns, QuotaAwareLLM.first_seconds_match.
  rewrite !search_no_digit by (reflexivity || exact H).
  split; reflexivity.
Qed.

(** C3 (the crew-layer code departs from it): the text [please wait 17 seconds]
    yields 17 in the LLM-layer extractor, through its third fallback pattern,
    and no delay in the crew-layer extractor, whose only fallback pattern is
    [seconds: N]. *)
Theorem crew_extractor_misses_wait_phrase :
  QuotaAwareLLM._extract_retry_delay "please wait 17 seconds" = Ok (Some 17)
  /\ Re.re_search "seconds:\s*(\d+)" "please wait 17 seconds" true = None
  /\ Re.re_search "retry.*?(\d+).*?second" "please wait 17 seconds" true = None
  /\ EnhancedNewsCrew._extract_retry_delay "please wait 17 seconds" = Ok None.
Proof. repeat split; reflexivity. Qed.

(** ** Integers in log lines *)

Lemma format_int_ok (n : Z) : Z.abs n < int_str_limit -> format_int n = Ok tt.
Proof. intros H. unfold format_int. apply Z.ltb_lt in H. now rewrite H. Qed.

Lemma format_int_raises (n : Z) :
  int_str_limit <= Z.abs n -> format_int n = Raised int_too_long.
Proof. intros H. unfold format_int. apply Z.ltb_ge in H. now rewrite H. Qed.

Lemma small_below_limit : 1000 < int_str_limit.
Proof. vm_compute. reflexivity. Qed.

Lemma format_small (n : Z) : 0 <= n <= 1000 -> format_int n = Ok tt.
Proof. intros H. apply format_int_ok. pose proof small_below_limit. lia. Qed.

(** ** C7: extraction never raises *)

Lemma exc_catch_total (A : Type) (m : exc A) (a : A) :
  exists r, exc_catch m (fun _ => Ok a) = Ok r.
Proof. destruct m as [r|e]; simpl; eauto. Qed.

Lemma llm_extract_ok (text : string) :
  exists r, QuotaAwareLLM._extract_retry_delay text = Ok r.
Proof. apply exc_catch_total. Qed.

Lemma crew_extract_ok (text : string) :
  exists r, EnhancedNewsCrew._extract_retry_delay text = Ok r.
Proof. apply exc_catch_total. Qed.

(** The LLM-layer wait is 70 when no delay is extracted or the delay is
    zero; otherwise it is the delay plus 10, when the log line can show it. *)
Lemma handle_quota_error_eq (error : exn) (r : option Z) :
  QuotaAwareLLM._extract_retry_delay (str error) = Ok r ->
  QuotaAwareLLM._handle_quota_error error
  = match r with
    | Some n =>
        if n =? 0 then Ok 70
        else exc_bind (format_int (n + 10)) (fun _ =>
             exc_bind (format_int n) (fun _ => Ok (n + 10)))
    | None => Ok 70
    end.
Proof.
  intros H. unfold QuotaAwareLLM._handle_quota_error. rewrite H.
  destruct r as [n|]; cbn [exc_bind QuotaAwareLLM.truthy]; cbv zeta.
  - destruct (n =? 0); cbn [negb]; [|reflexivity].
    now rewrite format_small by lia.
  - now rewrite format_small by lia.
Qed.

(** The exponential wait, with base 30 and cap 300, can always be logged. *)
Lemma exponential_backoff_init (attempt : nat) :
  EnhancedNewsCrew.exponential_backoff EnhancedNewsCrew.init attempt
  = Ok (exponential EnhancedNewsCrew.init attempt).
Proof.
  unfold EnhancedNewsCrew.exponential_backoff, exponential. cbv zeta.
  rewrite format_small; [reflexivity|].
  cbn [EnhancedNewsCrew.init EnhancedNewsCrew.base_retry_delay
       EnhancedNewsCrew.max_retry_delay].
  pose proof (Z.pow_pos_nonneg 2 (Z.of_nat attempt) ltac:(lia) ltac:(lia)). lia.
Qed.

(** The crew-layer wait is the exponential value when no delay is extracted
    or the delay is zero; otherwise it is the delay plus 10, when the log
    line can show it. *)
Lemma calculate_wait_time_eq self (attempt : nat) (error_message : string) (r : option Z) :
  EnhancedNewsCrew._extract_retry_delay error_message = Ok r ->
  EnhancedNewsCrew._calculate_wait_time self attempt error_message
  = match r with
    | Some n =>
        if n =? 0 then EnhancedNewsCrew.exponential_backoff self attempt
        else exc_bind (format_int n) (fun _ =>
             exc_bind (format_int (n + 10)) (fun _ => Ok (n + 10)))
    | None => EnhancedNewsCrew.exponential_backoff self attempt
    end.
Proof.
  intros H. unfold EnhancedNewsCrew._calculate_wait_time. rewrite H.
  destruct r as [n|]; cbn [exc_bind QuotaAwareLLM.truthy]; [|reflexivity].
  destruct (n =? 0); reflexivity.
Qed.

(** An extracted delay of at least one second that, with its 10 seconds
    added, stays below the limit of [str]: both layers wait the sum. *)
Lemma delay_plus_ten (n : Z) :
  1 <= n -> n + 10 < int_str_limit ->
  (n =? 0) = false /\ format_int n = Ok tt /\ format_int (n + 10) = Ok tt.
Proof.
  intros H1 H2. split; [now apply Z.eqb_neq; lia|].
  split; apply format_int_ok; lia.
Qed.

(** C7: for every error text both extractors return, a parsed integer or
    nothing, and never raise; and when the result is nothing the LLM layer
    waits the flat 70 seconds and the crew layer, with base 30 and cap 300,
    the exponential value. *)
Theorem extract_retry_delay_never_raises (text : string) :
  (exists r, QuotaAwareLLM._extract_retry_delay text = Ok r)
  /\ (exists r, EnhancedNewsCrew._extract_retry_delay text = Ok r)
  /\ (forall error, str error = text ->
        QuotaAwareLLM._extract_retry_delay text = Ok None ->
        QuotaAwareLLM._handle_quota_error error = Ok 70)
  /\ (forall attempt,
        EnhancedNewsCrew._extract_retry_delay text = Ok None ->
        EnhancedNewsCrew._calculate_wait_time EnhancedNewsCrew.init attempt text
        = Ok (Z.min (30 * 2 ^ Z.of_nat attempt) 300)).
Proof.
  split; [apply llm_extract_ok|]. split; [apply crew_extract_ok|]. split.
  - intros error <- H. now rewrite (handle_quota_error_eq _ H).
  - intros attempt H. rewrite (calculate_wait_time_eq _ attempt _ H).
    apply exponential_backoff_init.
Qed.

(** A text where a pattern matches and the parse fails: the conversion of the
    4301 digits raises inside the [try]. *)
Lemma overlong_delay_parse_fails :
  exists m, Re.re_search "seconds:\s*(\d+)" overlong_delay true = Some m
            /\ exists e, Re.int_of_group m = Raised e.
Proof.
  eexists. split; [vm_compute; reflexivity|].
  eexists. vm_compute. reflexivity.
Qed.

Lemma extract_retry_delay_never_raises_witness :
  QuotaAwareLLM._handle_quota_error (Exception overlong_delay) = Ok 70
  /\ EnhancedNewsCrew._calculate_wait_time EnhancedNewsCrew.init 2 overlong_delay = Ok 120.
Proof.
  destruct (extract_retry_delay_never_raises overlong_delay) as (_ & _ & Hllm & Hcrew).
  split.
  - apply (Hllm (Exception overlong_delay) eq_refl). vm_compute. reflexivity.
  - change 120 with (Z.min (30 * 2 ^ Z.of_nat 2) 300).
    apply (Hcrew 2%nat). vm_compute. reflexivity.
Defined.

(** ** C5: the crew-level wait *)

(** C5 as stated fails: the text [seconds: 0] carries the delay 0, and the
    wait is the exponential 30 seconds, not 0 + 10. *)
Lemma crew_wait_zero_delay_counterexample :
  ~ (forall (attempt : nat) (error_message : string) (N : Z),
       EnhancedNewsCrew._extract_retry_delay error_message = Ok (Some N) ->
       EnhancedNewsCrew._calculate_wait_time EnhancedNewsCrew.init attempt error_message
       = Ok (N + 10)).
Proof.
  intros H. specialize (H 0%nat "seconds: 0" 0 ltac:(vm_compute; reflexivity)).
  vm_compute in H. discriminate H.
Qed.

(** C5, amended: with base 30 and cap 300 the crew-level wait is
    min(30 * 2^a, 300) when no delay is extracted, that is 30, 60, 120, 240
    and 300 for the attempts 0 to 4, and N + 10 when a delay N of at least
    one second is extracted and N + 10 has no more than 4300 digits. *)
Theorem crew_calculate_wait_time (attempt : nat) (error_message : string) :
  (EnhancedNewsCrew._extract_retry_delay error_message = Ok None ->
     EnhancedNewsCrew._calculate_wait_time EnhancedNewsCrew.init attempt error_message
     = Ok (Z.min (30 * 2 ^ Z.of_nat attempt) 300)
     /\ map (fun a => EnhancedNewsCrew._calculate_wait_time EnhancedNewsCrew.init a error_message)
            [0; 1; 2; 3; 4]%nat
        = [Ok 30; Ok 60; Ok 120; Ok 240; Ok 300])
  /\ (forall N, EnhancedNewsCrew._extract_retry_delay error_message = Ok (Some N) ->
        1 <= N -> N + 10 < int_str_limit ->
        EnhancedNewsCrew._calculate_wait_time EnhancedNewsCrew.init attempt error_message
        = Ok (N + 10)).
Proof.
  split.
  - intros H. split.
    + rewrite (calculate_wait_time_eq _ attempt _ H). apply exponential_backoff_init.
    + cbn [map]. rewrite !(calculate_wait_time_eq _ _ _ H), !exponential_backoff_init.
      reflexivity.
  - intros N H HN Hfits. rewrite (calculate_wait_time_eq _ attempt _ H).
    destruct (delay_plus_ten HN Hfits) as (-> & -> & ->). reflexivity.
Qed.

Lemma crew_calculate_wait_time_witness :
  EnhancedNewsCrew._calculate_wait_time EnhancedNewsCrew.init 4 "429 RESOURCE_EXHAUSTED" = Ok 300
  /\ EnhancedNewsCrew._calculate_wait_time EnhancedNewsCrew.init 1
       "429 quota retry_delay { seconds: 42 }" = Ok 52.
Proof.
  split.
  - apply (proj1 (crew_calculate_wait_time 4 "429 RESOURCE_EXHAUSTED")).
    vm_compute. reflexivity.
  - apply (proj2 (crew_calculate_wait_time 1 "429 quota retry_delay { seconds: 42 }") 42).
    + vm_compute. reflexivity.
    + lia.
    + vm_compute. reflexivity.
Defined.

(** ** C10: a delay of zero seconds *)

(** C10: when the extracted delay is 0, as on the text [seconds: 0], the LLM
    layer waits the flat 70 seconds and the crew layer the exponential value,
    not 0 + 10. *)
Theorem zero_delay_treated_as_absent (error : exn) (attempt : nat) :
  (QuotaAwareLLM._extract_retry_delay (str error) = Ok (Some 0) ->
     QuotaAwareLLM._handle_quota_error error = Ok 70)
  /\ (EnhancedNewsCrew._extract_retry_delay (str error) = Ok (Some 0) ->
        EnhancedNewsCrew._calculate_wait_time EnhancedNewsCrew.init attempt (str error)
        = Ok (Z.min (30 * 2 ^ Z.of_nat attempt) 300))
  /\ QuotaAwareLLM.truthy (Some 0) = false
  /\ QuotaAwareLLM._extract_retry_delay "seconds: 0" = Ok (Some 0)
  /\ EnhancedNewsCrew._extract_retry_delay "seconds: 0" = Ok (Some 0).
Proof.
  split; [|split; [|repeat split; reflexivity]].
  - intros H. now rewrite (handle_quota_error_eq _ H).
  - intros H. rewrite (calculate_wait_time_eq _ attempt _ H).
    apply exponential_backoff_init.
Qed.

Lemma zero_delay_treated_as_absent_witness :
  QuotaAwareLLM._handle_quota_error (Exception "seconds: 0") = Ok 70
  /\ EnhancedNewsCrew._calculate_wait_time EnhancedNewsCrew.init 1 "seconds: 0" = Ok 60.
Proof.
  destruct (zero_delay_treated_as_absent (Exception "seconds: 0") 1) as (Hllm & Hcrew & _).
  split; [apply Hllm | apply Hcrew]; reflexivity.
Defined.

(** ** C4: the sliding-window rate limiter *)

Section ListFacts.


Lemma filter_length_all (A : Type) (f : A -> bool) (l : list A) :
  (length (filter f l) <= length l)%nat.
Proof. induction l as [|a l IH]; simpl; [lia|]. destruct (f a); simpl; lia. Qed.


Lemma fold_min_spec (l : list Z) : forall x,
  let m := fold_left Z.min l x in
  (m = x \/ In m l) /\ m <= x /\ (forall y, In y l -> m <= y).
Proof.
  induction l as [|a l IH]; intros x; simpl.
  - repeat split; [now left | lia | contradiction].
  - destruct (IH (Z.min x a)) as (Hin & Hle & Hall). repeat split.
    + destruct Hin as [Hm|Hm]; [|now right; right].
      rewrite Hm. destruct (Z.min_spec x a) as [[_ ->]|[_ ->]]; [now left | right; now left].
    + lia.
    + intros y [<-|Hy]; [lia | now apply Hall].
Qed.

Lemma py_min_spec (l : list Z) :
  l <> [] ->
  exists m, Runtime.py_min l = Ok m /\ In m l /\ (forall y, In y l -> m <= y).
Proof.
  destruct l as [|x l]; [congruence|]. intros _.
  destruct (fold_min_spec l x) as (Hin & Hle & Hall).
  exists (fold_left Z.min l x). split; [reflexivity|]. split.
  - destruct Hin as [->|Hin]; [now left | now right].
  - intros y [<-|Hy]; [exact Hle | now apply Hall].
Qed.

End ListFacts.

Section LimiterFacts.
Import Runtime.
Local Open Scope list_scope.
Variable lag : nat -> Z.
Variable requests_per_minute : Z.
Variable buffer : Z.
Variable pause : option Z.
Hypothesis ceiling_pos : 1 <= requests_per_minute.
Hypothesis buffer_nonneg : 0 <= buffer.
Hypothesis pause_nonneg : pause_ok pause.

Local Abbreviation acquire := (Limiter.wait_for_rate_limit lag requests_per_minute buffer pause).

Ltac step_monad :=
  unfold Limiter.wait_for_rate_limit, bind, emit, now, get_request_times,
    set_request_times, lift, ret; cbn [clock tick calls request_times trace].

(** The call returns, leaves the invocation count alone, and logs itself;
    the clock is read first, the history is pruned, and the new timestamp is
    the final clock.  Under a clock that never runs backwards, a call that
    finds the ceiling reached ends no earlier than when the oldest retained
    timestamp has left the window by the buffer. *)
Lemma wait_for_rate_limit_returns (w : world) :
  let kept := pruned (clock w + lag (tick w)) (request_times w) in
  exists w',
    acquire w = (Ok tt, w')
    /\ calls w' = calls w
    /\ trace w' = trace w ++ [EAcquire]
    /\ request_times w' = kept ++ [clock w']
    /\ ((forall k, 0 <= lag k) ->
        clock w + lag (tick w) <= clock w'
        /\ (requests_per_minute <= Z.of_nat (length kept) ->
            exists oldest,
              In oldest kept /\ (forall y, In y kept -> oldest <= y)
              /\ oldest + minute + buffer * second <= clock w')).
Proof.
  intros kept0. step_monad.
  set (t1 := clock w + lag (tick w)).
  set (kept := filter (fun req_time => req_time >? t1 - minute) (request_times w)).
  change kept0 with kept. clear kept0.
  assert (Hpause : forall w1 : world, request_times w1 = kept -> calls w1 = calls w ->
            trace w1 = trace w ++ [EAcquire] ->
            exists w',
              (let (r, w2) := match pause with
                              | Some d => sleep lag (d * second)
                              | None => fun w0 => (Ok tt, w0)
                              end w1 in
               match r with
               | Ok _ =>
                   (Ok tt, mkWorld (clock w2 + lag (tick w2)) (S (tick w2)) (calls w2)
                             (request_times w2 ++ [clock w2 + lag (tick w2)]) (trace w2))
               | Raised e => (Raised e, w2)
               end) = (Ok tt, w')
              /\ calls w' = calls w /\ trace w' = trace w ++ [EAcquire]
              /\ request_times w' = kept ++ [clock w']
              /\ ((forall k, 0 <= lag k) -> clock w1 <= clock w')).
  { intros w1 Hrt Hc Htr. destruct pause as [d|].
    - unfold sleep. simpl in pause_nonneg.
      assert (Hd : (d * second <? 0) = false) by (apply Z.ltb_ge; unfold second; lia).
      rewrite Hd. cbn [clock tick calls request_times trace].
      eexists; split; [reflexivity|]. cbn [calls trace request_times clock].
      rewrite Hrt, Hc, Htr. repeat split.
      intros Hlag. pose proof (Hlag (tick w1)). pose proof (Hlag (S (tick w1))).
      unfold second. lia.
    - eexists; split; [reflexivity|]. cbn [calls trace request_times clock].
      rewrite Hrt, Hc, Htr. repeat split.
      intros Hlag. pose proof (Hlag (tick w1)). lia. }
  destruct (Z.of_nat (length kept) >=? requests_per_minute) eqn:Hfull.
  - assert (Hne : kept <> []).
    { intros E. rewrite E in Hfull. simpl in Hfull. apply Z.geb_le in Hfull. lia. }
    destruct (py_min_spec Hne) as (oldest & Hmin & Hin & Hall).
    rewrite Hmin.
    assert (Hold : t1 - minute < oldest).
    { unfold kept in Hin. apply filter_In in Hin as [_ Hin]. now apply Z.gtb_lt in Hin. }
    assert (Hw : (oldest + minute - t1 >? 0) = true) by (apply Z.gtb_lt; lia).
    rewrite Hw. unfold sleep at 1. cbn [clock tick calls request_times trace].
    assert (Hd : (oldest + minute - t1 + buffer * second <? 0) = false)
      by (apply Z.ltb_ge; unfold second; lia).
    rewrite Hd.
    edestruct Hpause as (w' & Hrun & Hc & Htr & Hrt & Hclk);
      [| | | exists w'; split; [exact Hrun|]]; try reflexivity.
    repeat (split; [assumption|]).
    intros Hlag. specialize (Hclk Hlag). cbn [clock tick] in Hclk.
    pose proof (Hlag (S (tick w))). split; [unfold second in *; lia|].
    intros _. exists oldest. repeat split; [exact Hin | exact Hall | lia].
  - edestruct Hpause as (w' & Hrun & Hc & Htr & Hrt & Hclk);
      [| | | exists w'; split; [exact Hrun|]]; try reflexivity.
    repeat (split; [assumption|]).
    intros Hlag. specialize (Hclk Hlag). cbn [clock tick] in Hclk.
    split; [exact Hclk|]. intros Hc'. rewrite Z.geb_leb in Hfull.
    apply Z.leb_gt in Hfull. lia.
Qed.

Hypothesis lag_nonneg : forall k, 0 <= lag k.




End LimiterFacts.

Lemma acquire_unfold (kind : limiter) (lag : nat -> Z) (ceiling : Z) :
  kind <> LLMLimiter ->
  acquire kind lag ceiling
  = Limiter.wait_for_rate_limit lag ceiling (buffer_of kind) (pause_of kind).
Proof. destruct kind; [congruence | reflexivity | reflexivity]. Qed.

(** The limiter of the LLM layer reads the clock once and raises at the
    assignment of the pruned history. *)
Lemma llm_limiter_step (lag : nat -> Z) (self : QuotaAwareLLM.self_t) (w : world) :
  QuotaAwareLLM._wait_for_rate_limit lag self w
  = (Raised (no_field "QuotaAwareLLM" "request_times"),
     mkWorld (clock w + lag (tick w)) (S (tick w)) (calls w) (request_times w)
       (trace w ++ [EAcquire])%list).
Proof. reflexivity. Qed.

(** C4 (the LLM-layer code departs from it): whatever the ceiling, the
    history and the clock, a call of the LLM limiter raises the error of the
    assignment of an attribute that is no field of the model.  It reads the
    clock once and does nothing else: the history is not pruned, nothing is
    slept, and no timestamp is recorded.  The classifier of that layer takes
    the error for a quota error. *)
Theorem llm_limiter_raises_on_assignment (lag : nat -> Z) (ceiling : Z) (w : world) :
  exists w',
    acquire LLMLimiter lag ceiling w
    = (Raised (no_field "QuotaAwareLLM" "request_times"), w')
    /\ request_times w' = request_times w
    /\ clock w' = clock w + lag (tick w)
    /\ tick w' = S (tick w)
    /\ QuotaAwareLLM._is_quota_error (no_field "QuotaAwareLLM" "request_times") = true.
Proof.
  unfold acquire. rewrite llm_limiter_step. eexists.
  repeat split.
Qed.

(** ** The monad *)

Section MonadFacts.
Import Runtime.
Variables A B : Type.

Lemma bind_ok (m : M A) (k : A -> M B) (w w' : world) (a : A) :
  m w = (Ok a, w') -> bind m k w = k a w'.
Proof. intros H. unfold bind. now rewrite H. Qed.

Lemma bind_raised (m : M A) (k : A -> M B) (w w' : world) (e : exn) :
  m w = (Raised e, w') -> bind m k w = (Raised e, w').
Proof. intros H. unfold bind. now rewrite H. Qed.

Lemma try_ok (m : M A) (h : exn -> M A) (w w' : world) (a : A) :
  m w = (Ok a, w') -> try_except m h w = (Ok a, w').
Proof. intros H. unfold try_except. now rewrite H. Qed.

Lemma try_raised (m : M A) (h : exn -> M A) (w w' : world) (e : exn) :
  m w = (Raised e, w') -> try_except m h w = h e w'.
Proof. intros H. unfold try_except. now rewrite H. Qed.

End MonadFacts.
Arguments bind_ok {A B m} k {w w' a} _.
Arguments bind_raised {A B m} k {w w' e} _.
Arguments try_ok {A m} h {w w' a} _.
Arguments try_raised {A m} h {w w' e} _.

(** ** The retry driver of the LLM layer *)

Section LLMFacts.
Import Runtime.
Local Open Scope list_scope.
Variable R : Type.
Variable lag : nat -> Z.
Variable op : nat -> Z -> exc R.
Variable self : QuotaAwareLLM.self_t.

Local Abbreviation loop := (QuotaAwareLLM.attempts_loop lag op self).
Local Abbreviation max := (QuotaAwareLLM.max_quota_retries self).
Local Abbreviation no_field_error := (no_field "QuotaAwareLLM" "request_times").

(** The error of the limiter reads as a quota error, for its text names the
    class [QuotaAwareLLM], and it carries no delay. *)
Lemma no_field_is_quota_error : QuotaAwareLLM._is_quota_error no_field_error = true.
Proof. vm_compute. reflexivity. Qed.

Lemma no_field_wait : QuotaAwareLLM._handle_quota_error no_field_error = Ok 70.
Proof. vm_compute. reflexivity. Qed.

Lemma llm_countdown (n : nat) : forall w,
  exists w',
    QuotaAwareLLM.countdown lag n w = (Ok tt, w')
    /\ calls w' = calls w /\ trace w' = trace w
    /\ request_times w' = request_times w
    /\ tick w' = (tick w + n)%nat
    /\ (n = 0%nat -> clock w' = clock w)
    /\ ((forall k, 0 <= lag k) -> clock w + Z.of_nat n * second <= clock w').
Proof.
  induction n as [|n IH]; intros w.
  - exists w. repeat split; [simpl; lia | intros; lia].
  - cbn [QuotaAwareLLM.countdown]. unfold bind, sleep.
    change (1 * second <? 0) with false. cbv iota.
    edestruct IH as (w' & Hrun & Hc & Htr & Hrt & Ht & _ & Hclk). exists w'.
    split; [exact Hrun|]. cbn [clock tick calls request_times trace] in *.
    repeat split; try assumption; try lia; try discriminate.
    intros Hlag. specialize (Hclk Hlag). pose proof (Hlag (tick w)). lia.
Qed.

Lemma llm_countdown_wait (secs : Z) (w : world) :
  Z.abs secs < int_str_limit ->
  exists w',
    QuotaAwareLLM._countdown_wait lag secs w = (Ok tt, w')
    /\ calls w' = calls w
    /\ trace w' = trace w ++ [ECountdown secs (request_times w)]
    /\ request_times w' = request_times w
    /\ tick w' = (tick w + Z.to_nat secs)%nat
    /\ (secs <= 0 -> clock w' = clock w)
    /\ ((forall k, 0 <= lag k) -> clock w + secs * second <= clock w').
Proof.
  intros Hfits.
  unfold QuotaAwareLLM._countdown_wait, bind, get_request_times, emit, lift.
  rewrite (@format_int_ok _ Hfits).
  edestruct llm_countdown as (w' & Hrun & Hc & Htr & Hrt & Ht & H0 & Hclk). exists w'.
  split; [exact Hrun|]. cbn [clock tick calls request_times trace] in *.
  repeat split; try assumption.
  - intros Hle. apply H0. lia.
  - intros Hlag. specialize (Hclk Hlag). unfold second in *. lia.
Qed.

Lemma llm_countdown_wait_raises (secs : Z) (w : world) :
  int_str_limit <= Z.abs secs ->
  QuotaAwareLLM._countdown_wait lag secs w
  = (Raised int_too_long,
     mkWorld (clock w) (tick w) (calls w) (request_times w)
       (trace w ++ [ECountdown secs (request_times w)])).
Proof.
  intros Hlong.
  unfold QuotaAwareLLM._countdown_wait, bind, get_request_times, emit, lift.
  now rewrite (@format_int_raises _ Hlong).
Qed.

(** What a turn of the loop tries: it ends in the limiter, before the
    operation. *)
Lemma llm_turn_body (w : world) :
  (QuotaAwareLLM._wait_for_rate_limit lag self ;;
   result <- call_op op ;; ret result)%monad w
  = (Raised no_field_error,
     mkWorld (clock w + lag (tick w)) (S (tick w)) (calls w) (request_times w)
       (trace w ++ [EAcquire])).
Proof. exact (bind_raised _ (llm_limiter_step lag self w)). Qed.

(** A turn that is not the last: the history is cleared, the driver waits
    70 seconds and goes on, the operation not invoked. *)
Lemma llm_retry_turn (final : exn) (attempt : nat) (rest : list nat) (w : world) :
  (attempt < max - 1)%nat ->
  exists w',
    loop final (attempt :: rest) w = loop final rest w'
    /\ calls w' = calls w
    /\ request_times w' = []
    /\ trace w' = trace w ++ [EAcquire; EClear; ECountdown 70 []]
    /\ tick w' = (tick w + 71)%nat
    /\ ((forall k, 0 <= lag k) -> clock w + 70 * second <= clock w').
Proof.
  intros Hlt. cbn [QuotaAwareLLM.attempts_loop].
  rewrite (try_raised _ (llm_turn_body w)). cbv beta.
  rewrite no_field_is_quota_error.
  apply Nat.ltb_lt in Hlt. rewrite Hlt.
  unfold bind at 1, lift at 1. rewrite no_field_wait.
  unfold bind at 1, set_request_times at 1.
  unfold bind at 1, emit at 1. cbn [clock tick calls request_times trace].
  match goal with
  | |- context [bind (QuotaAwareLLM._countdown_wait lag 70) _ ?w3] =>
      destruct (@llm_countdown_wait 70 w3 ltac:(pose proof small_below_limit; lia))
        as (w' & Hrun & Hc & Htr & Hrt & Ht & _ & Hclk)
  end.
  exists w'. rewrite (bind_ok _ Hrun). cbn [clock tick calls request_times trace] in *.
  split; [reflexivity|]. split; [exact Hc|]. split; [exact Hrt|].
  split; [rewrite Htr, <- !app_assoc; reflexivity|].
  split; [rewrite Ht; simpl; lia|].
  intros Hlag. specialize (Hclk Hlag). pose proof (Hlag (tick w)). lia.
Qed.

(** The last turn: the aggregate error, the operation not invoked. *)
Lemma llm_last_turn (final : exn) (attempt : nat) (rest : list nat) (w : world) :
  (max - 1 <= attempt)%nat ->
  loop final (attempt :: rest) w
  = (Raised (QuotaAwareLLM.quota_exceeded self),
     mkWorld (clock w + lag (tick w)) (S (tick w)) (calls w) (request_times w)
       (trace w ++ [EAcquire])).
Proof.
  intros Hge. cbn [QuotaAwareLLM.attempts_loop].
  rewrite (try_raised _ (llm_turn_body w)). cbv beta.
  rewrite no_field_is_quota_error.
  apply Nat.ltb_ge in Hge. now rewrite Hge.
Qed.

(** The loop over the attempts [a, ..., max - 1]: a retry turn for each but
    the last, then the aggregate error. *)
Lemma llm_loop_run (final : exn) (n : nat) : forall (a : nat) (w : world),
  (a + S n = max)%nat ->
  exists w',
    loop final (seq a (S n)) w = (Raised (QuotaAwareLLM.quota_exceeded self), w')
    /\ calls w' = calls w
    /\ trace w' = trace w ++ concat (repeat llm_retry_events n) ++ [EAcquire]
    /\ ((forall k, 0 <= lag k) -> clock w + Z.of_nat n * (70 * second) <= clock w').
Proof.
  induction n as [|n IH]; intros a w Ha.
  - change (seq a 1) with [a]. rewrite (@llm_last_turn final a [] w ltac:(lia)). eexists.
    split; [reflexivity|]. cbn [clock tick calls request_times trace repeat concat app].
    repeat split. intros Hlag. pose proof (Hlag (tick w)). lia.
  - destruct (@llm_retry_turn final a (seq (S a) (S n)) w ltac:(lia))
      as (w1 & Hrun1 & Hc1 & _ & Htr1 & _ & Hclk1).
    destruct (IH (S a) w1 ltac:(lia)) as (w' & Hrun & Hc & Htr & Hclk).
    exists w'. change (seq a (S (S n))) with (a :: seq (S a) (S n)).
    rewrite Hrun1. split; [exact Hrun|]. split; [lia|]. split.
    + rewrite Htr, Htr1. cbn [repeat concat]. unfold llm_retry_events.
      rewrite <- !app_assoc. reflexivity.
    + intros Hlag. specialize (Hclk Hlag). specialize (Hclk1 Hlag). lia.
Qed.

End LLMFacts.

(** ** C1: the retry drivers end to end *)

(** C1 (the LLM-layer code departs from it): with its five attempts the
    LLM-layer driver never invokes the operation, whatever the operation
    would do: return at once, raise a quota error twice and then return, or
    raise an error that is no quota error.  Each attempt ends in the limiter,
    whose error reads as a quota error; the driver waits 70 seconds four
    times and raises the aggregate error that names the five attempts. *)
Theorem llm_driver_never_invokes_operation
    (R : Type) (lag : nat -> Z) (op : nat -> Z -> exc R) (w : world) :
  exists w',
    QuotaAwareLLM.invoke lag op QuotaAwareLLM.init w
    = (Raised (QuotaAwareLLM.quota_exceeded QuotaAwareLLM.init), w')
    /\ calls w' = calls w
    /\ ((forall k, 0 <= lag k) -> clock w + 280 * second <= clock w')
    /\ str (QuotaAwareLLM.quota_exceeded QuotaAwareLLM.init)
       = "Google API quota exceeded after 5 attempts. Please check your quota at https://ai.google.dev/gemini-api/docs/rate-limits or try again later.".
Proof.
  unfold QuotaAwareLLM.invoke.
  destruct (@llm_loop_run R lag op QuotaAwareLLM.init
              (Exception "Failed to invoke LLM after maximum attempts") 4 0%nat w eq_refl)
    as (w' & Hrun & Hc & Htr & Hclk).
  exists w'. split; [exact Hrun|]. split; [exact Hc|].
  split; [|reflexivity]. intros Hlag. specialize (Hclk Hlag). unfold second in *. lia.
Qed.

(** ** The retry driver of the crew layer *)

Section CrewFacts.
Import Runtime.
Local Open Scope list_scope.
Variable R : Type.
Variable lag : nat -> Z.
Variable kickoff : nat -> Z -> exc R.
Variable self : EnhancedNewsCrew.self_t.

Local Abbreviation loop := (EnhancedNewsCrew.attempts_loop lag kickoff self).
Local Abbreviation max := (EnhancedNewsCrew.max_retries self).

Lemma crew_countdown (n : nat) : forall w,
  exists w',
    EnhancedNewsCrew.countdown lag n w = (Ok tt, w')
    /\ calls w' = calls w /\ trace w' = trace w
    /\ request_times w' = request_times w
    /\ tick w' = (tick w + n)%nat
    /\ (n = 0%nat -> clock w' = clock w)
    /\ ((forall k, 0 <= lag k) -> clock w + Z.of_nat n * second <= clock w').
Proof.
  induction n as [|n IH]; intros w.
  - exists w. repeat split; [simpl; lia | intros; lia].
  - cbn [EnhancedNewsCrew.countdown]. unfold bind, sleep.
    change (1 * second <? 0) with false. cbv iota.
    edestruct IH as (w' & Hrun & Hc & Htr & Hrt & Ht & _ & Hclk). exists w'.
    split; [exact Hrun|]. cbn [clock tick calls request_times trace] in *.
    repeat split; try assumption; try lia; try discriminate.
    intros Hlag. specialize (Hclk Hlag). pose proof (Hlag (tick w)). lia.
Qed.

Lemma crew_countdown_wait (secs : Z) (w : world) :
  Z.abs secs < int_str_limit ->
  exists w',
    EnhancedNewsCrew._countdown_wait lag secs w = (Ok tt, w')
    /\ calls w' = calls w
    /\ trace w' = trace w ++ [ECountdown secs (request_times w)]
    /\ request_times w' = request_times w
    /\ tick w' = (tick w + Z.to_nat secs)%nat
    /\ (secs <= 0 -> clock w' = clock w)
    /\ ((forall k, 0 <= lag k) -> clock w + secs * second <= clock w').
Proof.
  intros Hfits.
  unfold EnhancedNewsCrew._countdown_wait, bind, get_request_times, emit, lift.
  rewrite (@format_int_ok _ Hfits).
  edestruct crew_countdown as (w' & Hrun & Hc & Htr & Hrt & Ht & H0 & Hclk). exists w'.
  split; [exact Hrun|]. cbn [clock tick calls request_times trace] in *.
  repeat split; try assumption.
  - intros Hle. apply H0. lia.
  - intros Hlag. specialize (Hclk Hlag). unfold second in *. lia.
Qed.

Lemma crew_countdown_wait_raises (secs : Z) (w : world) :
  int_str_limit <= Z.abs secs ->
  EnhancedNewsCrew._countdown_wait lag secs w
  = (Raised int_too_long,
     mkWorld (clock w) (tick w) (calls w) (request_times w)
       (trace w ++ [ECountdown secs (request_times w)])).
Proof.
  intros Hlong.
  unfold EnhancedNewsCrew._countdown_wait, bind, get_request_times, emit, lift.
  now rewrite (@format_int_raises _ Hlong).
Qed.

(** The wait calculator returns a wait that can be logged, or raises the
    error of the log line. *)
Lemma calculate_wait_time_outcome (attempt : nat) (error_message : string) :
  (exists wait_time,
     EnhancedNewsCrew._calculate_wait_time self attempt error_message = Ok wait_time
     /\ Z.abs wait_time < int_str_limit)
  \/ EnhancedNewsCrew._calculate_wait_time self attempt error_message = Raised int_too_long.
Proof.
  assert (Hfmt : forall n (k : exc Z),
            exc_bind (format_int n) (fun _ => k) = k /\ Z.abs n < int_str_limit
            \/ exc_bind (format_int n) (fun _ => k) = Raised int_too_long).
  { intros n k. unfold format_int. destruct (Z.ltb_spec (Z.abs n) int_str_limit).
    - left. now split.
    - now right. }
  assert (Hexp : (exists wait_time,
                    EnhancedNewsCrew.exponential_backoff self attempt = Ok wait_time
                    /\ Z.abs wait_time < int_str_limit)
                 \/ EnhancedNewsCrew.exponential_backoff self attempt = Raised int_too_long).
  { unfold EnhancedNewsCrew.exponential_backoff. cbv zeta.
    match goal with
    | |- context [format_int ?n] =>
        destruct (Hfmt n (Ok n)) as [[-> Hn] | ->]; [left; eauto | now right]
    end. }
  destruct (crew_extract_ok error_message) as [r H].
  rewrite (calculate_wait_time_eq self attempt _ H).
  destruct r as [n|]; [|exact Hexp]. destruct (n =? 0); [exact Hexp|].
  destruct (Hfmt n (exc_bind (format_int (n + 10)) (fun _ => Ok (n + 10)))) as [[-> _] | ->];
    [|now right].
  destruct (Hfmt (n + 10) (Ok (n + 10))) as [[-> Hn] | ->]; [left; eauto | now right].
Qed.

(** One turn of the loop: after the progressive delay the operation is
    invoked once, and then the turn returns its result, re-raises its error,
    raises the aggregate error, waits and goes on, or raises the error of
    the log line of the wait.  No turn touches a limiter history. *)
Lemma crew_attempt (attempt : nat) (rest : list nat) (w : world) :
  exists t,
    (exists v w', kickoff (calls w) t = Ok v
       /\ loop (attempt :: rest) w = (Ok (Some v), w')
       /\ calls w' = S (calls w)
       /\ request_times w' = request_times w
       /\ trace w' = trace w ++ progressive_delay attempt ++ [ECall (calls w)])
    \/ (exists e w', kickoff (calls w) t = Raised e
       /\ EnhancedNewsCrew._is_quota_error (str e) = false
       /\ loop (attempt :: rest) w = (Raised e, w')
       /\ calls w' = S (calls w)
       /\ request_times w' = request_times w
       /\ trace w' = trace w ++ progressive_delay attempt ++ [ECall (calls w)])
    \/ (exists e w', kickoff (calls w) t = Raised e
       /\ EnhancedNewsCrew._is_quota_error (str e) = true
       /\ (max - 1 <= attempt)%nat
       /\ loop (attempt :: rest) w = (Raised (EnhancedNewsCrew.quota_exceeded self), w')
       /\ calls w' = S (calls w)
       /\ request_times w' = request_times w
       /\ trace w' = trace w ++ progressive_delay attempt ++ [ECall (calls w)])
    \/ (exists e wait_time w', kickoff (calls w) t = Raised e
       /\ EnhancedNewsCrew._is_quota_error (str e) = true
       /\ (attempt < max - 1)%nat
       /\ EnhancedNewsCrew._calculate_wait_time self attempt (str e) = Ok wait_time
       /\ loop (attempt :: rest) w = loop rest w'
       /\ calls w' = S (calls w)
       /\ request_times w' = request_times w
       /\ trace w' = trace w ++ progressive_delay attempt
                     ++ [ECall (calls w); ECountdown wait_time (request_times w)])
    \/ (exists e w', kickoff (calls w) t = Raised e
       /\ EnhancedNewsCrew._is_quota_error (str e) = true
       /\ (attempt < max - 1)%nat
       /\ EnhancedNewsCrew._calculate_wait_time self attempt (str e) = Raised int_too_long
       /\ loop (attempt :: rest) w = (Raised int_too_long, w')
       /\ calls w' = S (calls w)
       /\ request_times w' = request_times w
       /\ trace w' = trace w ++ progressive_delay attempt ++ [ECall (calls w)]).
Proof.
  assert (Hdelay : exists w1,
            (if (0 <? attempt)%nat
             then (let delay := 15 + Z.of_nat attempt * 10 in
                   emit (EDelay delay) ;; sleep lag (delay * second))%monad
             else ret tt) w = (Ok tt, w1)
            /\ calls w1 = calls w /\ request_times w1 = request_times w
            /\ trace w1 = trace w ++ progressive_delay attempt).
  { unfold progressive_delay. destruct (0 <? attempt)%nat.
    - cbv zeta. unfold bind, emit, sleep. cbn [clock tick calls request_times trace].
      assert (Hd : ((15 + Z.of_nat attempt * 10) * second <? 0) = false)
        by (apply Z.ltb_ge; unfold second; lia).
      rewrite Hd. eexists. repeat split.
    - exists w. repeat split. now rewrite app_nil_r. }
  destruct Hdelay as (w1 & Hdelay & Hc1 & Hrt1 & Htr1).
  set (w2 := mkWorld (clock w1) (tick w1) (S (calls w)) (request_times w1)
               (trace w ++ progressive_delay attempt ++ [ECall (calls w)])).
  assert (Hbody : ((if (0 <? attempt)%nat
                    then (let delay := 15 + Z.of_nat attempt * 10 in
                          emit (EDelay delay) ;; sleep lag (delay * second))
                    else ret tt) ;;
                   result <- call_op kickoff ;; ret (Some result))%monad w
                  = (match kickoff (calls w) (clock w1) with
                     | Ok v => Ok (Some v)
                     | Raised e => Raised e
                     end, w2)).
  { rewrite (bind_ok _ Hdelay). unfold bind, call_op, ret.
    rewrite Hc1, Htr1, <- app_assoc. now destruct (kickoff (calls w) (clock w1)). }
  exists (clock w1). cbn [EnhancedNewsCrew.attempts_loop].
  destruct (kickoff (calls w) (clock w1)) as [v|e] eqn:Hop.
  { left. exists v, w2. rewrite (try_ok _ Hbody). repeat split. exact Hrt1. }
  right. rewrite (try_raised _ Hbody). cbv beta zeta.
  destruct (EnhancedNewsCrew._is_quota_error (str e)) eqn:Hq.
  2:{ left. exists e, w2. repeat split; assumption. }
  right.
  destruct (Nat.ltb_spec attempt (EnhancedNewsCrew.max_retries self - 1)) as [Hlt|Hge].
  2:{ left. exists e, w2. repeat split; assumption. }
  right. destruct (calculate_wait_time_outcome attempt (str e))
    as [(wait_time & Hwait & Hfits)|Hwait].
  - left. destruct (@crew_countdown_wait wait_time w2 Hfits) as (w' & Hrun & Hc & Htr & Hrt & _).
    exists e, wait_time, w'.
    repeat (split; [reflexivity || assumption|]).
    split; [|split; [exact Hc|split]].
    + unfold bind at 1, lift at 1. rewrite Hwait. now rewrite (bind_ok _ Hrun).
    + rewrite Hrt. exact Hrt1.
    + rewrite Htr. unfold w2. cbn [trace request_times]. rewrite Hrt1.
      now rewrite <- !app_assoc.
  - right. exists e, w2.
    repeat (split; [reflexivity || assumption|]).
    split; [|repeat split; exact Hrt1].
    unfold bind at 1, lift at 1. now rewrite Hwait.
Qed.

(** Before the loop: the crew is built and the run sleeps ten seconds. *)
Lemma crew_execute_unfold (w : world) :
  exists w1,
    EnhancedNewsCrew.execute_with_retry lag kickoff (Ok true) self w
    = loop (seq 0 max) w1
    /\ calls w1 = calls w /\ request_times w1 = request_times w
    /\ trace w1 = trace w ++ [EDelay 10].
Proof.
  unfold EnhancedNewsCrew.execute_with_retry, bind, lift, emit, sleep.
  cbn [negb clock tick calls request_times trace].
  change (10 * second <? 0) with false. cbv iota.
  eexists. split; [reflexivity|]. repeat split.
Qed.

End CrewFacts.

(** ** C6: the limiter inside the retry drivers *)

Section Traces.
Import Runtime.
Local Open Scope list_scope.
Variable R : Type.
Variable lag : nat -> Z.
Variable op : nat -> Z -> exc R.

Lemma crew_loop_no_limiter (self : EnhancedNewsCrew.self_t) (attempts : list nat) :
  forall w,
    let w' := snd (EnhancedNewsCrew.attempts_loop lag op self attempts w) in
    request_times w' = request_times w
    /\ exists tr, trace w' = trace w ++ tr
                  /\ forallb (fun e => negb (touches_limiter e)) tr = true.
Proof.
  assert (Hdelay : forall a tail,
            forallb (fun e => negb (touches_limiter e)) tail = true ->
            forallb (fun e => negb (touches_limiter e)) (progressive_delay a ++ tail) = true).
  { intros a tail H. unfold progressive_delay. now destruct (0 <? a)%nat. }
  induction attempts as [|attempt rest IH]; intros w; cbv zeta.
  - split; [reflexivity|]. exists []. split; [simpl; now rewrite app_nil_r | reflexivity].
  - destruct (crew_attempt lag op self attempt rest w)
      as (t & [(rv & w' & _ & Hrun & _ & Hrt & Htr)
              |[(re & w' & _ & _ & Hrun & _ & Hrt & Htr)
               |[(re & w' & _ & _ & _ & Hrun & _ & Hrt & Htr)
                |[(re & wt & w' & _ & _ & _ & _ & Hrun & _ & Hrt & Htr)
                 |(re & w' & _ & _ & _ & _ & Hrun & _ & Hrt & Htr)]]]]);
      rewrite Hrun;
      try (split; [exact Hrt|]; eexists; split; [exact Htr | now apply Hdelay]).
    destruct (IH w') as (Hrt' & tr & Htr' & Hno). cbv zeta in *.
    split; [now rewrite Hrt'|].
    exists ((progressive_delay attempt
             ++ [ECall (calls w); ECountdown wt (request_times w)]) ++ tr).
    split; [rewrite Htr', Htr, <- !app_assoc; reflexivity|].
    rewrite forallb_app, Hno, andb_true_r. now apply Hdelay.
Qed.

(** Every invocation of a run comes right after its sleep: the ten seconds
    before the first, the progressive delay before a retry. *)
Lemma crew_loop_spaced (self : EnhancedNewsCrew.self_t) (first : nat) (n : nat) :
  forall (a : nat) (w : world) (prev : option event),
    calls w = (first + a)%nat ->
    (a = 0%nat -> prev = Some (EDelay 10)) ->
    exists tr,
      trace (snd (EnhancedNewsCrew.attempts_loop lag op self (seq a n) w)) = trace w ++ tr
      /\ spaced first prev tr = true.
Proof.
  induction n as [|n IH]; intros a w prev Hcalls Hprev.
  - exists []. split; [simpl; now rewrite app_nil_r | reflexivity].
  - assert (Hturn : forall tail,
              spaced first (Some (ECall (calls w))) tail = true ->
              spaced first prev (progressive_delay a ++ ECall (calls w) :: tail) = true).
    { intros tail Htail. unfold progressive_delay.
      replace (calls w - first)%nat with a in * by lia.
      destruct a as [|a'].
      - rewrite (Hprev eq_refl). cbn [Nat.ltb Nat.leb app spaced].
        replace (calls w - first)%nat with 0%nat by lia. now rewrite Htail.
      - change (0 <? S a')%nat with true. cbn [app spaced andb].
        replace (calls w - first)%nat with (S a') by lia.
        rewrite Htail, andb_true_r. apply Z.eqb_eq. unfold sleep_before.
        change (S a' =? 0)%nat with false. cbv iota. lia. }
    cbn [seq].
    destruct (crew_attempt lag op self a (seq (S a) n) w)
      as (t & [(rv & w' & _ & Hrun & _ & _ & Htr)
              |[(re & w' & _ & _ & Hrun & _ & _ & Htr)
               |[(re & w' & _ & _ & _ & Hrun & _ & _ & Htr)
                |[(re & wt & w' & _ & _ & _ & _ & Hrun & Hc' & _ & Htr)
                 |(re & w' & _ & _ & _ & _ & Hrun & _ & _ & Htr)]]]]);
      rewrite Hrun;
      try (eexists; split; [exact Htr | now apply Hturn]).
    destruct (IH (S a) w' (Some (ECountdown wt (request_times w))) ltac:(lia)
                ltac:(discriminate)) as (tr & Htr' & Hsp).
    exists (progressive_delay a
            ++ ECall (calls w) :: ECountdown wt (request_times w) :: tr).
    split.
    + rewrite Htr', Htr, <- !app_assoc. reflexivity.
    + apply Hturn. cbn [spaced andb]. exact Hsp.
Qed.

End Traces.

(** C6 as stated fails for the crew-layer driver: on an operation that raises
    a quota error twice and then returns, with the timestamp 0 in the limiter
    history, the run makes three attempts and two waits without one acquire
    or clear, and both waits begin on the uncleared history. *)
Lemma crew_driver_no_limiter_counterexample :
  let w' := snd (EnhancedNewsCrew.execute_with_retry no_lag twice_quota_then_seven
                   (Ok true) EnhancedNewsCrew.init (mkWorld 0 0 0 [0] [])) in
  trace w' = [EDelay 10; ECall 0; ECountdown 30 [0]; EDelay 25; ECall 1;
              ECountdown 60 [0]; EDelay 35; ECall 2]
  /\ right_after is_acquire is_call None (trace w') = false
  /\ right_after is_clear is_countdown None (trace w') = false
  /\ waits_on_cleared_history (trace w') = false.
Proof. vm_compute. repeat split. Qed.

(** C6, amended: in the LLM-layer driver, [invoke] and [_generate] alike,
    each of the five attempts opens with an acquire of the limiter, and each
    of the four backoff waits comes right after the history is cleared and
    begins on an empty history; the acquire itself raises (C4), and it is
    on that error that the driver clears and waits, 70 seconds each time,
    whatever the operation.  The crew-layer driver has no limiter:
    whatever the operation does, its run never acquires, never clears, and
    leaves the limiter history as it was; it spaces its attempts by fixed
    sleeps instead, every invocation coming right after its own: 10 seconds
    before the first, 15 + 10 * attempt seconds before each retry.  Without
    a crew it does nothing at all. *)
Theorem llm_driver_acquires_and_clears
    (R : Type) (lag : nat -> Z) (op : nat -> Z -> exc R) (w : world) :
  let attempts :=
    [ EAcquire; EClear; ECountdown 70 [];
      EAcquire; EClear; ECountdown 70 [];
      EAcquire; EClear; ECountdown 70 [];
      EAcquire; EClear; ECountdown 70 [];
      EAcquire ] in
  let crew creation :=
    snd (EnhancedNewsCrew.execute_with_retry lag op creation EnhancedNewsCrew.init w) in
  trace (snd (QuotaAwareLLM.invoke lag op QuotaAwareLLM.init w)) = (trace w ++ attempts)%list
  /\ trace (snd (QuotaAwareLLM._generate lag op QuotaAwareLLM.init w))
     = (trace w ++ attempts)%list
  /\ right_after is_clear is_countdown None attempts = true
  /\ waits_on_cleared_history attempts = true
  /\ (request_times (crew (Ok true)) = request_times w
      /\ exists tr,
        trace (crew (Ok true)) = (trace w ++ EDelay 10 :: tr)%list
        /\ forallb (fun e => negb (touches_limiter e)) tr = true
        /\ spaced (calls w) (Some (EDelay 10)) tr = true)
  /\ crew (Ok false) = w
  /\ (forall e, crew (Raised e) = w).
Proof.
  cbv zeta.
  split; [|split; [|split; [reflexivity|split; [reflexivity|split; [|split]]]]].
  - destruct (@llm_loop_run R lag op QuotaAwareLLM.init
                (Exception "Failed to invoke LLM after maximum attempts") 4 0%nat w eq_refl)
      as (w' & Hrun & _ & Htr & _).
    unfold QuotaAwareLLM.invoke.
    change (seq 0 (QuotaAwareLLM.max_quota_retries QuotaAwareLLM.init)) with (seq 0 5).
    rewrite Hrun. exact Htr.
  - destruct (@llm_loop_run R lag op QuotaAwareLLM.init
                (Exception "Failed to generate LLM response after maximum attempts")
                4 0%nat w eq_refl)
      as (w' & Hrun & _ & Htr & _).
    unfold QuotaAwareLLM._generate.
    change (seq 0 (QuotaAwareLLM.max_quota_retries QuotaAwareLLM.init)) with (seq 0 5).
    rewrite Hrun. exact Htr.
  - destruct (crew_execute_unfold lag op EnhancedNewsCrew.init w)
      as (w1 & -> & Hc1 & Hrt1 & Htr1).
    destruct (crew_loop_no_limiter lag op EnhancedNewsCrew.init
                (seq 0 (EnhancedNewsCrew.max_retries EnhancedNewsCrew.init)) w1)
      as (Hrt & tr & Htr & Hno).
    destruct (@crew_loop_spaced R lag op EnhancedNewsCrew.init (calls w)
                (EnhancedNewsCrew.max_retries EnhancedNewsCrew.init) 0%nat w1
                (Some (EDelay 10)) ltac:(lia) ltac:(reflexivity))
      as (tr' & Htr' & Hsp).
    cbv zeta in Hrt, Htr. split; [now rewrite Hrt|].
    assert (tr' = tr) by (rewrite Htr in Htr'; now apply app_inv_head in Htr').
    subst tr'. exists tr. split; [|split; assumption].
    rewrite Htr, Htr1, <- app_assoc. reflexivity.
  - reflexivity.
  - reflexivity.
Qed.

(** ** C8: the exit status *)

(** C8 as stated fails: when every attempt raises a quota error the driver
    raises its aggregate error, [main] catches it and reports the failure,
    and the script ends with status 0. *)
Lemma quota_exhaustion_exits_zero_counterexample :
  fst (EnhancedNewsCrew.execute_with_retry no_lag always_quota (Ok true)
         EnhancedNewsCrew.init fresh_world)
  = Raised (EnhancedNewsCrew.quota_exceeded EnhancedNewsCrew.init)
  /\ fst (EnhancedNewsCrew.main no_lag always_quota (Ok true) (fun _ => true)
            EnhancedNewsCrew.init fresh_world)
     = Ok (None, EnhancedNewsCrew.Failed)
  /\ EnhancedNewsCrew.exit_status
       (fst (EnhancedNewsCrew.run_as_script no_lag always_quota (Ok true) (fun _ => true)
               EnhancedNewsCrew.init (Ok tt) fresh_world)) = 0.
Proof. vm_compute. repeat split. Qed.

(** C8, amended: once the imports have succeeded the process exits with
    status 0 on every run, on full success and on a fatal error alike: when
    the driver returns a result [main] returns it, reporting completion; when
    the driver raises, quota exhaustion included, [main] catches the error,
    reports the failure and returns nothing, so no error escapes to change
    the status.  The status is 1 when an import raises, as [config] does when
    the API key is unset. *)
Theorem script_exit_status
    (R : Type) (lag : nat -> Z) (kickoff : nat -> Z -> exc R) (creation : exc bool)
    (result_truthy : R -> bool) (self : EnhancedNewsCrew.self_t) (w : world) :
  let run := EnhancedNewsCrew.execute_with_retry lag kickoff creation self w in
  let main := EnhancedNewsCrew.main lag kickoff creation result_truthy self w in
  let process imports :=
    EnhancedNewsCrew.run_as_script lag kickoff creation result_truthy self imports w in
  EnhancedNewsCrew.exit_status (fst (process (Ok tt))) = 0
  /\ (forall r, fst run = Ok (Some r) -> result_truthy r = true ->
        fst main = Ok (Some r, EnhancedNewsCrew.Completed))
  /\ (forall e, fst run = Raised e -> fst main = Ok (None, EnhancedNewsCrew.Failed))
  /\ (forall e, EnhancedNewsCrew.exit_status (fst (process (Raised e))) = 1)
  /\ EnhancedNewsCrew.exit_status
       (fst (process (QuotaAwareLLM.check_google_api_key None))) = 1.
Proof.
  cbv zeta.
  unfold EnhancedNewsCrew.run_as_script, EnhancedNewsCrew.script, EnhancedNewsCrew.main,
    Runtime.try_except, Runtime.bind, Runtime.lift.
  destruct (EnhancedNewsCrew.execute_with_retry lag kickoff creation self w)
    as [[[r|]|e] w']; cbn [fst].
  - destruct (result_truthy r) eqn:Ht; cbn; repeat split; intros; congruence.
  - cbn; repeat split; intros; congruence.
  - cbn; repeat split; intros; congruence.
Qed.

Lemma script_exit_status_witness :
  fst (EnhancedNewsCrew.main no_lag twice_quota_then_seven (Ok true) (fun _ => true)
         EnhancedNewsCrew.init fresh_world)
  = Ok (Some 7%nat, EnhancedNewsCrew.Completed)
  /\ fst (EnhancedNewsCrew.main no_lag always_invalid (Ok true) (fun _ => true)
            EnhancedNewsCrew.init fresh_world)
     = Ok (None, EnhancedNewsCrew.Failed).
Proof.
  split.
  - destruct (script_exit_status no_lag twice_quota_then_seven (Ok true)
                (fun _ => true) EnhancedNewsCrew.init fresh_world) as (_ & Hdone & _).
    apply (Hdone 7%nat); vm_compute; reflexivity.
  - destruct (script_exit_status no_lag always_invalid (Ok true)
                (fun _ => true) EnhancedNewsCrew.init fresh_world) as (_ & _ & Hfail & _).
    apply (Hfail invalid_argument). vm_compute. reflexivity.
Defined.

(** ** C9: the web-search tool *)

Lemma search_error_marker (description : string) :
  PyStr.str_in "error:" ("Search error: " ++ description) = true.
Proof. apply str_in_app_left. reflexivity. Qed.

(** C9: for every query the search tool returns a string and never raises.
    When the tool is not enabled, which is the case when the API key is unset
    or empty, the string is the sentinel saying that the key is not
    configured, and the search service is not called.  When it is enabled,
    the string is either what the search service returned or the text
    [Search error: ] followed by the description of the error raised, which
    carries the marker [error:]. *)
Theorem search_never_raises
    (lag : nat -> Z) (run : string -> nat -> Z -> exc string) (search_enabled : bool)
    (query : string) (w : world) :
  exists result w',
    RateLimitedSerperTool.search_tool lag run search_enabled query w = (Ok result, w')
    /\ (search_enabled = false ->
        result = RateLimitedSerperTool.not_configured
        /\ PyStr.str_in "not configured" result = true
        /\ calls w' = calls w)
    /\ (search_enabled = true ->
        exists t,
          match run query (calls w) t with
          | Ok text => result = text
          | Raised e =>
              result = "Search error: " ++ str e
              /\ PyStr.str_in "error:" result = true
          end)
    /\ (forall wrapper_built,
          RateLimitedSerperTool.init_search_enabled None wrapper_built = false
          /\ RateLimitedSerperTool.init_search_enabled (Some "") wrapper_built = false).
Proof.
  unfold RateLimitedSerperTool.search_tool, RateLimitedSerperTool.search.
  destruct search_enabled; cbn [negb].
  - destruct (@wait_for_rate_limit_returns lag RateLimitedSerperTool.requests_per_minute
                3 (Some 2) ltac:(unfold RateLimitedSerperTool.requests_per_minute; lia)
                ltac:(lia) ltac:(simpl; lia) w) as (w1 & Hacq & Hc1 & _).
    unfold RateLimitedTool._wait_for_rate_limit, Runtime.try_except.
    rewrite (bind_ok _ Hacq).
    unfold Runtime.bind, Runtime.sleep, Runtime.call_op, Runtime.ret.
    change (2 * second <? 0) with false. cbv iota.
    cbn [clock tick calls request_times trace]. rewrite Hc1.
    destruct (run query (calls w) (clock w1 + 2 * second + lag (tick w1)))
      as [text|e] eqn:Hrun.
    + eexists _, _. split; [reflexivity|]. split; [discriminate|].
      split; [|repeat split].
      intros _. exists (clock w1 + 2 * second + lag (tick w1)). now rewrite Hrun.
    + eexists _, _. split; [reflexivity|]. split; [discriminate|].
      split; [|repeat split].
      intros _. exists (clock w1 + 2 * second + lag (tick w1)). rewrite Hrun.
      split; [reflexivity | apply search_error_marker].
  - eexists _, _. split; [reflexivity|]. split; [repeat split|].
    split; [discriminate | repeat split].
Qed.

Lemma search_never_raises_witness :
  (exists w', RateLimitedSerperTool.search_tool no_lag
                (fun _ _ _ => Raised (Exception "HTTP 403 Forbidden")) true "AI news"
                fresh_world = (Ok "Search error: HTTP 403 Forbidden", w'))
  /\ (exists w', RateLimitedSerperTool.search_tool no_lag
                   (fun _ _ _ => Raised (Exception "HTTP 403 Forbidden")) false "AI news"
                   fresh_world = (Ok RateLimitedSerperTool.not_configured, w')).
Proof.
  split.
  - destruct (search_never_raises no_lag
                (fun _ _ _ => Raised (Exception "HTTP 403 Forbidden")) true "AI news"
                fresh_world) as (result & w' & Hrun & _ & Hon & _).
    destruct (Hon eq_refl) as (t & -> & _). exists w'. exact Hrun.
  - destruct (search_never_raises no_lag
                (fun _ _ _ => Raised (Exception "HTTP 403 Forbidden")) false "AI news"
                fresh_world) as (result & w' & Hrun & Hoff & _).
    destruct (Hoff eq_refl) as (-> & _). exists w'. exact Hrun.
Defined.

(** * Further properties of the code *)

(** ** What a group captures *)

Section GroupFacts.
Import PyStr Re.

Section Quantified.
Variable A : Type.
Variable p : ascii -> bool.
Variable k : string -> string -> option A.

Lemma greedy_taken s : forall taken r,
  greedy p k taken s = Some r -> string_forall p taken = true ->
  exists taken' rest, k taken' rest = Some r /\ string_forall p taken' = true.
Proof.
  induction s as [|c s IH]; intros taken r H Ht; simpl in H.
  - eauto.
  - destruct (p c) eqn:Hc; [|eauto].
    destruct (greedy p k (String c taken) s) as [r'|] eqn:Hg; [|eauto].
    injection H as <-. apply (IH _ _ Hg). simpl. now rewrite Hc, Ht.
Qed.

Lemma lazy_taken s : forall taken r,
  lazy p k taken s = Some r -> string_forall p taken = true ->
  exists taken' rest, k taken' rest = Some r /\ string_forall p taken' = true.
Proof.
  induction s as [|c s IH]; intros taken r H Ht; simpl in H.
  - destruct (k taken "") eqn:Hk; [injection H as <-; eauto | discriminate].
  - destruct (k taken (String c s)) eqn:Hk; [injection H as <-; eauto|].
    destruct (p c) eqn:Hc; [|discriminate].
    apply (IH _ _ H). simpl. now rewrite Hc, Ht.
Qed.

Lemma quantified_taken q s r :
  quantified p k q s = Some r ->
  exists taken rest, k taken rest = Some r /\ string_forall p taken = true.
Proof.
  destruct q; simpl; intros H.
  - destruct s as [|c s]; [discriminate|]. destruct (p c) eqn:Hc; [|discriminate].
    exists (String c ""), s. split; [exact H | simpl; now rewrite Hc].
  - now apply (greedy_taken _ _ H).
  - destruct s as [|c s]; [discriminate|]. destruct (p c) eqn:Hc; [|discriminate].
    apply (greedy_taken _ _ H). simpl. now rewrite Hc.
  - now apply (lazy_taken _ _ H).
Qed.
End Quantified.

Lemma string_forall_rev_onto p s : forall acc,
  string_forall p s = true -> string_forall p acc = true ->
  string_forall p (rev_onto s acc) = true.
Proof.
  induction s as [|c s IH]; intros acc Hs Hacc; simpl; [exact Hacc|].
  simpl in Hs. apply andb_true_iff in Hs as [Hc Hs].
  apply IH; [exact Hs | simpl; now rewrite Hc, Hacc].
Qed.

Lemma match_here_group icase r : forall g s ds,
  group_digits r = true ->
  (forall ds0, g = Some ds0 -> string_forall is_digit ds0 = true) ->
  match_here icase r g s = Some (Some ds) ->
  string_forall is_digit ds = true.
Proof.
  induction r as [|i r IH]; intros g s ds Hr Hg H.
  - simpl in H. injection H as ->. now apply Hg.
  - destruct i as [a q|a q]; cbn [match_here] in H.
    + apply quantified_taken in H as (taken & rest & H & _).
      apply (IH g rest ds); [now destruct a | exact Hg | exact H].
    + apply quantified_taken in H as (taken & rest & H & Ht).
      destruct a; try discriminate.
      apply (IH (Some (rev_onto taken "")) rest ds Hr); [|exact H].
      intros ds0 E. injection E as <-. now apply string_forall_rev_onto.
Qed.

Lemma search_group (pattern s : string) icase m ds :
  group_digits (compile pattern) = true ->
  re_search pattern s icase = Some m -> group1 m = Some ds ->
  string_forall is_digit ds = true.
Proof.
  intros Hr. unfold re_search, search. generalize 0%nat.
  induction s as [|c s IH]; intros pos H Hg; cbn [search_from] in H.
  - destruct (match_here icase (compile pattern) None "") as [g|] eqn:Hm; [|discriminate].
    injection H as <-. simpl in Hg. subst g.
    eapply match_here_group; [exact Hr | | exact Hm]; discriminate.
  - destruct (match_here icase (compile pattern) None (String c s)) as [g|] eqn:Hm.
    + injection H as <-. simpl in Hg. subst g.
      eapply match_here_group; [exact Hr | | exact Hm]; discriminate.
    + now apply (IH _ H).
Qed.

Lemma digits_value_nonneg ds : forall acc,
  0 <= acc -> string_forall is_digit ds = true -> 0 <= digits_value acc ds.
Proof.
  induction ds as [|c ds IH]; intros acc Hacc H; cbn [digits_value]; [exact Hacc|].
  cbn [string_forall] in H. apply andb_true_iff in H as [Hc H]. apply IH; [|exact H].
  unfold is_digit, between in Hc. apply andb_true_iff in Hc as [Hlo _].
  apply N.leb_le in Hlo. unfold digit_value. lia.
Qed.

Lemma int_of_search_nonneg (pattern s : string) icase m n :
  group_digits (compile pattern) = true ->
  re_search pattern s icase = Some m ->
  exc_bind (int_of_group m) (fun n => Ok (Some n)) = Ok (Some n) ->
  0 <= n.
Proof.
  intros Hr Hs H. unfold int_of_group in H.
  destruct (group1 m) as [ds|] eqn:Hg; [|discriminate].
  destruct (Nat.ltb int_max_str_digits (String.length ds)); [discriminate|].
  simpl in H. injection H as <-.
  apply digits_value_nonneg; [lia | exact (search_group _ _ _ Hr Hs Hg)].
Qed.

End GroupFacts.

Lemma llm_extracted_nonneg (text : string) (n : Z) :
  QuotaAwareLLM._extract_retry_delay text = Ok (Some n) -> 0 <= n.
Proof.
  intros H. unfold QuotaAwareLLM._extract_retry_delay in H.
  destruct (Re.re_search QuotaAwareLLM.retry_pattern text false) as [m|] eqn:H0.
  { destruct (exc_bind (Re.int_of_group m) (fun n => Ok (Some n))) as [r|e] eqn:Hi;
      simpl in H; [|discriminate]. injection H as ->.
    eapply int_of_search_nonneg; [| exact H0 | exact Hi]; reflexivity. }
  unfold QuotaAwareLLM.seconds_patterns in H. cbn [QuotaAwareLLM.first_seconds_match] in H.
  repeat match type of H with
  | context [Re.re_search ?pat text true] =>
      let Hs := fresh "Hs" in
      destruct (Re.re_search pat text true) as [m|] eqn:Hs;
      [ destruct (exc_bind (Re.int_of_group m) (fun n => Ok (Some n))) as [r|e] eqn:Hi;
        simpl in H; [|discriminate]; injection H as ->;
        (eapply int_of_search_nonneg; [| exact Hs | exact Hi]; reflexivity) |]
  end.
  discriminate.
Qed.

Lemma crew_extracted_nonneg (text : string) (n : Z) :
  EnhancedNewsCrew._extract_retry_delay text = Ok (Some n) -> 0 <= n.
Proof.
  intros H. unfold EnhancedNewsCrew._extract_retry_delay in H.
  destruct (Re.re_search EnhancedNewsCrew.retry_pattern text false) as [m|] eqn:H0.
  { destruct (exc_bind (Re.int_of_group m) (fun n => Ok (Some n))) as [r|e] eqn:Hi;
      simpl in H; [|discriminate]. injection H as ->.
    eapply int_of_search_nonneg; [| exact H0 | exact Hi]; reflexivity. }
  destruct (Re.re_search EnhancedNewsCrew.seconds_pattern text false) as [m|] eqn:H1.
  { destruct (exc_bind (Re.int_of_group m) (fun n => Ok (Some n))) as [r|e] eqn:Hi;
      simpl in H; [|discriminate]. injection H as ->.
    eapply int_of_search_nonneg; [| exact H1 | exact Hi]; reflexivity. }
  discriminate.
Qed.

(** X1: a delay extracted from an error text is never negative, in the
    LLM-layer extractor and in the crew-layer extractor. *)
Theorem extracted_delay_nonneg (text : string) (n : Z) :
  (QuotaAwareLLM._extract_retry_delay text = Ok (Some n) -> 0 <= n)
  /\ (EnhancedNewsCrew._extract_retry_delay text = Ok (Some n) -> 0 <= n).
Proof. split; [apply llm_extracted_nonneg | apply crew_extracted_nonneg]. Qed.

Lemma extracted_delay_nonneg_witness :
  (QuotaAwareLLM._extract_retry_delay "429 quota retry_delay { seconds: 42 }" = Ok (Some 42)
   /\ 0 <= 42)
  /\ (EnhancedNewsCrew._extract_retry_delay "quota exceeded, seconds: 7" = Ok (Some 7)
      /\ 0 <= 7).
Proof.
  split; (split; [reflexivity|]).
  - apply (proj1 (extracted_delay_nonneg "429 quota retry_delay { seconds: 42 }" 42)).
    reflexivity.
  - apply (proj2 (extracted_delay_nonneg "quota exceeded, seconds: 7" 7)).
    reflexivity.
Defined.

(** ** Bounds on the waits *)

Lemma exponential_init_bounds (attempt : nat) :
  30 <= exponential EnhancedNewsCrew.init attempt <= 300.
Proof.
  unfold exponential.
  cbn [EnhancedNewsCrew.init EnhancedNewsCrew.base_retry_delay
       EnhancedNewsCrew.max_retry_delay].
  pose proof (Z.pow_le_mono_r 2 0 (Z.of_nat attempt) ltac:(lia) ltac:(lia)) as H.
  change (2 ^ 0) with 1 in H. lia.
Qed.

(** X2: a calculator returns a wait of at least 11 seconds, one that the
    log line can show, or it raises the error of that log line; it raises
    only on an extracted delay that, with its 10 seconds added, has more than
    4300 digits.  The wait is 70 seconds or a delay of at least 1 second plus
    10 in the LLM layer, and that plus-10 value or an exponential value of at
    least 30 in the crew layer as constructed. *)
Theorem wait_time_at_least_11 (error : exn) (attempt : nat) :
  ((exists wait_time,
      QuotaAwareLLM._handle_quota_error error = Ok wait_time
      /\ 11 <= wait_time < int_str_limit)
   \/ (QuotaAwareLLM._handle_quota_error error = Raised int_too_long
       /\ exists n, QuotaAwareLLM._extract_retry_delay (str error) = Ok (Some n)
                    /\ int_str_limit <= n + 10))
  /\ ((exists wait_time,
         EnhancedNewsCrew._calculate_wait_time EnhancedNewsCrew.init attempt (str error)
         = Ok wait_time
         /\ 11 <= wait_time < int_str_limit)
      \/ (EnhancedNewsCrew._calculate_wait_time EnhancedNewsCrew.init attempt (str error)
          = Raised int_too_long
          /\ exists n, EnhancedNewsCrew._extract_retry_delay (str error) = Ok (Some n)
                       /\ int_str_limit <= n + 10)).
Proof.
  pose proof small_below_limit as Hsmall.
  split.
  - destruct (llm_extract_ok (str error)) as [r H].
    rewrite (handle_quota_error_eq _ H).
    destruct r as [n|]; [|left; exists 70; split; [reflexivity | lia]].
    pose proof (llm_extracted_nonneg _ H) as Hn.
    destruct (Z.eqb_spec n 0); [left; exists 70; split; [reflexivity | lia]|].
    destruct (Z.lt_ge_cases (n + 10) int_str_limit) as [Hfits|Hlong].
    + left. exists (n + 10).
      destruct (@delay_plus_ten n ltac:(lia) Hfits) as (_ & -> & ->).
      split; [reflexivity | lia].
    + right. rewrite (@format_int_raises (n + 10)) by lia.
      split; [reflexivity|]. exists n. now split.
  - destruct (crew_extract_ok (str error)) as [r H].
    rewrite (calculate_wait_time_eq _ attempt _ H), exponential_backoff_init.
    pose proof (exponential_init_bounds attempt) as Hexp.
    destruct r as [n|]; [|left; eexists; split; [reflexivity | lia]].
    pose proof (crew_extracted_nonneg _ H) as Hn.
    destruct (Z.eqb_spec n 0); [left; eexists; split; [reflexivity | lia]|].
    destruct (Z.lt_ge_cases (n + 10) int_str_limit) as [Hfits|Hlong].
    + left. exists (n + 10).
      destruct (@delay_plus_ten n ltac:(lia) Hfits) as (_ & -> & ->).
      split; [reflexivity | lia].
    + right. split; [|exists n; now split].
      unfold format_int at 1. destruct (Z.abs n <? int_str_limit); [|reflexivity].
      cbn [exc_bind]. now rewrite (@format_int_raises (n + 10)) by lia.
Qed.

(** X3: the exponential wait of the crew layer, with base 30 and cap 300,
    lies between 30 and 300 seconds, never decreases from one attempt to a
    later one, and is the cap from attempt 4 on. *)
Theorem exponential_backoff_monotone_capped (a b : nat) :
  30 <= exponential EnhancedNewsCrew.init a <= 300
  /\ ((a <= b)%nat ->
      exponential EnhancedNewsCrew.init a <= exponential EnhancedNewsCrew.init b)
  /\ ((4 <= a)%nat -> exponential EnhancedNewsCrew.init a = 300).
Proof.
  split; [apply exponential_init_bounds|]. split.
  - intros Hab. unfold exponential.
    cbn [EnhancedNewsCrew.init EnhancedNewsCrew.base_retry_delay
         EnhancedNewsCrew.max_retry_delay].
    assert (2 ^ Z.of_nat a <= 2 ^ Z.of_nat b) by (apply Z.pow_le_mono_r; lia).
    lia.
  - intros Ha. unfold exponential.
    cbn [EnhancedNewsCrew.init EnhancedNewsCrew.base_retry_delay
         EnhancedNewsCrew.max_retry_delay].
    pose proof (Z.pow_le_mono_r 2 4 (Z.of_nat a) ltac:(lia) ltac:(lia)) as H.
    change (2 ^ 4) with 16 in H. lia.
Qed.

Lemma exponential_backoff_monotone_capped_witness :
  exponential EnhancedNewsCrew.init 2 <= exponential EnhancedNewsCrew.init 3
  /\ exponential EnhancedNewsCrew.init 7 = 300.
Proof.
  split.
  - apply (proj1 (proj2 (exponential_backoff_monotone_capped 2 3))). lia.
  - apply (proj2 (proj2 (exponential_backoff_monotone_capped 7 0))). lia.
Defined.

(** ** The classifiers on larger texts *)

Section ClassifierFacts.
Import PyStr.

Lemma lower_app (a b : string) : lower (a ++ b) = lower a ++ lower b.
Proof. induction a as [|c a IH]; simpl; [reflexivity | now rewrite IH]. Qed.

Lemma string_app_assoc (a b c : string) : (a ++ b) ++ c = a ++ (b ++ c).
Proof. induction a as [|x a IH]; simpl; [reflexivity | now rewrite IH]. Qed.

Lemma occurs_in_context (phrase text pre post : string) :
  occurs_in phrase text -> occurs_in phrase (pre ++ text ++ post).
Proof.
  intros [p1 [p2 ->]]. exists (pre ++ p1), (p2 ++ post).
  now rewrite !string_app_assoc.
Qed.

Lemma occurs_in_trans (a b c : string) :
  occurs_in a b -> occurs_in b c -> occurs_in a c.
Proof. intros Hab [p1 [p2 ->]]. now apply occurs_in_context. Qed.

Lemma any_str_in_context (phrases : list string) (text pre post : string) :
  any (fun phrase => str_in phrase (lower text)) phrases = true ->
  any (fun phrase => str_in phrase (lower (pre ++ text ++ post))) phrases = true.
Proof.
  rewrite !any_str_in_iff. intros [phrase [Hin H]]. exists phrase. split; [exact Hin|].
  rewrite !lower_app. now apply occurs_in_context.
Qed.

Lemma any_str_in_subset (small large : list string) (text : string) :
  incl small large ->
  any (fun phrase => str_in phrase text) small = true ->
  any (fun phrase => str_in phrase text) large = true.
Proof.
  intros Hincl. rewrite !any_str_in_iff. intros [phrase [Hin H]].
  exists phrase. split; [now apply Hincl | exact H].
Qed.

End ClassifierFacts.

(** X4: a quota error stays a quota error inside a longer message: when a
    text is classified as a quota error, so is every text that contains it,
    in the LLM-layer classifier and in the crew-layer classifier. *)
Theorem quota_error_in_context (text pre post : string) :
  (QuotaAwareLLM._is_quota_error (Exception text) = true ->
   QuotaAwareLLM._is_quota_error (Exception (pre ++ text ++ post)) = true)
  /\ (EnhancedNewsCrew._is_quota_error text = true ->
      EnhancedNewsCrew._is_quota_error (pre ++ text ++ post) = true).
Proof.
  split; intros H.
  - unfold QuotaAwareLLM._is_quota_error in *. cbn [str] in *.
    now apply any_str_in_context.
  - unfold EnhancedNewsCrew._is_quota_error in *. now apply any_str_in_context.
Qed.

Lemma quota_error_in_context_witness :
  QuotaAwareLLM._is_quota_error
    (Exception ("LLM call failed: " ++ "Too Many Requests" ++ " (request id 7)")) = true
  /\ EnhancedNewsCrew._is_quota_error
       ("Task failed: " ++ "ResourceExhausted" ++ ", giving up") = true.
Proof.
  split.
  - apply (proj1 (quota_error_in_context "Too Many Requests" "LLM call failed: "
                    " (request id 7)")). reflexivity.
  - apply (proj2 (quota_error_in_context "ResourceExhausted" "Task failed: "
                    ", giving up")). reflexivity.
Defined.

Lemma crew_classifier_included (text : string) :
  EnhancedNewsCrew._is_quota_error text = true ->
  QuotaAwareLLM._is_quota_error (Exception text) = true.
Proof.
  unfold EnhancedNewsCrew._is_quota_error, QuotaAwareLLM._is_quota_error.
  apply any_str_in_subset. intros phrase Hin. simpl in Hin |- *. tauto.
Qed.

(** X5: whatever the crew-layer classifier takes for a quota error, the
    LLM-layer classifier takes for one too. *)
Theorem crew_quota_error_is_llm_quota_error (error : exn) :
  EnhancedNewsCrew._is_quota_error (str error) = true ->
  QuotaAwareLLM._is_quota_error error = true.
Proof. intros H. apply crew_classifier_included in H. exact H. Qed.

Lemma crew_quota_error_is_llm_quota_error_witness :
  QuotaAwareLLM._is_quota_error quota_429 = true.
Proof. apply crew_quota_error_is_llm_quota_error. reflexivity. Defined.

(** X6: the indicator [exceeded your current quota] decides nothing: a text
    that contains it contains [quota], so each classifier answers as it would
    without that phrase in its list. *)
Theorem exceeded_quota_indicator_redundant (error : exn) :
  QuotaAwareLLM._is_quota_error error
  = PyStr.any (fun phrase => PyStr.str_in phrase (PyStr.lower (str error)))
      six_distinct_indicators
  /\ EnhancedNewsCrew._is_quota_error (str error)
     = PyStr.any (fun phrase => PyStr.str_in phrase (PyStr.lower (str error)))
         (removelast six_distinct_indicators).
Proof.
  assert (Hsub : forall text, occurs_in "exceeded your current quota" text ->
                              occurs_in "quota" text).
  { intros text. apply occurs_in_trans. exists "exceeded your current ", "". reflexivity. }
  assert (Hgen : forall (with_it without : list string) text,
            incl without with_it ->
            (forall phrase, In phrase with_it ->
               In phrase without \/ phrase = "exceeded your current quota") ->
            In "quota" without ->
            PyStr.any (fun phrase => PyStr.str_in phrase text) with_it
            = PyStr.any (fun phrase => PyStr.str_in phrase text) without).
  { intros with_it without text Hincl Hcase Hq.
    apply eq_true_iff_eq. rewrite !any_str_in_iff. split.
    - intros [phrase [Hin H]]. destruct (Hcase phrase Hin) as [Hw | ->].
      + exists phrase. now split.
      + exists "quota". split; [exact Hq | now apply Hsub].
    - intros [phrase [Hin H]]. exists phrase. split; [now apply Hincl | exact H]. }
  split.
  - apply Hgen.
    + intros phrase Hin. simpl in Hin |- *. tauto.
    + intros phrase Hin. simpl in Hin |- *. intuition (subst; auto 20).
    + simpl. tauto.
  - apply Hgen.
    + intros phrase Hin. simpl in Hin |- *. tauto.
    + intros phrase Hin. simpl in Hin |- *. intuition (subst; auto 20).
    + simpl. tauto.
Qed.

(** X7: the aggregate error a driver raises when its attempts are used up is
    itself a quota error for both classifiers, whatever the attempt budget:
    the crew-layer driver retries a crew run that ended in the LLM layer's
    aggregate error. *)
Theorem aggregate_error_is_quota_error
    (llm : QuotaAwareLLM.self_t) (crew : EnhancedNewsCrew.self_t) :
  QuotaAwareLLM._is_quota_error (QuotaAwareLLM.quota_exceeded llm) = true
  /\ EnhancedNewsCrew._is_quota_error (str (QuotaAwareLLM.quota_exceeded llm)) = true
  /\ QuotaAwareLLM._is_quota_error (EnhancedNewsCrew.quota_exceeded crew) = true
  /\ EnhancedNewsCrew._is_quota_error (str (EnhancedNewsCrew.quota_exceeded crew)) = true.
Proof.
  assert (Hcrew : forall rest,
            EnhancedNewsCrew._is_quota_error ("Google API quota exceeded after " ++ rest)
            = true).
  { intros rest. unfold EnhancedNewsCrew._is_quota_error.
    apply (any_str_in_context EnhancedNewsCrew.quota_indicators "quota" "Google API "
             (" exceeded after " ++ rest)).
    reflexivity. }
  repeat split.
  - apply (crew_classifier_included _ (Hcrew _)).
  - apply Hcrew.
  - apply (crew_classifier_included _ (Hcrew _)).
  - apply Hcrew.
Qed.

(** ** How long a countdown lasts *)

(** X8: a countdown of [secs] seconds, in either layer, opens with a log
    line that shows the number.  When the number has no more than 4300
    digits the countdown returns after sleeping one second [secs] times:
    under a clock that never runs backwards it lasts at least [secs]
    seconds, and for [secs] of zero or less it does not sleep at all.  When
    the number is longer the countdown raises the error of the log line
    without sleeping. *)
Theorem countdown_wait_duration (lag : nat -> Z) (secs : Z) (w : world) :
  (Z.abs secs < int_str_limit ->
   (exists w',
      QuotaAwareLLM._countdown_wait lag secs w = (Ok tt, w')
      /\ tick w' = (tick w + Z.to_nat secs)%nat
      /\ (secs <= 0 -> clock w' = clock w)
      /\ ((forall k, 0 <= lag k) -> clock w + secs * second <= clock w'))
   /\ (exists w',
      EnhancedNewsCrew._countdown_wait lag secs w = (Ok tt, w')
      /\ tick w' = (tick w + Z.to_nat secs)%nat
      /\ (secs <= 0 -> clock w' = clock w)
      /\ ((forall k, 0 <= lag k) -> clock w + secs * second <= clock w')))
  /\ (int_str_limit <= Z.abs secs ->
      (exists w',
         QuotaAwareLLM._countdown_wait lag secs w = (Raised int_too_long, w')
         /\ tick w' = tick w /\ clock w' = clock w)
      /\ (exists w',
         EnhancedNewsCrew._countdown_wait lag secs w = (Raised int_too_long, w')
         /\ tick w' = tick w /\ clock w' = clock w)).
Proof.
  split.
  - intros Hfits. split.
    + destruct (@llm_countdown_wait lag secs w Hfits)
        as (w' & Hrun & _ & _ & _ & Ht & H0 & Hclk).
      exists w'. repeat split; assumption.
    + destruct (@crew_countdown_wait lag secs w Hfits)
        as (w' & Hrun & _ & _ & _ & Ht & H0 & Hclk).
      exists w'. repeat split; assumption.
  - intros Hlong. split.
    + rewrite (@llm_countdown_wait_raises lag secs w Hlong). eexists. repeat split.
    + rewrite (@crew_countdown_wait_raises lag secs w Hlong). eexists. repeat split.
Qed.

Lemma countdown_wait_duration_witness :
  (exists w', QuotaAwareLLM._countdown_wait (fun _ => 1000) 70 fresh_world = (Ok tt, w')
              /\ 0 + 70 * second <= clock w')
  /\ (exists w', EnhancedNewsCrew._countdown_wait (fun _ => 1000) 0 fresh_world = (Ok tt, w')
                 /\ clock w' = 0)
  /\ (exists w', EnhancedNewsCrew._countdown_wait (fun _ => 1000) int_str_limit fresh_world
                 = (Raised int_too_long, w')
                 /\ clock w' = 0).
Proof.
  pose proof small_below_limit as Hsmall.
  destruct (proj1 (countdown_wait_duration (fun _ => 1000) 70 fresh_world) ltac:(lia))
    as [(w1 & Hrun1 & _ & _ & Hc1) _].
  destruct (proj1 (countdown_wait_duration (fun _ => 1000) 0 fresh_world) ltac:(lia))
    as [_ (w2 & Hrun2 & _ & H0 & _)].
  destruct (proj2 (countdown_wait_duration (fun _ => 1000) int_str_limit fresh_world)
              ltac:(lia))
    as [_ (w3 & Hrun3 & _ & Hc3)].
  split; [|split].
  - exists w1. split; [exact Hrun1|]. apply Hc1. intros k. lia.
  - exists w2. split; [exact Hrun2|]. apply H0. lia.
  - exists w3. split; [exact Hrun3 | exact Hc3].
Defined.

(** ** What a driver can end in *)

Section DriverOutcomes.
Import Runtime.
Local Open Scope list_scope.
Variable R : Type.
Variable lag : nat -> Z.
Variable op : nat -> Z -> exc R.

Lemma crew_loop_outcome (self : EnhancedNewsCrew.self_t) (first : nat) (n : nat) :
  forall (a : nat) (w : world),
  (a + S n = EnhancedNewsCrew.max_retries self)%nat ->
  calls w = (first + a)%nat ->
  exists r w',
    EnhancedNewsCrew.attempts_loop lag op self (seq a (S n)) w = (r, w')
    /\ (calls w < calls w' <= calls w + S n)%nat
    /\ (forall i, (calls w <= i < calls w' - 1)%nat ->
          exists t e, op i t = Raised e
                      /\ EnhancedNewsCrew._is_quota_error (str e) = true)
    /\ exists t, crew_ending self op first (calls w' - 1) t r.
Proof.
  induction n as [|n IH]; intros a w Ha Hfirst.
  - change (seq a 1) with [a].
    destruct (crew_attempt lag op self a [] w)
      as (t & [(rv & w' & Hop & Hrun & Hc & _)
              |[(re & w' & Hop & Hq & Hrun & Hc & _)
               |[(re & w' & Hop & Hq & Hlast & Hrun & Hc & _)
                |[(re & wt & w' & _ & _ & Hlt & _)
                 |(re & w' & _ & _ & Hlt & _)]]]]); try lia;
      eexists _, w'; (split; [exact Hrun|]); (split; [lia|]);
      (split; [intros i Hi; lia|]); exists t; rewrite Hc;
      replace (S (calls w) - 1)%nat with (calls w) by lia; cbn [crew_ending].
    + eauto.
    + left. now split.
    + right. left. split; [reflexivity|]. split; [lia|]. eauto.
  - change (seq a (S (S n))) with (a :: seq (S a) (S n)).
    destruct (crew_attempt lag op self a (seq (S a) (S n)) w)
      as (t & [(rv & w' & Hop & Hrun & Hc & _)
              |[(re & w' & Hop & Hq & Hrun & Hc & _)
               |[(re & w' & _ & _ & Hlast & _)
                |[(re & wt & w' & Hop & Hq & Hlt & _ & Hrun & Hc & _)
                 |(re & w' & Hop & Hq & Hlt & Hwait & Hrun & Hc & _)]]]]); try lia.
    + eexists _, w'. split; [exact Hrun|]. split; [lia|].
      split; [intros i Hi; lia|]. exists t. rewrite Hc.
      replace (S (calls w) - 1)%nat with (calls w) by lia. cbn [crew_ending]. eauto.
    + eexists _, w'. split; [exact Hrun|]. split; [lia|].
      split; [intros i Hi; lia|]. exists t. rewrite Hc.
      replace (S (calls w) - 1)%nat with (calls w) by lia. cbn [crew_ending].
      left. now split.
    + destruct (IH (S a) w' ltac:(lia) ltac:(lia)) as (r & w'' & Hrun' & Hc' & Hall & Hend).
      exists r, w''. rewrite Hrun. split; [exact Hrun'|]. split; [lia|].
      split; [|exact Hend].
      intros i Hi. destruct (Nat.eq_dec i (calls w)) as [->|Hne].
      * exists t, re. now split.
      * apply Hall. lia.
    + eexists _, w'. split; [exact Hrun|]. split; [lia|].
      split; [intros i Hi; lia|]. exists t. rewrite Hc.
      replace (S (calls w) - 1)%nat with (calls w) by lia. cbn [crew_ending].
      right. right. split; [reflexivity|]. split; [lia|]. exists re.
      split; [exact Hop|]. split; [exact Hq|].
      replace (calls w - first)%nat with a by lia. exact Hwait.
Qed.

End DriverOutcomes.

(** X9: the LLM-layer driver never invokes the operation, whatever the
    operation, the ceiling and the budget.  With a budget of at least one
    attempt, [invoke] and [_generate] alike acquire the limiter once per
    attempt, each acquire raising; after each acquire but the last they
    clear the history and wait 70 seconds, and they raise the aggregate
    error; under a clock that never runs backwards the call lasts at least
    70 seconds per attempt but the last.  With a budget of zero each raises
    its closing error at once. *)
Theorem llm_invoke_outcomes
    (R : Type) (lag : nat -> Z) (op : nat -> Z -> exc R) (self : QuotaAwareLLM.self_t)
    (w : world) :
  let budget := QuotaAwareLLM.max_quota_retries self in
  let ends_in_aggregate_error (run : Runtime.M R) :=
    exists w',
      run w = (Raised (QuotaAwareLLM.quota_exceeded self), w')
      /\ calls w' = calls w
      /\ trace w'
         = (trace w ++ concat (repeat llm_retry_events (budget - 1)) ++ [EAcquire])%list
      /\ ((forall k, 0 <= lag k) ->
          clock w + Z.of_nat (budget - 1) * (70 * second) <= clock w') in
  (budget = 0%nat ->
   QuotaAwareLLM.invoke lag op self w
   = (Raised (Exception "Failed to invoke LLM after maximum attempts"), w)
   /\ QuotaAwareLLM._generate lag op self w
      = (Raised (Exception "Failed to generate LLM response after maximum attempts"), w))
  /\ ((1 <= budget)%nat ->
      ends_in_aggregate_error (QuotaAwareLLM.invoke lag op self)
      /\ ends_in_aggregate_error (QuotaAwareLLM._generate lag op self)).
Proof.
  cbv zeta. unfold QuotaAwareLLM.invoke, QuotaAwareLLM._generate. split.
  - intros ->. split; reflexivity.
  - intros Hmax.
    destruct (QuotaAwareLLM.max_quota_retries self) as [|n] eqn:E; [lia|].
    replace (S n - 1)%nat with n by lia.
    split; apply (@llm_loop_run R lag op self _ n 0%nat w); rewrite E; reflexivity.
Qed.

Lemma llm_invoke_outcomes_witness :
  (QuotaAwareLLM.invoke no_lag always_quota
     {| QuotaAwareLLM.requests_per_minute := 6; QuotaAwareLLM.max_quota_retries := 0 |}
     fresh_world
   = (Raised (Exception "Failed to invoke LLM after maximum attempts"), fresh_world))
  /\ (exists w',
        QuotaAwareLLM.invoke no_lag twice_quota_then_seven
          {| QuotaAwareLLM.requests_per_minute := 6; QuotaAwareLLM.max_quota_retries := 3 |}
          fresh_world
        = (Raised (QuotaAwareLLM.quota_exceeded
                     {| QuotaAwareLLM.requests_per_minute := 6;
                        QuotaAwareLLM.max_quota_retries := 3 |}), w')
        /\ calls w' = 0%nat
        /\ trace w' = [EAcquire; EClear; ECountdown 70 [];
                       EAcquire; EClear; ECountdown 70 []; EAcquire]).
Proof.
  split.
  - apply (proj1 (llm_invoke_outcomes no_lag always_quota
                    {| QuotaAwareLLM.requests_per_minute := 6;
                       QuotaAwareLLM.max_quota_retries := 0 |} fresh_world)).
    reflexivity.
  - destruct (proj2 (llm_invoke_outcomes no_lag twice_quota_then_seven
                       {| QuotaAwareLLM.requests_per_minute := 6;
                          QuotaAwareLLM.max_quota_retries := 3 |} fresh_world)
                ltac:(simpl; lia))
      as [(w' & Hrun & Hc & Htr & _) _].
    exists w'. split; [exact Hrun|]. split; [exact Hc | exact Htr].
Defined.

(** X10: the crew-layer driver makes no attempt without a crew: when the
    user gave no topic it returns nothing, and when building the crew raised
    it raises that error, in both cases without sleeping or invoking
    anything.  With a crew and a budget of at least one attempt it invokes
    the operation at least once and at most as often as the budget; every
    invocation before the last raised a quota error; and the run ends in one
    of four ways: it returns what the last invocation returned; it raises
    the error of the last invocation, which then is not a quota error; it
    raises the aggregate error, the budget used up and the last invocation
    having raised a quota error too; or, the budget not used up, it raises
    the error of the log line of the wait, the last invocation having raised
    a quota error whose wait cannot be shown. *)
Theorem crew_execute_outcomes
    (R : Type) (lag : nat -> Z) (op : nat -> Z -> exc R) (self : EnhancedNewsCrew.self_t)
    (w : world) :
  EnhancedNewsCrew.execute_with_retry lag op (Ok false) self w = (Ok None, w)
  /\ (forall e, EnhancedNewsCrew.execute_with_retry lag op (Raised e) self w = (Raised e, w))
  /\ ((1 <= EnhancedNewsCrew.max_retries self)%nat ->
      exists r w',
        EnhancedNewsCrew.execute_with_retry lag op (Ok true) self w = (r, w')
        /\ (calls w < calls w' <= calls w + EnhancedNewsCrew.max_retries self)%nat
        /\ (forall i, (calls w <= i < calls w' - 1)%nat ->
              exists t e, op i t = Raised e
                          /\ EnhancedNewsCrew._is_quota_error (str e) = true)
        /\ exists t,
             let last := (calls w' - 1)%nat in
             match r with
             | Ok result => exists v, result = Some v /\ op last t = Ok v
             | Raised e =>
                 (op last t = Raised e
                  /\ EnhancedNewsCrew._is_quota_error (str e) = false)
                 \/ (e = EnhancedNewsCrew.quota_exceeded self
                     /\ S last = (calls w + EnhancedNewsCrew.max_retries self)%nat
                     /\ exists e', op last t = Raised e'
                                   /\ EnhancedNewsCrew._is_quota_error (str e') = true)
                 \/ (e = int_too_long
                     /\ (S last < calls w + EnhancedNewsCrew.max_retries self)%nat
                     /\ exists e', op last t = Raised e'
                                   /\ EnhancedNewsCrew._is_quota_error (str e') = true
                                   /\ EnhancedNewsCrew._calculate_wait_time self
                                        (last - calls w) (str e')
                                      = Raised int_too_long)
             end).
Proof.
  split; [reflexivity|]. split; [reflexivity|].
  intros Hmax.
  destruct (crew_execute_unfold lag op self w) as (w0 & -> & Hc0 & _).
  destruct (EnhancedNewsCrew.max_retries self) as [|n] eqn:E; [lia|].
  rewrite <- E.
  destruct (@crew_loop_outcome R lag op self (calls w) n 0%nat w0 ltac:(lia) ltac:(lia))
    as (r & w' & Hrun & Hc & Hall & t & Hend).
  exists r, w'. rewrite E, Hc0 in *. split; [exact Hrun|]. split; [lia|].
  split; [exact Hall|]. exists t. cbv zeta. unfold crew_ending in Hend.
  rewrite E in Hend. exact Hend.
Qed.

Lemma crew_execute_outcomes_witness :
  exists r w',
    EnhancedNewsCrew.execute_with_retry no_lag always_invalid (Ok true)
      EnhancedNewsCrew.init fresh_world = (r, w')
    /\ (0 < calls w' <= 5)%nat.
Proof.
  destruct (crew_execute_outcomes no_lag always_invalid EnhancedNewsCrew.init fresh_world)
    as (_ & _ & H).
  destruct (H ltac:(simpl; lia)) as (r & w' & Hrun & Hc & _).
  exists r, w'. split; [exact Hrun | exact Hc].
Defined.

(** ** The limiter at its edges *)

Section LimiterEdges.
Import Runtime.
Local Open Scope list_scope.

Lemma wait_for_rate_limit_nonpositive
    (lag : nat -> Z) (ceiling buffer : Z) (pause : option Z) (w : world) :
  ceiling <= 0 -> request_times w = [] ->
  exists w',
    Limiter.wait_for_rate_limit lag ceiling buffer pause w = (Raised min_of_empty, w')
    /\ calls w' = calls w /\ request_times w' = [].
Proof.
  intros Hc Hrt.
  unfold Limiter.wait_for_rate_limit, bind, emit, now, get_request_times,
    set_request_times, lift, ret. cbn [clock tick calls request_times trace].
  rewrite Hrt. cbn [filter length].
  assert (H : (Z.of_nat 0 >=? ceiling) = true) by (rewrite Z.geb_leb; apply Z.leb_le; lia).
  rewrite H. cbn [py_min]. eexists. repeat split.
Qed.

(** With no lag and fewer recorded timestamps than the ceiling, a call does
    not wait: it lasts its pause and records one more timestamp at most. *)
Lemma wait_for_rate_limit_under_ceiling
    (ceiling buffer : Z) (pause : option Z) (w : world) :
  pause_ok pause ->
  Z.of_nat (length (request_times w)) < ceiling ->
  exists w',
    Limiter.wait_for_rate_limit no_lag ceiling buffer pause w = (Ok tt, w')
    /\ clock w' = clock w + match pause with Some d => d | None => 0 end * second
    /\ (length (request_times w') <= S (length (request_times w)))%nat
    /\ (pause = None -> request_times w' = pruned (clock w) (request_times w) ++ [clock w]).
Proof.
  intros Hp Hlen.
  unfold Limiter.wait_for_rate_limit, bind, emit, now, get_request_times,
    set_request_times, lift, ret, no_lag. cbn [clock tick calls request_times trace].
  rewrite Z.add_0_r.
  set (kept := filter (fun req_time => req_time >? clock w - minute) (request_times w)).
  assert (Hk : (length kept <= length (request_times w))%nat) by apply filter_length_all.
  assert (H : (Z.of_nat (length kept) >=? ceiling) = false)
    by (rewrite Z.geb_leb; apply Z.leb_gt; lia).
  rewrite H. destruct pause as [d|].
  - unfold sleep. simpl in Hp.
    assert (Hd : (d * second <? 0) = false) by (apply Z.ltb_ge; unfold second; lia).
    rewrite Hd. cbn [clock tick calls request_times trace].
    eexists. split; [reflexivity|]. cbn [clock request_times].
    split; [lia|]. split; [rewrite length_app; simpl; lia | discriminate].
  - eexists. split; [reflexivity|]. cbn [clock request_times].
    split; [lia|]. split; [rewrite length_app; simpl; lia|].
    intros _. rewrite Z.add_0_r. reflexivity.
Qed.

Lemma in_a_row_under_ceiling (ceiling buffer : Z) (pause : option Z) (n : nat) :
  pause_ok pause ->
  forall w,
  Z.of_nat (length (request_times w)) + Z.of_nat n <= ceiling ->
  exists w',
    in_a_row (Limiter.wait_for_rate_limit no_lag ceiling buffer pause) n w = (Ok tt, w')
    /\ clock w' = clock w + Z.of_nat n * (match pause with Some d => d | None => 0 end * second)
    /\ (length (request_times w') <= length (request_times w) + n)%nat.
Proof.
  intros Hp. induction n as [|n IH]; intros w Hlen.
  - exists w. repeat split; simpl; lia.
  - destruct (@wait_for_rate_limit_under_ceiling ceiling buffer pause w Hp ltac:(lia))
      as (w1 & Hrun1 & Hc1 & Hl1 & _).
    destruct (IH w1 ltac:(lia)) as (w' & Hrun & Hc & Hl).
    exists w'. cbn [in_a_row]. rewrite (bind_ok _ Hrun1).
    split; [exact Hrun|]. split; lia.
Qed.

Lemma in_a_row_burst (ceiling buffer : Z) (n : nat) :
  forall w j,
  request_times w = repeat (clock w) j ->
  Z.of_nat j + Z.of_nat n <= ceiling ->
  exists w',
    in_a_row (Limiter.wait_for_rate_limit no_lag ceiling buffer None) n w = (Ok tt, w')
    /\ clock w' = clock w
    /\ request_times w' = repeat (clock w) (j + n).
Proof.
  assert (Hkeep : forall c j, pruned c (repeat c j) = repeat c j).
  { intros c j. unfold pruned. induction j as [|j IHj]; [reflexivity|].
    cbn [repeat filter].
    assert (H : (c >? c - minute) = true) by (apply Z.gtb_lt; unfold minute, second; lia).
    now rewrite H, IHj. }
  induction n as [|n IH]; intros w j Hrt Hlen.
  - exists w. repeat split. now rewrite Nat.add_0_r.
  - destruct (@wait_for_rate_limit_under_ceiling ceiling buffer None w I)
      as (w1 & Hrun1 & Hc1 & _ & Hrt1).
    { rewrite Hrt, repeat_length. lia. }
    specialize (Hrt1 eq_refl). rewrite Hrt, Hkeep in Hrt1.
    assert (Hc1' : clock w1 = clock w) by (rewrite Hc1; unfold second; lia).
    assert (Hrt1' : request_times w1 = repeat (clock w1) (S j)).
    { rewrite Hrt1, Hc1'. rewrite <- repeat_cons. reflexivity. }
    destruct (IH w1 (S j) Hrt1' ltac:(lia)) as (w' & Hrun & Hc & Hrt').
    exists w'. cbn [in_a_row]. rewrite (bind_ok _ Hrun1).
    split; [exact Hrun|]. split; [lia|].
    rewrite Hrt', Hc1'. f_equal. lia.
Qed.

Lemma wait_for_rate_limit_full_burst (ceiling buffer : Z) (w : world) (j : nat) :
  0 <= buffer -> (1 <= j)%nat -> Z.of_nat j = ceiling ->
  request_times w = repeat (clock w) j ->
  exists w',
    Limiter.wait_for_rate_limit no_lag ceiling buffer None w = (Ok tt, w')
    /\ clock w' = clock w + (60 + buffer) * second.
Proof.
  intros Hb Hj Hc Hrt.
  unfold Limiter.wait_for_rate_limit, bind, emit, now, get_request_times,
    set_request_times, lift, ret, no_lag. cbn [clock tick calls request_times trace].
  rewrite Z.add_0_r, Hrt.
  assert (Hkeep : filter (fun req_time => req_time >? clock w - minute) (repeat (clock w) j)
                  = repeat (clock w) j).
  { clear. induction j as [|j IHj]; [reflexivity|]. cbn [repeat filter].
    assert (H : (clock w >? clock w - minute) = true)
      by (apply Z.gtb_lt; unfold minute, second; lia).
    now rewrite H, IHj. }
  rewrite Hkeep, repeat_length.
  assert (H : (Z.of_nat j >=? ceiling) = true) by (rewrite Z.geb_leb; apply Z.leb_le; lia).
  rewrite H.
  assert (Hmin : py_min (repeat (clock w) j) = Ok (clock w)).
  { destruct j as [|j]; [lia|]. cbn [repeat py_min]. f_equal. clear.
    induction j as [|j IHj]; [reflexivity|]. cbn [repeat fold_left].
    now rewrite Z.min_id. }
  rewrite Hmin.
  assert (Hw : (clock w + minute - clock w >? 0) = true)
    by (apply Z.gtb_lt; unfold minute, second; lia).
  rewrite Hw. unfold sleep.
  assert (Hd : (clock w + minute - clock w + buffer * second <? 0) = false)
    by (apply Z.ltb_ge; unfold minute, second; lia).
  rewrite Hd. cbn [clock tick calls request_times trace].
  eexists. split; [reflexivity|]. cbn [clock]. unfold minute, second. lia.
Qed.

End LimiterEdges.

(** X11: a ceiling of zero or less makes the limiter of a plain class, the
    embedding limiter or a tool limiter, raise on an empty history, for
    [min] finds nothing to take; nothing is recorded.  An embedding call, of
    documents or of a query, whose limiter has such a ceiling raises that
    same error without invoking the provider. *)
Theorem nonpositive_ceiling_raises
    (R : Type) (kind : limiter) (lag : nat -> Z) (ceiling : Z)
    (op : nat -> Z -> exc R) (query : bool) (w : world) :
  kind <> LLMLimiter ->
  ceiling <= 0 ->
  request_times w = [] ->
  let embed :=
    if query
    then QuotaAwareEmbeddings.embed_query lag op
           {| EmbeddingRateLimiter.requests_per_minute := ceiling |}
    else QuotaAwareEmbeddings.embed_documents lag op
           {| EmbeddingRateLimiter.requests_per_minute := ceiling |} in
  (exists w',
     acquire kind lag ceiling w = (Raised min_of_empty, w')
     /\ request_times w' = [])
  /\ (exists w', embed w = (Raised min_of_empty, w') /\ calls w' = calls w).
Proof.
  intros Hkind Hc Hrt. cbv zeta. split.
  - rewrite (acquire_unfold lag ceiling Hkind).
    destruct (@wait_for_rate_limit_nonpositive lag ceiling (buffer_of kind) (pause_of kind) w Hc Hrt)
      as (w' & Hrun & _ & Hrt').
    exists w'. split; [exact Hrun | exact Hrt'].
  - destruct (@wait_for_rate_limit_nonpositive lag ceiling 2 None w Hc Hrt)
      as (w' & Hrun & Hcalls & _).
    exists w'. split; [|exact Hcalls].
    destruct query;
      unfold QuotaAwareEmbeddings.embed_query, QuotaAwareEmbeddings.embed_documents,
        QuotaAwareEmbeddings.embed, EmbeddingRateLimiter.wait_for_rate_limit;
      cbn [EmbeddingRateLimiter.requests_per_minute];
      exact (bind_raised _ Hrun).
Qed.

Lemma nonpositive_ceiling_raises_witness :
  (exists w',
     acquire ToolLimiter no_lag 0 fresh_world = (Raised min_of_empty, w')
     /\ request_times w' = [])
  /\ (exists w',
        QuotaAwareEmbeddings.embed_query no_lag twice_quota_then_seven
          {| EmbeddingRateLimiter.requests_per_minute := 0 |} fresh_world
        = (Raised min_of_empty, w')
        /\ calls w' = calls fresh_world).
Proof.
  apply (@nonpositive_ceiling_raises nat ToolLimiter no_lag 0 twice_quota_then_seven
           true fresh_world);
    [discriminate | lia | reflexivity].
Defined.

(** X12: a burst on a fresh limiter of a plain class, the embedding limiter
    or a tool limiter, under a clock on which nothing but sleeping takes
    time: as many calls as the ceiling allows go through without
    throttling, taking only the pause of the tool limiters; on the embedding
    limiter, which does not pause, the call after those waits 60 seconds
    plus the buffer. *)
Theorem limiter_burst (kind : limiter) (ceiling : Z) (n : nat) (w : world) :
  kind <> LLMLimiter ->
  request_times w = [] ->
  (Z.of_nat n <= ceiling ->
   exists w',
     in_a_row (acquire kind no_lag ceiling) n w = (Ok tt, w')
     /\ clock w' = clock w + Z.of_nat n * (pause_seconds kind * second))
  /\ (kind = EmbeddingLimiter -> (1 <= n)%nat -> Z.of_nat n = ceiling ->
      exists w' w'',
        in_a_row (acquire kind no_lag ceiling) n w = (Ok tt, w')
        /\ clock w' = clock w
        /\ acquire kind no_lag ceiling w' = (Ok tt, w'')
        /\ clock w'' = clock w + (60 + buffer_of kind) * second).
Proof.
  intros Hplain Hrt. rewrite (acquire_unfold no_lag ceiling Hplain). split.
  - intros Hn.
    assert (Hp : pause_ok (pause_of kind)) by (destruct kind; simpl; lia).
    destruct (@in_a_row_under_ceiling ceiling (buffer_of kind) (pause_of kind) n Hp w) as (w' & Hrun & Hc & _).
    { rewrite Hrt. simpl. lia. }
    exists w'. split; [exact Hrun|]. unfold pause_seconds. exact Hc.
  - intros -> Hn Hc. cbn [pause_of buffer_of].
    destruct (@in_a_row_burst ceiling 2 n w 0%nat) as (w' & Hrun & Hclk & Hrt').
    { now rewrite Hrt. }
    { lia. }
    destruct (@wait_for_rate_limit_full_burst ceiling 2 w' n)
      as (w'' & Hrun' & Hclk').
    { lia. }
    { exact Hn. }
    { exact Hc. }
    { now rewrite Hrt', Hclk. }
    exists w', w''. repeat split; [exact Hrun | exact Hclk | exact Hrun' | lia].
Qed.

Lemma limiter_burst_witness :
  (exists w', in_a_row (acquire ToolLimiter no_lag 5) 5 fresh_world = (Ok tt, w')
              /\ clock w' = 0 + 5 * (2 * second))
  /\ (exists w' w'',
        in_a_row (acquire EmbeddingLimiter no_lag 8) 8 fresh_world = (Ok tt, w')
        /\ clock w' = 0
        /\ acquire EmbeddingLimiter no_lag 8 w' = (Ok tt, w'')
        /\ clock w'' = 0 + (60 + 2) * second).
Proof.
  split.
  - apply (proj1 (@limiter_burst ToolLimiter 5 5 fresh_world ltac:(discriminate) eq_refl)).
    lia.
  - apply (proj2 (@limiter_burst EmbeddingLimiter 8 8 fresh_world ltac:(discriminate)
                    eq_refl)).
    + reflexivity.
    + lia.
    + reflexivity.
Defined.

(** ** The inline retry of the embeddings *)

Section EmbeddingFacts.
Import Runtime.
Local Open Scope list_scope.
Variable R : Type.
Variable lag : nat -> Z.
Variable op : nat -> Z -> exc R.
Variable limiter : EmbeddingRateLimiter.self_t.
Hypothesis ceiling_pos : 1 <= EmbeddingRateLimiter.requests_per_minute limiter.

Lemma embed_outcome (delay : Z) (w : world) :
  0 <= delay ->
  exists r w' t1,
    QuotaAwareEmbeddings.embed lag op limiter delay w = (r, w')
    /\ length (request_times w')
       = S (length (pruned (clock w + lag (tick w)) (request_times w)))
    /\ ((forall k, 0 <= lag k) -> clock w + delay <= t1)
    /\ match op (calls w) t1 with
       | Ok v => r = Ok v /\ calls w' = S (calls w)
       | Raised e =>
           if QuotaAwareEmbeddings.retry_worthy e
           then exists t2,
                  r = op (S (calls w)) t2
                  /\ calls w' = S (S (calls w))
                  /\ exists k, t2 = t1 + 60 * second + lag k
           else r = Raised e /\ calls w' = S (calls w)
       end.
Proof.
  intros Hd.
  destruct (@wait_for_rate_limit_returns lag (EmbeddingRateLimiter.requests_per_minute limiter)
              2 None ceiling_pos ltac:(lia) I w) as (w1 & Hacq & Hc1 & _ & Hrt1 & Hclk1).
  unfold QuotaAwareEmbeddings.embed, EmbeddingRateLimiter.wait_for_rate_limit.
  rewrite (bind_ok _ Hacq).
  unfold try_except at 1, bind at 1, sleep at 1.
  assert (Hdelay : (delay <? 0) = false) by (apply Z.ltb_ge; lia).
  rewrite Hdelay.
  unfold bind at 1, call_op at 1, ret at 1. cbn [clock tick calls request_times trace].
  rewrite Hc1.
  set (t1 := clock w1 + delay + lag (tick w1)).
  assert (Hlen : length (request_times w1)
                 = S (length (pruned (clock w + lag (tick w)) (request_times w)))).
  { rewrite Hrt1, length_app. simpl. lia. }
  assert (Ht1 : (forall k, 0 <= lag k) -> clock w + delay <= t1).
  { intros Hlag. destruct (Hclk1 Hlag) as [Hle _].
    pose proof (Hlag (tick w)). pose proof (Hlag (tick w1)). unfold t1. lia. }
  destruct (op (calls w) t1) as [v|e] eqn:Hop.
  - eexists _, _, t1. split; [reflexivity|]. cbn [request_times calls].
    split; [exact Hlen|]. split; [exact Ht1|]. rewrite Hop. split; reflexivity.
  - destruct (QuotaAwareEmbeddings.retry_worthy e) eqn:Hretry.
    + unfold bind at 1, sleep at 1. change (60 * second <? 0) with false. cbv iota.
      unfold try_except, bind, call_op, ret, raise.
      cbn [clock tick calls request_times trace].
      set (t2 := t1 + 60 * second + lag (S (tick w1))).
      destruct (op (S (calls w)) t2) as [v2|e2] eqn:Hop2;
        (eexists _, _, t1; split; [reflexivity|]; cbn [request_times calls];
         split; [exact Hlen|]; split; [exact Ht1|]; rewrite Hop, Hretry;
         exists t2; rewrite Hop2; split; [reflexivity|]; split; [reflexivity|];
         exists (S (tick w1)); reflexivity).
    + eexists _, _, t1. split; [reflexivity|]. cbn [request_times calls].
      split; [exact Hlen|]. split; [exact Ht1|]. rewrite Hop, Hretry. split; reflexivity.
Qed.

End EmbeddingFacts.

(** X13: an embedding call, of documents or of a query, with the limiter as
    constructed, invokes the provider once or twice and records a single
    timestamp in the limiter either way.  If the first invocation returns,
    that is the result; if it raises an error whose lower-cased text has none
    of [429], [quota], [rate], that error is raised; otherwise the provider
    is invoked a second time, after a sleep of 60 seconds and without the
    limiter being asked again, and the call ends as that second invocation
    does. *)
Theorem embedding_retries_once
    (R : Type) (lag : nat -> Z) (op : nat -> Z -> exc R) (query : bool) (w : world) :
  let embed :=
    if query then QuotaAwareEmbeddings.embed_query lag op EmbeddingRateLimiter.init
    else QuotaAwareEmbeddings.embed_documents lag op EmbeddingRateLimiter.init in
  exists r w' t1,
    embed w = (r, w')
    /\ length (request_times w')
       = S (length (pruned (clock w + lag (tick w)) (request_times w)))
    /\ match op (calls w) t1 with
       | Ok v => r = Ok v /\ calls w' = S (calls w)
       | Raised e =>
           if QuotaAwareEmbeddings.retry_worthy e
           then exists t2,
                  r = op (S (calls w)) t2
                  /\ calls w' = S (S (calls w))
                  /\ exists k, t2 = t1 + 60 * second + lag k
           else r = Raised e /\ calls w' = S (calls w)
       end.
Proof.
  assert (Hpos : 1 <= EmbeddingRateLimiter.requests_per_minute EmbeddingRateLimiter.init)
    by (simpl; lia).
  destruct query; cbv zeta.
  - destruct (@embed_outcome R lag op EmbeddingRateLimiter.init Hpos (second / 2) w
                ltac:(vm_compute; discriminate)) as (r & w' & t1 & Hrun & Hlen & _ & Hres).
    exists r, w', t1. repeat split; assumption.
  - destruct (@embed_outcome R lag op EmbeddingRateLimiter.init Hpos (1 * second) w
                ltac:(unfold second; lia)) as (r & w' & t1 & Hrun & Hlen & _ & Hres).
    exists r, w', t1. repeat split; assumption.
Qed.


(** ** The news tools *)

Section NewsToolFacts.
Import Runtime.
Local Open Scope list_scope.

(** A tool call builds its limiter anew: whatever was recorded before, the
    limiter finds nothing, does not wait beyond its pause, and ends with the
    one timestamp of this call. *)
Lemma fresh_tool_limiter (lag : nat -> Z) (ceiling : Z) (w : world) :
  1 <= ceiling ->
  exists w1,
    (set_request_times [] ;; RateLimitedTool._wait_for_rate_limit lag ceiling)%monad w
    = (Ok tt, w1)
    /\ calls w1 = calls w
    /\ request_times w1 = [clock w1]
    /\ clock w1 = clock w + lag (tick w) + 2 * second + lag (S (tick w)) + lag (S (S (tick w))).
Proof.
  intros Hc.
  unfold RateLimitedTool._wait_for_rate_limit, Limiter.wait_for_rate_limit, bind, emit, now,
    get_request_times, set_request_times, lift, ret, sleep.
  cbn [clock tick calls request_times trace filter length].
  assert (H : (Z.of_nat 0 >=? ceiling) = false) by (rewrite Z.geb_leb; apply Z.leb_gt; lia).
  rewrite H. change (2 * second <? 0) with false. cbv iota.
  cbn [clock tick calls request_times trace].
  eexists. split; [reflexivity|]. cbn [clock tick calls request_times trace app].
  repeat split.
Qed.

End NewsToolFacts.

(** X14: the news-lookup tool returns a string and never raises.  Without a
    database it returns the advice to run the indexing tool first and does
    not touch the store; when opening the store or searching it raises, it
    returns the text [Error retrieving news from database: ] with the error;
    when the search finds nothing it says so, naming the query; otherwise it
    reports the number of documents found and, for each, at most 400
    characters of its text. *)
Theorem get_news_never_raises
    (lag : nat -> Z) (db_exists : bool) (open_store : exc unit)
    (similarity_search : string -> nat -> Z -> exc (list document))
    (query : string) (w : world) :
  exists result w',
    GetNews.news lag db_exists open_store similarity_search query w = (Ok result, w')
    /\ (db_exists = false -> result = GetNews.no_database /\ calls w' = calls w)
    /\ (forall e, db_exists = true -> open_store = Raised e ->
          result = "Error retrieving news from database: " ++ str e
          /\ calls w' = calls w)
    /\ (db_exists = true -> open_store = Ok tt ->
        exists t,
          calls w' = S (calls w)
          /\ match similarity_search query (calls w) t with
             | Raised e => result = "Error retrieving news from database: " ++ str e
             | Ok [] => result = "No relevant news found for query: " ++ query
             | Ok docs =>
                 result = "Found " ++ PyStr.str_of_nat (length docs)
                          ++ " relevant articles:" ++ PyText.nl ++ PyText.nl
                          ++ PyText.join (PyText.nl ++ "---" ++ PyText.nl)
                               (map (GetNews.format_doc 400) docs)
             end).
Proof.
  unfold GetNews.news.
  destruct (@fresh_tool_limiter lag GetNews.requests_per_minute w
              ltac:(unfold GetNews.requests_per_minute; lia)) as (w1 & Hlim & Hc1 & _).
  unfold Runtime.bind at 1.
  change (@Runtime.bind unit unit (Runtime.set_request_times [])
            (fun _ => RateLimitedTool._wait_for_rate_limit lag GetNews.requests_per_minute) w)
    with ((Runtime.set_request_times [] ;;
           RateLimitedTool._wait_for_rate_limit lag GetNews.requests_per_minute)%monad w)
    in Hlim.
  unfold Runtime.bind at 1 in Hlim.
  destruct (Runtime.set_request_times [] w) as [[[]|e0] w0] eqn:Hset;
    [|discriminate Hset].
  unfold Runtime.bind at 1. rewrite Hlim.
  destruct db_exists; cbn [negb].
  - unfold Runtime.try_except, Runtime.bind, Runtime.sleep, Runtime.lift, Runtime.call_op,
      Runtime.ret.
    change (1 * second <? 0) with false. cbv iota.
    cbn [clock tick calls request_times trace].
    destruct open_store as [[]|e].
    + rewrite Hc1.
      set (t := clock w1 + 1 * second + lag (tick w1) + 1 * second + lag (S (tick w1))).
      destruct (similarity_search query (calls w) t) as [[|d docs]|e] eqn:Hs;
        (eexists _, _; split; [reflexivity|]; split; [discriminate|];
         split; [intros e' _ He'; discriminate He'|];
         intros _ _; exists t; cbn [calls]; split; [reflexivity|]; rewrite Hs; reflexivity).
    + eexists _, _. split; [reflexivity|]. split; [discriminate|].
      split; [|intros _ He; discriminate He].
      intros e' _ He'. injection He' as <-. cbn [calls]. split; [reflexivity | exact Hc1].
  - unfold Runtime.try_except, Runtime.ret.
    eexists _, _. split; [reflexivity|]. split; [intros _; split; [reflexivity | exact Hc1]|].
    split; [intros e He; discriminate He | intros He; discriminate He].
Qed.

Lemma get_news_never_raises_witness :
  exists w',
    GetNews.news no_lag false (Ok tt) (fun _ _ _ => Ok []) "AI" fresh_world
    = (Ok GetNews.no_database, w')
    /\ calls w' = 0%nat.
Proof.
  destruct (get_news_never_raises no_lag false (Ok tt) (fun _ _ _ => Ok []) "AI" fresh_world)
    as (result & w' & Hrun & Hmissing & _).
  destruct (Hmissing eq_refl) as [-> Hc]. exists w'. split; [exact Hrun | exact Hc].
Defined.

Section SearchNewsFacts.
Import Runtime.
Local Open Scope list_scope.
Variable lag : nat -> Z.
Variable requests_get : string -> exc SearchNewsDB.response.
Variable load : string -> exc (list document).
Variable split_documents : list document -> exc (list document).
Variable from_documents : list document -> exc unit.
Variable similarity_search : string -> nat -> Z -> exc (list document).

(** The loop over the one article kept leaves the world as it is: it makes
    no remote search and, with nothing processed before, no sleep. *)
Lemma process_first (articles : list SearchNewsDB.article) (w : world) :
  exists all_splits processed_count,
    SearchNewsDB.process lag load split_documents (firstn 1 articles) [] 0 w
    = (Ok (all_splits, processed_count), w)
    /\ (processed_count <= 1)%nat.
Proof.
  destruct articles as [|a rest]; [exists [], 0%nat; split; [reflexivity | lia]|].
  cbn [firstn SearchNewsDB.process].
  unfold bind, try_except, lift, ret. cbn [Nat.ltb Nat.leb].
  destruct (SearchNewsDB.url a) as [link|]; [|exists [], 0%nat; split; [reflexivity | lia]].
  destruct (negb (PyText.truthy (Some link)));
    [exists [], 0%nat; split; [reflexivity | lia]|].
  destruct (SearchNewsDB.title_prefix a);
    [|exists [], 0%nat; split; [reflexivity | lia]].
  destruct (load link) as [docs|]; [|exists [], 0%nat; split; [reflexivity | lia]].
  destruct (split_documents docs) as [splits|];
    [|exists [], 0%nat; split; [reflexivity | lia]].
  exists ([] ++ splits), 1%nat. split; [reflexivity | lia].
Qed.

Lemma search_news_outcome (query : string) (w : world) :
  exists result w',
    SearchNewsDB.news lag requests_get load split_documents from_documents
      similarity_search query w = (Ok result, w')
    /\ length (request_times w') = 1%nat
    /\ (calls w' <= S (calls w))%nat
    /\ (forall e, requests_get query = Raised e ->
          result = ("Error fetching news: " ++ str e)%string /\ calls w' = calls w)
    /\ (forall resp, requests_get query = Ok resp ->
          SearchNewsDB.status_code resp <> 200%nat ->
          result = ("Failed to retrieve news. Status code: "
                    ++ PyStr.str_of_nat (SearchNewsDB.status_code resp))%string
          /\ calls w' = calls w)
    /\ (forall resp, requests_get query = Ok resp ->
          SearchNewsDB.status_code resp = 200%nat ->
          SearchNewsDB.json_articles resp = Ok [] ->
          result = "No articles found for the given query." /\ calls w' = calls w)
    /\ (lag = no_lag -> clock w + 2 * second <= clock w' <= clock w + 10 * second).
Proof.
  unfold SearchNewsDB.news.
  destruct (@fresh_tool_limiter lag SearchNewsDB.requests_per_minute w
              ltac:(unfold SearchNewsDB.requests_per_minute; lia))
    as (w1 & Hlim & Hc1 & Hrt1 & Hclk1).
  unfold bind at 1 in Hlim.
  destruct (set_request_times [] w) as [[[]|e0] w0] eqn:Hset; [|discriminate Hset].
  unfold bind at 1. rewrite Hset. unfold bind at 1. rewrite Hlim.
  assert (Hlen1 : length (request_times w1) = 1%nat) by (now rewrite Hrt1).
  assert (Hno : lag = no_lag -> clock w1 = clock w + 2 * second).
  { intros ->. rewrite Hclk1. unfold no_lag. lia. }
  unfold try_except at 1, bind at 1, lift at 1.
  destruct (requests_get query) as [resp|e] eqn:Hget.
  2:{ unfold ret. eexists _, _. split; [reflexivity|]. split; [exact Hlen1|].
      split; [lia|]. split; [intros e' He'; injection He' as <-; now split|].
      split; [intros resp He'; discriminate He'|].
      split; [intros resp He'; discriminate He'|].
      intros Hl. rewrite (Hno Hl). unfold second. lia. }
  destruct (Nat.eqb_spec (SearchNewsDB.status_code resp) 200) as [Hcode|Hcode]; cbn [negb].
  2:{ unfold ret. eexists _, _. split; [reflexivity|]. split; [exact Hlen1|].
      split; [lia|]. split; [intros e' He'; discriminate He'|].
      split; [intros resp' He' _; injection He' as <-; now split|].
      split; [intros resp' He' Hc'; injection He' as <-; congruence|].
      intros Hl. rewrite (Hno Hl). unfold second. lia. }
  unfold bind at 1, lift at 1.
  destruct (SearchNewsDB.json_articles resp) as [articles|e] eqn:Hjson.
  2:{ unfold ret. eexists _, _. split; [reflexivity|]. split; [exact Hlen1|].
      split; [lia|]. split; [intros e' He'; discriminate He'|].
      split; [intros resp' He' Hc'; injection He' as <-; congruence|].
      split; [intros resp' He' _ Hj; injection He' as <-; congruence|].
      intros Hl. rewrite (Hno Hl). unfold second. lia. }
  destruct articles as [|a rest].
  { unfold ret. eexists _, _. split; [reflexivity|]. split; [exact Hlen1|].
    split; [lia|]. split; [intros e' He'; discriminate He'|].
    split; [intros resp' He' Hc'; injection He' as <-; congruence|].
    split; [intros resp' He' _ _; now split|].
    intros Hl. rewrite (Hno Hl). unfold second. lia. }
  destruct (process_first (a :: rest) w1) as (all_splits & processed_count & Hproc & _).
  unfold bind at 1. rewrite Hproc. cbn [fst snd].
  assert (Hvac : forall P : SearchNewsDB.response -> Prop,
            (forall resp', Ok resp = Ok resp' ->
               SearchNewsDB.status_code resp' <> 200%nat -> P resp')
            /\ (forall resp', Ok resp = Ok resp' ->
                  SearchNewsDB.status_code resp' = 200%nat ->
                  SearchNewsDB.json_articles resp' = Ok [] -> P resp')).
  { intros P. split.
    - intros resp' He' Hc'. injection He' as <-. congruence.
    - intros resp' He' _ Hj. injection He' as <-. congruence. }
  destruct all_splits as [|chunk chunks].
  { unfold ret. eexists _, _. split; [reflexivity|]. split; [exact Hlen1|].
    split; [lia|]. split; [intros e' He'; discriminate He'|].
    split; [apply (Hvac (fun _ => _)) | split; [apply (Hvac (fun _ => _))|]].
    intros Hl. rewrite (Hno Hl). unfold second. lia. }
  unfold try_except, bind, sleep, lift, call_op, ret.
  change (5 * second <? 0) with false. change (3 * second <? 0) with false. cbv iota.
  cbn [clock tick calls request_times trace].
  destruct (from_documents (firstn 5 (chunk :: chunks))) as [[]|e].
  - destruct (similarity_search query (calls w1)
                (clock w1 + 5 * second + lag (tick w1) + 3 * second + lag (S (tick w1))))
      as [docs|e];
      (eexists _, _; split; [reflexivity|]; cbn [clock calls request_times];
       split; [exact Hlen1|]; split; [lia|];
       split; [intros e' He'; discriminate He'|];
       split; [apply (Hvac (fun _ => _)) | split; [apply (Hvac (fun _ => _))|]];
       intros Hl; rewrite (Hno Hl), Hl; unfold no_lag, second; lia).
  - eexists _, _. split; [reflexivity|]. cbn [clock calls request_times].
    split; [exact Hlen1|]. split; [lia|].
    split; [intros e' He'; discriminate He'|].
    split; [apply (Hvac (fun _ => _)) | split; [apply (Hvac (fun _ => _))|]].
    intros Hl. rewrite (Hno Hl), Hl. unfold no_lag, second. lia.
Qed.

End SearchNewsFacts.

Lemma get_news_elapsed
    (db_exists : bool) (open_store : exc unit)
    (similarity_search : string -> nat -> Z -> exc (list document))
    (query : string) (w : world) :
  let w' := snd (GetNews.news no_lag db_exists open_store similarity_search query w) in
  clock w + 2 * second <= clock w' <= clock w + 4 * second
  /\ length (request_times w') = 1%nat.
Proof.
  cbv zeta.
  destruct (GetNews.news no_lag db_exists open_store similarity_search query w)
    as [r w'] eqn:Hrun.
  cbn [snd]. unfold GetNews.news in Hrun.
  destruct (@fresh_tool_limiter no_lag GetNews.requests_per_minute w
              ltac:(unfold GetNews.requests_per_minute; lia))
    as (w1 & Hlim & _ & Hrt1 & Hclk1).
  unfold Runtime.bind at 1 in Hlim.
  destruct (Runtime.set_request_times [] w) as [[[]|e0] w0] eqn:Hset;
    [|discriminate Hset].
  unfold Runtime.bind at 1 in Hrun. rewrite Hset in Hrun.
  unfold Runtime.bind at 1 in Hrun. rewrite Hlim in Hrun.
  unfold no_lag in Hclk1.
  assert (Hlen1 : length (request_times w1) = 1%nat) by (now rewrite Hrt1).
  unfold Runtime.try_except, Runtime.bind, Runtime.sleep, Runtime.lift, Runtime.call_op,
    Runtime.ret, no_lag in Hrun.
  change (1 * second <? 0) with false in Hrun. cbv iota in Hrun.
  destruct db_exists; cbn [negb] in Hrun.
  2:{ injection Hrun as _ <-. split; [unfold second in *; lia | exact Hlen1]. }
  destruct open_store as [[]|e]; cbn [clock tick calls request_times trace] in Hrun.
  2:{ injection Hrun as _ <-. cbn [clock request_times].
      split; [unfold second in *; lia | exact Hlen1]. }
  destruct (similarity_search query (calls w1) (clock w1 + 1 * second + 0 + 1 * second + 0))
    as [[|d docs]|e]; injection Hrun as _ <-; cbn [clock request_times];
    (split; [unfold second in *; lia | exact Hlen1]).
Qed.

(** X15: the news-indexing tool returns a string and never raises, and it
    searches the store at most once.  When the request to the news API
    raises it returns [Error fetching news: ] with the error; on a status
    other than 200 it returns the status in a failure message, and on an
    empty list of articles it says that none were found, in each case
    without loading or indexing anything. *)
Theorem search_news_db_never_raises
    (lag : nat -> Z) (requests_get : string -> exc SearchNewsDB.response)
    (load : string -> exc (list document))
    (split_documents : list document -> exc (list document))
    (from_documents : list document -> exc unit)
    (similarity_search : string -> nat -> Z -> exc (list document))
    (query : string) (w : world) :
  exists result w',
    SearchNewsDB.news lag requests_get load split_documents from_documents
      similarity_search query w = (Ok result, w')
    /\ (calls w' <= S (calls w))%nat
    /\ (forall e, requests_get query = Raised e ->
          result = "Error fetching news: " ++ str e /\ calls w' = calls w)
    /\ (forall resp, requests_get query = Ok resp ->
          SearchNewsDB.status_code resp <> 200%nat ->
          result = "Failed to retrieve news. Status code: "
                   ++ PyStr.str_of_nat (SearchNewsDB.status_code resp)
          /\ calls w' = calls w)
    /\ (forall resp, requests_get query = Ok resp ->
          SearchNewsDB.status_code resp = 200%nat ->
          SearchNewsDB.json_articles resp = Ok [] ->
          result = "No articles found for the given query." /\ calls w' = calls w).
Proof.
  destruct (search_news_outcome lag requests_get load split_documents from_documents
              similarity_search query w)
    as (result & w' & Hrun & _ & Hc & H1 & H2 & H3 & _).
  exists result, w'. split; [exact Hrun|]. split; [exact Hc|]. split; [exact H1|].
  split; [exact H2 | exact H3].
Qed.

Lemma search_news_db_never_raises_witness :
  exists w',
    SearchNewsDB.news no_lag
      (fun _ => Ok {| SearchNewsDB.status_code := 429;
                      SearchNewsDB.json_articles := Ok [] |})
      (fun _ => Ok []) (fun docs => Ok docs) (fun _ => Ok tt) (fun _ _ _ => Ok [])
      "AI" fresh_world
    = (Ok "Failed to retrieve news. Status code: 429", w')
    /\ calls w' = 0%nat.
Proof.
  destruct (search_news_db_never_raises no_lag
              (fun _ => Ok {| SearchNewsDB.status_code := 429;
                              SearchNewsDB.json_articles := Ok [] |})
              (fun _ => Ok []) (fun docs => Ok docs) (fun _ => Ok tt) (fun _ _ _ => Ok [])
              "AI" fresh_world) as (result & w' & Hrun & _ & _ & Hcode & _).
  destruct (Hcode _ eq_refl ltac:(simpl; lia)) as [-> Hc].
  exists w'. split; [exact Hrun | exact Hc].
Defined.

(** X16: the limiter of the two news tools never throttles.  Each call
    builds its limiter anew, so whatever was recorded before, the call ends
    with a single recorded timestamp, and under a clock on which nothing but
    sleeping takes time the news-lookup tool takes between 2 and 4 seconds
    and the news-indexing tool between 2 and 10: never the wait of a reached
    ceiling, and never the 10 seconds between two articles. *)
Theorem news_tools_never_throttle
    (db_exists : bool) (open_store : exc unit)
    (requests_get : string -> exc SearchNewsDB.response)
    (load : string -> exc (list document))
    (split_documents : list document -> exc (list document))
    (from_documents : list document -> exc unit)
    (similarity_search : string -> nat -> Z -> exc (list document))
    (query : string) (w : world) :
  let after_lookup :=
    snd (GetNews.news no_lag db_exists open_store similarity_search query w) in
  let after_indexing :=
    snd (SearchNewsDB.news no_lag requests_get load split_documents from_documents
           similarity_search query w) in
  (clock w + 2 * second <= clock after_lookup <= clock w + 4 * second
   /\ length (request_times after_lookup) = 1%nat)
  /\ (clock w + 2 * second <= clock after_indexing <= clock w + 10 * second
      /\ length (request_times after_indexing) = 1%nat).
Proof.
  cbv zeta. split; [apply get_news_elapsed|].
  destruct (search_news_outcome no_lag requests_get load split_documents from_documents
              similarity_search query w)
    as (result & w' & Hrun & Hlen & _ & _ & _ & _ & Hclk).
  rewrite Hrun. cbn [snd]. split; [now apply Hclk | exact Hlen].
Qed.

Section MonadCongruence.
Import Runtime.
Variables A B : Type.

Lemma bind_congr (m : M A) (k1 k2 : A -> M B) (w : world) :
  (forall a w', k1 a w' = k2 a w') -> bind m k1 w = bind m k2 w.
Proof. intros H. unfold bind. destruct (m w) as [[a|e] w']; [apply H | reflexivity]. Qed.

Lemma try_congr (m1 m2 : M A) (h : exn -> M A) (w : world) :
  m1 w = m2 w -> try_except m1 h w = try_except m2 h w.
Proof. intros H. unfold try_except. now rewrite H. Qed.

End MonadCongruence.

(** X17: the news-indexing tool reads one article and indexes five chunks at
    most: its result and effects are the same whatever articles follow the
    first in the response, and whatever the vector store would do with more
    than five chunks. *)
Theorem search_news_db_first_article_five_chunks
    (lag : nat -> Z) (get1 get2 : string -> exc SearchNewsDB.response)
    (load : string -> exc (list document))
    (split_documents : list document -> exc (list document))
    (index1 index2 : list document -> exc unit)
    (similarity_search : string -> nat -> Z -> exc (list document))
    (query : string) (w : world) (code : nat)
    (first : SearchNewsDB.article) (others1 others2 : list SearchNewsDB.article) :
  get1 query = Ok {| SearchNewsDB.status_code := code;
                     SearchNewsDB.json_articles := Ok (first :: others1) |} ->
  get2 query = Ok {| SearchNewsDB.status_code := code;
                     SearchNewsDB.json_articles := Ok (first :: others2) |} ->
  (forall chunks, (length chunks <= 5)%nat -> index1 chunks = index2 chunks) ->
  SearchNewsDB.news lag get1 load split_documents index1 similarity_search query w
  = SearchNewsDB.news lag get2 load split_documents index2 similarity_search query w.
Proof.
  intros H1 H2 Hindex. unfold SearchNewsDB.news. rewrite H1, H2.
  apply bind_congr; intros _ w0. apply bind_congr; intros _ w1.
  apply try_congr.
  erewrite (bind_ok _); [|reflexivity]. symmetry.
  erewrite (bind_ok _); [|reflexivity]. symmetry.
  cbn [SearchNewsDB.status_code SearchNewsDB.json_articles].
  destruct (negb (code =? 200)%nat); [reflexivity|].
  erewrite (bind_ok _); [|reflexivity]. symmetry.
  erewrite (bind_ok _); [|reflexivity]. symmetry.
  cbn [firstn]. apply bind_congr; intros [all_splits processed_count] w2.
  cbn [fst snd]. destruct all_splits as [|chunk chunks]; [reflexivity|].
  pose proof (Hindex (firstn 5 (chunk :: chunks)) (firstn_le_length _ _)) as Hsame.
  cbn [firstn] in Hsame. cbn [firstn]. now rewrite Hsame.
Qed.

Lemma search_news_db_first_article_five_chunks_witness :
  SearchNewsDB.news no_lag
    (fun _ => Ok {| SearchNewsDB.status_code := 200;
                    SearchNewsDB.json_articles :=
                      Ok [ {| SearchNewsDB.url := Some "https://example.org/a";
                              SearchNewsDB.title := Some "A" |};
                           {| SearchNewsDB.url := Some "https://example.org/b";
                              SearchNewsDB.title := Some "B" |} ] |})
    (fun link => Ok [ {| page_content := link; source := Some link |} ])
    (fun docs => Ok docs) (fun chunks => Ok tt) (fun _ _ _ => Ok []) "AI" fresh_world
  = SearchNewsDB.news no_lag
      (fun _ => Ok {| SearchNewsDB.status_code := 200;
                      SearchNewsDB.json_articles :=
                        Ok [ {| SearchNewsDB.url := Some "https://example.org/a";
                                SearchNewsDB.title := Some "A" |} ] |})
      (fun link => Ok [ {| page_content := link; source := Some link |} ])
      (fun docs => Ok docs)
      (fun chunks => if (length chunks <=? 5)%nat then Ok tt else Raised invalid_argument)
      (fun _ _ _ => Ok []) "AI" fresh_world.
Proof.
  apply (search_news_db_first_article_five_chunks no_lag _ _ _ _ _ _ _ "AI" fresh_world
           (code := 200)
           (first := {| SearchNewsDB.url := Some "https://example.org/a";
                        SearchNewsDB.title := Some "A" |})
           (others1 := [ {| SearchNewsDB.url := Some "https://example.org/b";
                            SearchNewsDB.title := Some "B" |} ])
           (others2 := [])).
  - reflexivity.
  - reflexivity.
  - intros chunks Hlen. apply Nat.leb_le in Hlen. now rewrite Hlen.
Defined.

(** ** The block the first pattern reads *)

Section BlockFacts.
Import PyStr Re.

Section Greedy.
Variable A : Type.
Variable p : ascii -> bool.
Variable k : string -> string -> option A.

Lemma greedy_all (ws : string) : forall taken rest x,
  string_forall p ws = true -> begins_outside p rest = true ->
  k (rev_onto ws taken) rest = Some x ->
  greedy p k taken (ws ++ rest) = Some x.
Proof.
  induction ws as [|c ws IH]; intros taken rest x Hws Hrest Hk.
  - cbn [append rev_onto] in *. destruct rest as [|c rest]; cbn [greedy]; [exact Hk|].
    cbn [begins_outside] in Hrest. apply negb_true_iff in Hrest. now rewrite Hrest.
  - cbn [string_forall] in Hws. apply andb_true_iff in Hws as [Hc Hws].
    cbn [append greedy]. rewrite Hc. cbn [rev_onto] in Hk.
    now rewrite (IH (String c taken) rest x Hws Hrest Hk).
Qed.

End Greedy.

Lemma string_app_nil_r (a : string) : a ++ "" = a.
Proof. induction a as [|x a IH]; cbn [append]; [reflexivity | now rewrite IH]. Qed.

Lemma rev_onto_rev_onto (a : string) : forall b c,
  rev_onto (rev_onto a b) c = rev_onto b (a ++ c).
Proof.
  induction a as [|x a IH]; intros b c; cbn [rev_onto append]; [reflexivity|].
  rewrite IH. reflexivity.
Qed.

Lemma match_literal (c : ascii) (r : regex) (g : option string) (s : string) :
  match_here false (It (Chr c) Once :: r) g (String c s) = match_here false r g s.
Proof. cbn [match_here quantified atom_matches]. now rewrite Ascii.eqb_refl. Qed.

Lemma match_literal_inv (c : ascii) (r : regex) (g : option string) (s : string)
    (x : option string) :
  match_here false (It (Chr c) Once :: r) g s = Some x ->
  exists s', s = String c s' /\ match_here false r g s' = Some x.
Proof.
  cbn [match_here quantified atom_matches]. destruct s as [|d s]; [discriminate|].
  destruct (Ascii.eqb c d) eqn:E; [|discriminate].
  apply Ascii.eqb_eq in E. subst d. intros H. now exists s.
Qed.

Lemma match_spaces (ws : string) (r : regex) (g : option string) (rest : string)
    (x : option string) :
  string_forall is_space ws = true -> begins_outside is_space rest = true ->
  match_here false r g rest = Some x ->
  match_here false (It Space Star :: r) g (ws ++ rest) = Some x.
Proof.
  intros Hws Hrest Hm. cbn [match_here quantified].
  now apply greedy_all.
Qed.

Lemma match_digits (ds : string) (r : regex) (g : option string) (rest : string)
    (x : option string) :
  ds <> "" -> string_forall is_digit ds = true -> begins_outside is_digit rest = true ->
  match_here false r (Some ds) rest = Some x ->
  match_here false (Group Digit Plus :: r) g (ds ++ rest) = Some x.
Proof.
  intros Hne Hds Hrest Hm. destruct ds as [|d ds]; [congruence|].
  cbn [string_forall] in Hds. apply andb_true_iff in Hds as [Hd Hds].
  cbn [match_here quantified append]. cbn [atom_matches]. rewrite Hd.
  apply greedy_all; [exact Hds | exact Hrest |].
  rewrite rev_onto_rev_onto. cbn [rev_onto append].
  now rewrite (string_app_nil_r ds).
Qed.

End BlockFacts.

Section BlockSearch.
Import PyStr Re.
(* The statements below apply the matcher to strings that are variables. *)
Unset Implicit Arguments.

Lemma digit_not_space (c : ascii) : is_digit c = true -> is_space c = false.
Proof. destruct c as [[] [] [] [] [] [] [] []]; vm_compute; congruence. Qed.

Lemma space_not_digit (c : ascii) : is_space c = true -> is_digit c = false.
Proof. destruct c as [[] [] [] [] [] [] [] []]; vm_compute; congruence. Qed.

Lemma begins_outside_digits (ds rest : string) :
  ds <> "" -> string_forall is_digit ds = true ->
  begins_outside is_space (ds ++ rest) = true.
Proof.
  destruct ds as [|d ds]; [congruence|]. intros _ H. cbn [string_forall] in H.
  apply andb_true_iff in H as [Hd _]. cbn [append begins_outside].
  now rewrite (digit_not_space _ Hd).
Qed.

Lemma begins_outside_spaces (ws rest : string) :
  string_forall is_space ws = true -> begins_outside is_digit rest = true ->
  begins_outside is_digit (ws ++ rest) = true.
Proof.
  destruct ws as [|c ws]; [intros _ H; exact H|]. intros H _. cbn [string_forall] in H.
  apply andb_true_iff in H as [Hc _]. cbn [append begins_outside].
  now rewrite (space_not_digit _ Hc).
Qed.

Lemma compile_retry_pattern :
  compile QuotaAwareLLM.retry_pattern
  = [ It (Chr "r") Once; It (Chr "e") Once; It (Chr "t") Once; It (Chr "r") Once;
      It (Chr "y") Once; It (Chr "_") Once; It (Chr "d") Once; It (Chr "e") Once;
      It (Chr "l") Once; It (Chr "a") Once; It (Chr "y") Once; It Space Star;
      It (Chr "{") Once; It Space Star;
      It (Chr "s") Once; It (Chr "e") Once; It (Chr "c") Once; It (Chr "o") Once;
      It (Chr "n") Once; It (Chr "d") Once; It (Chr "s") Once; It (Chr ":") Once;
      It Space Star; Group Digit Plus; It Space Star; It (Chr "}") Once ].
Proof. vm_compute. reflexivity. Qed.

Lemma block_matches (ws0 ws1 ws2 ds ws3 tail : string) :
  string_forall is_space ws0 = true -> string_forall is_space ws1 = true ->
  string_forall is_space ws2 = true -> string_forall is_space ws3 = true ->
  ds <> "" -> string_forall is_digit ds = true ->
  match_here false (compile QuotaAwareLLM.retry_pattern) None
    (retry_delay_block ws0 ws1 ws2 ds ws3 ++ tail) = Some (Some ds).
Proof.
  intros H0 H1 H2 H3 Hne Hds. rewrite compile_retry_pattern.
  unfold retry_delay_block. rewrite !string_app_assoc. cbn [append].
  rewrite !match_literal.
  apply match_spaces; [exact H0 | reflexivity |]. cbn [append]. rewrite match_literal.
  apply match_spaces; [exact H1 | reflexivity |]. cbn [append]. rewrite !match_literal.
  apply match_spaces; [exact H2 | now apply begins_outside_digits |].
  apply match_digits; [exact Hne | exact Hds | now apply begins_outside_spaces |].
  apply match_spaces; [exact H3 | reflexivity |]. cbn [append]. rewrite match_literal.
  reflexivity.
Qed.

Lemma prefix_cons (c : ascii) (n s : string) :
  String.prefix (String c n) (String c s) = String.prefix n s.
Proof. cbn [String.prefix]. destruct (Ascii.ascii_dec c c); congruence. Qed.

Lemma prefix_nil (s : string) : String.prefix "" s = true.
Proof. destruct s; reflexivity. Qed.

Lemma pattern_needs_word (g : option string) (s : string) (x : option string) :
  match_here false (compile QuotaAwareLLM.retry_pattern) g s = Some x ->
  String.prefix "retry_delay" s = true.
Proof.
  rewrite compile_retry_pattern. intros H.
  do 11 (apply match_literal_inv in H; destruct H as [? [-> H]]).
  rewrite !prefix_cons. apply prefix_nil.
Qed.

Lemma search_skips (pre : string) : forall pos rest g,
  starts_nowhere "retry_delay" pre rest = true ->
  match_here false (compile QuotaAwareLLM.retry_pattern) None rest = Some g ->
  search_from false (compile QuotaAwareLLM.retry_pattern) pos (pre ++ rest)
  = Some {| m_start := pos + String.length pre; group1 := g |}.
Proof.
  induction pre as [|c pre IH]; intros pos rest g Hno Hm.
  - cbn [append String.length]. rewrite Nat.add_0_r.
    destruct rest; cbn [search_from]; now rewrite Hm.
  - cbn [starts_nowhere] in Hno. apply andb_true_iff in Hno as [Hhere Hno].
    apply negb_true_iff in Hhere. cbn [append search_from].
    destruct (match_here false (compile QuotaAwareLLM.retry_pattern) None
                (String c (pre ++ rest))) as [x|] eqn:E.
    + apply pattern_needs_word in E. cbn [append] in Hhere. congruence.
    + rewrite (IH (S pos) rest g Hno Hm). cbn [String.length].
      now rewrite Nat.add_succ_r.
Qed.

End BlockSearch.

(** X18: a message whose first [retry_delay] is the block
    [retry_delay { seconds: N }], with any white space where the first
    pattern allows it and N a run of at most 4300 digits, gives N in both
    layers, whatever comes before and after the block. *)
Theorem retry_delay_block_is_read (pre ws0 ws1 ws2 ds ws3 tail : string) :
  string_forall PyStr.is_space ws0 = true -> string_forall PyStr.is_space ws1 = true ->
  string_forall PyStr.is_space ws2 = true -> string_forall PyStr.is_space ws3 = true ->
  ds <> "" -> string_forall PyStr.is_digit ds = true ->
  (String.length ds <=? Re.int_max_str_digits)%nat = true ->
  starts_nowhere "retry_delay" pre (retry_delay_block ws0 ws1 ws2 ds ws3 ++ tail) = true ->
  let message := pre ++ retry_delay_block ws0 ws1 ws2 ds ws3 ++ tail in
  QuotaAwareLLM._extract_retry_delay message = Ok (Some (PyStr.digits_value 0 ds))
  /\ EnhancedNewsCrew._extract_retry_delay message = Ok (Some (PyStr.digits_value 0 ds)).
Proof.
  intros H0 H1 H2 H3 Hne Hds Hlen Hfirst message.
  pose proof (block_matches ws0 ws1 ws2 ds ws3 tail H0 H1 H2 H3 Hne Hds) as Hm.
  pose proof (search_skips pre 0 _ _ Hfirst Hm) as Hs.
  assert (Hint : Re.int_of_group
                   {| Re.m_start := 0 + String.length pre; Re.group1 := Some ds |}
                 = Ok (PyStr.digits_value 0 ds)).
  { unfold Re.int_of_group. cbn [Re.group1].
    apply Nat.leb_le in Hlen. apply Nat.ltb_ge in Hlen. now rewrite Hlen. }
  split.
  - unfold QuotaAwareLLM._extract_retry_delay, Re.re_search, Re.search.
    fold message in Hs. rewrite Hs, Hint. reflexivity.
  - unfold EnhancedNewsCrew._extract_retry_delay, Re.re_search, Re.search.
    change EnhancedNewsCrew.retry_pattern with QuotaAwareLLM.retry_pattern.
    fold message in Hs. rewrite Hs, Hint. reflexivity.
Qed.

Lemma retry_delay_block_is_read_witness :
  let message :=
    "429 You exceeded your current quota. "
    ++ retry_delay_block " " (PyText.nl ++ "  ") " " "34" PyText.nl ++ " Please retry later."
  in
  QuotaAwareLLM._extract_retry_delay message = Ok (Some (PyStr.digits_value 0 "34"))
  /\ EnhancedNewsCrew._extract_retry_delay message = Ok (Some (PyStr.digits_value 0 "34")).
Proof.
  apply (retry_delay_block_is_read "429 You exceeded your current quota. "
           " " (PyText.nl ++ "  ") " " "34" PyText.nl " Please retry later.");
    first [reflexivity | discriminate].
Defined.

(** ** The topic prompt *)

Section StripFacts.
Import PyStr PyText.

Lemma rstrip_idem (s : string) : rstrip (rstrip s) = rstrip s.
Proof.
  induction s as [|c s IH]; [reflexivity|]. cbn [rstrip].
  destruct (rstrip s) as [|d r] eqn:E.
  - destruct (is_space c) eqn:Hc; [reflexivity|]. cbn [rstrip]. now rewrite Hc.
  - cbn [rstrip]. cbn [rstrip] in IH. rewrite IH. reflexivity.
Qed.

Lemma lstrip_head (s : string) :
  lstrip s = "" \/ exists c s', lstrip s = String c s' /\ is_space c = false.
Proof.
  induction s as [|c s IH]; [now left|]. cbn [lstrip].
  destruct (is_space c) eqn:Hc; [exact IH|]. right. now exists c, s.
Qed.

Lemma rstrip_head (c : ascii) (s : string) :
  is_space c = false -> exists s', rstrip (String c s) = String c s'.
Proof.
  intros Hc. cbn [rstrip]. destruct (rstrip s) as [|d r].
  - rewrite Hc. now exists "".
  - now exists (String d r).
Qed.

Lemma strip_idem (s : string) : strip (strip s) = strip s.
Proof.
  unfold strip. destruct (lstrip_head s) as [E | (c & s' & E & Hc)]; rewrite E.
  - reflexivity.
  - destruct (@rstrip_head c s' Hc) as [r Hr]. rewrite Hr.
    cbn [lstrip]. rewrite Hc, <- Hr. apply rstrip_idem.
Qed.

Lemma truthy_nonempty (t : string) : truthy (Some t) = true -> t <> "".
Proof. destruct t; [discriminate | discriminate]. Qed.

End StripFacts.

Section PromptFacts.
Import PyStr PyText TopicSelection.
Local Open Scope list_scope.

Lemma justified_after (skipped inputs : list input_event) (r : option string) :
  ~ In KeyboardInterrupt skipped ->
  prompt_result_justified inputs r -> prompt_result_justified (skipped ++ inputs) r.
Proof.
  intros Hskip. destruct r as [t|]; cbn [prompt_result_justified].
  - intros (Hne & Hstrip & before & line & answer & after & -> & Ht & Hyes & Hno).
    split; [exact Hne|]. split; [exact Hstrip|].
    exists (skipped ++ before), line, answer, after.
    rewrite <- app_assoc. repeat split; try assumption.
    intros Hin. apply in_app_or in Hin. tauto.
  - intros Hin. apply in_or_app. now right.
Qed.

Lemma prompt_loop_justified (n : nat) : forall inputs r,
  (length inputs <= n)%nat ->
  prompt_loop inputs = Returned r -> prompt_result_justified inputs r.
Proof.
  induction n as [|n IH]; intros inputs r Hlen Hrun.
  - destruct inputs; [discriminate | cbn in Hlen; lia].
  - destruct inputs as [|ev rest]; [discriminate|]. cbn [length] in Hlen.
    destruct ev as [text| |e]; cbn [prompt_loop] in Hrun.
    + destruct (truthy (Some (strip text))) eqn:Htopic; cbn [negb] in Hrun.
      * destruct rest as [|ev2 rest']; [discriminate|]. cbn [length] in Hlen.
        destruct ev2 as [answer| |e2].
        -- destruct (among ["y"; "yes"] (lower (strip answer))) eqn:Hyes.
           ++ injection Hrun as <-. cbn [prompt_result_justified].
              split; [now apply truthy_nonempty|]. split; [apply strip_idem|].
              exists [], text, answer, rest'. repeat split; auto.
           ++ assert (Hrest : prompt_loop rest' = Returned r)
                by (destruct (among ["n"; "no"] (lower (strip answer))); exact Hrun).
              apply (justified_after [Line text; Line answer]).
              ** cbn. intros [H|[H|[]]]; discriminate.
              ** apply IH; [lia | exact Hrest].
        -- injection Hrun as <-. cbn. auto.
        -- apply (justified_after [Line text; InputError e2]).
           ++ cbn. intros [H|[H|[]]]; discriminate.
           ++ apply IH; [lia | exact Hrun].
      * apply (justified_after [Line text]).
        -- cbn. intros [H|[]]; discriminate.
        -- apply IH; [lia | exact Hrun].
    + injection Hrun as <-. cbn. auto.
    + apply (justified_after [InputError e]).
      * cbn. intros [H|[]]; discriminate.
      * apply IH; [lia | exact Hrun].
Qed.

Lemma prompt_loop_awaits (n : nat) : forall inputs,
  (length inputs <= n)%nat ->
  forallb (fun ev => negb (can_end_prompt ev)) inputs = true ->
  prompt_loop inputs = AwaitingInput.
Proof.
  induction n as [|n IH]; intros inputs Hlen Hall.
  - destruct inputs; [reflexivity | cbn in Hlen; lia].
  - destruct inputs as [|ev rest]; [reflexivity|]. cbn [length] in Hlen.
    cbn [forallb] in Hall. apply andb_true_iff in Hall as [Hev Hall].
    destruct ev as [text| |e]; cbn [prompt_loop].
    + destruct (truthy (Some (strip text))); cbn [negb].
      * destruct rest as [|ev2 rest']; [reflexivity|]. cbn [length] in Hlen.
        cbn [forallb] in Hall. apply andb_true_iff in Hall as [Hev2 Hall].
        destruct ev2 as [answer| |e2].
        -- cbn [can_end_prompt] in Hev2. unfold accepts in Hev2.
           apply negb_true_iff in Hev2. rewrite Hev2.
           destruct (among ["n"; "no"] (lower (strip answer))); apply IH; (lia || assumption).
        -- discriminate.
        -- apply IH; [lia | assumption].
      * apply IH; [lia | assumption].
    + discriminate.
    + apply IH; [lia | assumption].
Qed.

End PromptFacts.

(** X19: a value the topic prompt returns rests on the input: [None] comes
    from a Ctrl-C only; a topic is not empty, carries no white space around
    it, and was typed at one prompt and accepted with y or yes at the next. *)
Theorem prompt_outcomes (self_topic : option string) (inputs : list input_event)
    (r : option string) :
  PyText.truthy self_topic = false ->
  TopicSelection.get_topic_from_user self_topic inputs = Returned r ->
  prompt_result_justified inputs r.
Proof.
  intros Hfalsy. unfold TopicSelection.get_topic_from_user. rewrite Hfalsy. cbn [negb].
  apply (@prompt_loop_justified (length inputs)). lia.
Qed.

Lemma prompt_outcomes_witness :
  prompt_result_justified
    [ Line "  "; InputError eof_error; Line " AI news "; Line "maybe";
      Line "climate"; Line " YES "; Line "later" ]
    (Some "climate").
Proof.
  apply (@prompt_outcomes None
           [ Line "  "; InputError eof_error; Line " AI news "; Line "maybe";
             Line "climate"; Line " YES "; Line "later" ]
           (Some "climate")); vm_compute; reflexivity.
Defined.

(** X20: the topic prompt ends on a Ctrl-C or on an accepted topic only: on
    input with neither, errors of [input()] included, it goes on asking. *)
Theorem prompt_ends_on_yes_or_interrupt (self_topic : option string)
    (inputs : list input_event) :
  PyText.truthy self_topic = false ->
  forallb (fun ev => negb (can_end_prompt ev)) inputs = true ->
  TopicSelection.get_topic_from_user self_topic inputs = AwaitingInput.
Proof.
  intros Hfalsy Hall. unfold TopicSelection.get_topic_from_user. rewrite Hfalsy. cbn [negb].
  apply (@prompt_loop_awaits (length inputs)); [lia | exact Hall].
Qed.

Lemma prompt_ends_on_yes_or_interrupt_witness :
  TopicSelection.get_topic_from_user (Some "")
    [ InputError eof_error; Line "AI"; Line "n"; Line "AI"; Line "ok";
      InputError eof_error; InputError eof_error ]
  = AwaitingInput.
Proof.
  apply prompt_ends_on_yes_or_interrupt; vm_compute; reflexivity.
Defined.

(** ** The topic of the command line, and the crew *)

Section TopicFacts.
Import PyStr PyText TopicSelection.
Local Open Scope list_scope.

Lemma truthy_app_sep (a rest : string) : truthy (Some (a ++ " " ++ rest)%string) = true.
Proof. destruct a; reflexivity. Qed.

Lemma truthy_eqb (a : string) : truthy (Some a) = negb (String.eqb a "").
Proof. destruct a; reflexivity. Qed.

Lemma prompt_loop_interrupted (n : nat) : forall skipped rest,
  (length skipped <= n)%nat ->
  forallb (fun ev => negb (can_end_prompt ev)) skipped = true ->
  prompt_loop (skipped ++ KeyboardInterrupt :: rest) = Returned None.
Proof.
  induction n as [|n IH]; intros skipped rest Hlen Hall.
  - destruct skipped; [reflexivity | cbn in Hlen; lia].
  - destruct skipped as [|ev more]; [reflexivity|]. cbn [length] in Hlen.
    cbn [forallb] in Hall. apply andb_true_iff in Hall as [Hev Hall].
    destruct ev as [text| |e]; cbn [app prompt_loop].
    + destruct (truthy (Some (strip text))); cbn [negb].
      * destruct more as [|ev2 more']; [reflexivity|]. cbn [length] in Hlen.
        cbn [forallb] in Hall. apply andb_true_iff in Hall as [Hev2 Hall].
        cbn [app]. destruct ev2 as [answer| |e2].
        -- cbn [can_end_prompt] in Hev2. unfold accepts in Hev2.
           apply negb_true_iff in Hev2. rewrite Hev2.
           destruct (among ["n"; "no"] (lower (strip answer))); apply IH; (lia || assumption).
        -- reflexivity.
        -- apply IH; [lia | assumption].
      * apply IH; [lia | assumption].
    + reflexivity.
    + apply IH; [lia | assumption].
Qed.

Lemma topic_or_given (fallback t : string) :
  t <> ""%string -> Tasks.topic_or fallback (Some t) = t.
Proof. destruct t; [congruence | reflexivity]. Qed.

Lemma occurs_in_app_r (phrase a b : string) :
  occurs_in phrase b -> occurs_in phrase (a ++ b)%string.
Proof.
  intros [pre [post ->]]. exists (a ++ pre)%string, post.
  now rewrite string_app_assoc.
Qed.

Lemma initialize_tasks_about (t : string) :
  t <> ""%string -> about t (Tasks.initialize_tasks (Some t)).
Proof.
  intros Hne.
  unfold about, Tasks.initialize_tasks, Tasks.create_news_search_task,
    Tasks.create_writer_task.
  cbn [fst snd Tasks.description Tasks.expected_output Tasks.context].
  rewrite !(fun fallback => @topic_or_given fallback t Hne).
  split; [reflexivity|]. split; [reflexivity|]. split; [reflexivity|].
  split; [|reflexivity].
  do 15 apply occurs_in_app_r.
  exists "        "%string, "        "%string.
  rewrite !string_app_assoc. reflexivity.
Qed.

End TopicFacts.

(** X21: the script takes its topic from the command line, without asking,
    exactly when an argument after the script name is not empty or there are
    two or more of them; the topic is then the arguments joined by spaces, as
    they stand.  Otherwise it asks as if no topic had been given. *)
Theorem command_line_topic (argv : list string) (inputs : list input_event) :
  TopicSelection.get_topic_from_user (TopicSelection.script_topic argv) inputs
  = if names_a_topic (tl argv)
    then Returned (Some (PyText.join " " (tl argv)))
    else TopicSelection.get_topic_from_user None inputs.
Proof.
  unfold TopicSelection.get_topic_from_user, TopicSelection.script_topic, names_a_topic.
  destruct argv as [|prog [|a [|b rest]]]; try reflexivity.
  - cbn [length tl PyText.join existsb Nat.ltb Nat.leb orb].
    rewrite truthy_eqb, orb_false_r. destruct (String.eqb a ""); reflexivity.
  - cbn [length tl PyText.join existsb Nat.ltb Nat.leb].
    rewrite truthy_app_sep, orb_true_r. reflexivity.
Qed.

(** X22: [create_news_crew] gives no crew only when the prompt was cancelled
    with Ctrl-C.  Otherwise the tasks it hands to [Crew] speak of a topic that
    is not empty, the one given or the one confirmed at the prompt, and never
    of a fallback topic. *)
Theorem crew_tasks_follow_topic (C : Type) (Crew : list Tasks.task -> exc C)
    (self_topic : option string) (inputs : list input_event) (made : exc (option C)) :
  TopicSelection.create_news_crew Crew self_topic inputs = Returned made ->
  (made = Ok None /\ PyText.truthy self_topic = false /\ In KeyboardInterrupt inputs)
  \/ exists t,
       t <> "" /\ (self_topic = Some t \/ confirmed_in inputs t)
       /\ about t (Tasks.initialize_tasks (Some t))
       /\ made = exc_bind (Crew [fst (Tasks.initialize_tasks (Some t));
                                 snd (Tasks.initialize_tasks (Some t))])
                          (fun crew => Ok (Some crew)).
Proof.
  unfold TopicSelection.create_news_crew, TopicSelection.get_topic_from_user.
  destruct (PyText.truthy self_topic) eqn:Hgiven; cbn [negb].
  - rewrite Hgiven. cbn [negb]. intros H. injection H as <-. right.
    destruct self_topic as [t|]; [|discriminate]. exists t.
    split; [now apply truthy_nonempty|]. split; [now left|].
    split; [apply initialize_tasks_about; now apply truthy_nonempty|].
    now destruct (Crew _).
  - destruct (TopicSelection.prompt_loop inputs) as [r|] eqn:Hrun; [|discriminate].
    pose proof (@prompt_loop_justified (length inputs) inputs _ (le_n _) Hrun) as Hj.
    destruct r as [t|]; cbn [prompt_result_justified] in Hj.
    + destruct Hj as (Hne & _ & Hconf). destruct t as [|c t]; [congruence|].
      cbn [PyText.truthy negb]. intros H. injection H as <-. right.
      exists (String c t). split; [exact Hne|]. split; [now right|].
      split; [now apply initialize_tasks_about|].
      now destruct (Crew _).
    + cbn [PyText.truthy negb]. intros H. injection H as <-. left. auto.
Qed.

Lemma crew_tasks_follow_topic_witness :
  (Ok (Some 2%nat) = Ok None /\ PyText.truthy None = false
   /\ In KeyboardInterrupt [Line " space "; Line "Y"])
  \/ exists t,
       t <> "" /\ (None = Some t \/ confirmed_in [Line " space "; Line "Y"] t)
       /\ about t (Tasks.initialize_tasks (Some t))
       /\ Ok (Some 2%nat)
          = exc_bind ((fun tasks => Ok (length tasks))
                        [fst (Tasks.initialize_tasks (Some t));
                         snd (Tasks.initialize_tasks (Some t))])
                     (fun crew => Ok (Some crew)).
Proof.
  apply (@crew_tasks_follow_topic nat (fun tasks => Ok (length tasks)) None
           [Line " space "; Line "Y"] (Ok (Some 2%nat))).
  vm_compute. reflexivity.
Defined.

(** X23: a Ctrl-C at the prompt, after any input that does not end it, makes
    [create_news_crew] return [None]; the run then ends as cancelled with no
    call of the crew and no time spent. *)
Theorem interrupt_cancels_run (R C : Type) (Crew : list Tasks.task -> exc C)
    (lag : nat -> Z) (kickoff : nat -> Z -> exc R) (result_truthy : R -> bool)
    (self : EnhancedNewsCrew.self_t) (self_topic : option string)
    (skipped rest : list input_event) (w : world) :
  PyText.truthy self_topic = false ->
  forallb (fun ev => negb (can_end_prompt ev)) skipped = true ->
  exists made,
    TopicSelection.create_news_crew Crew self_topic (skipped ++ KeyboardInterrupt :: rest)%list
    = Returned made
    /\ EnhancedNewsCrew.main lag kickoff (TopicSelection.crew_created made) result_truthy
         self w
       = (Ok (None, EnhancedNewsCrew.Cancelled), w).
Proof.
  intros Hfalsy Hall. exists (Ok None). split.
  - unfold TopicSelection.create_news_crew, TopicSelection.get_topic_from_user.
    rewrite Hfalsy. cbn [negb].
    now rewrite (@prompt_loop_interrupted (length skipped) skipped rest (le_n _) Hall).
  - reflexivity.
Qed.

Lemma interrupt_cancels_run_witness :
  exists made,
    TopicSelection.create_news_crew (fun tasks => Ok (length tasks)) None
      ([Line "AI"; Line "n"; Line "robots"] ++ KeyboardInterrupt :: [Line "y"])%list
    = Returned made
    /\ EnhancedNewsCrew.main no_lag (fun _ _ => Ok "report")
         (TopicSelection.crew_created made) (fun _ => true) EnhancedNewsCrew.init fresh_world
       = (Ok (None, EnhancedNewsCrew.Cancelled), fresh_world).
Proof.
  apply (@interrupt_cancels_run string nat (fun tasks => Ok (length tasks)) no_lag
           (fun _ _ => Ok "report") (fun _ => true) EnhancedNewsCrew.init None
           [Line "AI"; Line "n"; Line "robots"] [Line "y"] fresh_world);
    vm_compute; reflexivity.
Defined.

(** ** Errors the embeddings retry *)

(** X24: an error the LLM layer takes for a quota error is one the embeddings
    retry after their 60-second wait, unless it is recognised by
    [resourceexhausted] or [too many requests] only. *)
Theorem embedding_retry_covers_quota_errors (error : exn) :
  QuotaAwareLLM._is_quota_error error = true ->
  QuotaAwareEmbeddings.retry_worthy error = true
  \/ PyStr.str_in "resourceexhausted" (PyStr.lower (str error)) = true
  \/ PyStr.str_in "too many requests" (PyStr.lower (str error)) = true.
Proof.
  unfold QuotaAwareLLM._is_quota_error, QuotaAwareEmbeddings.retry_worthy.
  rewrite any_str_in_iff. intros [phrase [Hin Hocc]].
  rewrite !orb_true_iff, !str_in_iff.
  assert (Hrate : forall longer, occurs_in "rate" longer ->
                                 occurs_in longer (PyStr.lower (str error)) ->
                                 occurs_in "rate" (PyStr.lower (str error)))
    by (intros longer; apply occurs_in_trans).
  cbn [QuotaAwareLLM.quota_indicators In] in Hin.
  destruct Hin as [<-|[<-|[<-|[<-|[<-|[<-|[<-|[]]]]]]]].
  - left. left. now left.
  - left. left. now right.
  - left. right. apply (Hrate "rate limit"); [|exact Hocc]. exists "", " limit". reflexivity.
  - right. now left.
  - left. left. right. apply (occurs_in_trans (b := "exceeded your current quota")); [|exact Hocc].
    exists "exceeded your current ", "". reflexivity.
  - left. right. apply (Hrate "rate-limits"); [|exact Hocc]. exists "", "-limits". reflexivity.
  - right. now right.
Qed.

Lemma embedding_retry_covers_quota_errors_witness :
  QuotaAwareEmbeddings.retry_worthy quota_429 = true
  \/ PyStr.str_in "resourceexhausted" (PyStr.lower (str quota_429)) = true
  \/ PyStr.str_in "too many requests" (PyStr.lower (str quota_429)) = true.
Proof. apply embedding_retry_covers_quota_errors. vm_compute. reflexivity. Defined.

(** ** test.py *)

Section ApiTestFacts.
Import PyStr PyText ApiTests.
Local Open Scope list_scope.

Lemma is_set_truthy (env : environ) (var : string) :
  is_set env var <-> truthy (env var) = true.
Proof.
  unfold is_set. split.
  - intros [value [-> Hne]]. destruct value; [congruence | reflexivity].
  - destruct (env var) as [[|c v]|]; try discriminate. intros _.
    exists (String c v). split; [reflexivity | discriminate].
Qed.

Lemma filter_nil_iff (A : Type) (f : A -> bool) (l : list A) :
  filter f l = [] <-> forall x, In x l -> f x = false.
Proof.
  induction l as [|a l IH]; cbn [filter].
  - split; [intros _ x [] | reflexivity].
  - destruct (f a) eqn:Ha.
    + split; [discriminate|]. intros H. rewrite (H a) in Ha; [discriminate | now left].
    + rewrite IH. split.
      * intros H x [<-|Hin]; [exact Ha | now apply H].
      * intros H x Hin. apply H. now right.
Qed.

Lemma setenv_other (env : environ) (var value name : string) :
  name <> var -> setenv env var value name = env name.
Proof.
  intros Hne. unfold setenv. destruct (String.eqb_spec name var); [congruence | reflexivity].
Qed.

Lemma setenv_same (env : environ) (var value : string) :
  setenv env var value var = Some value.
Proof. unfold setenv. now rewrite String.eqb_refl. Qed.

Lemma check_vars_missing (vars : list string) : forall env missing_vars shown,
  NoDup vars ->
  snd (fst (check_vars vars env missing_vars shown))
  = missing_vars ++ filter (fun var => negb (truthy (env var))) vars.
Proof.
  induction vars as [|var rest IH]; intros env missing_vars shown Hnd.
  - cbn [check_vars fst snd filter]. now rewrite app_nil_r.
  - inversion Hnd as [|? ? Hnotin Hnd']; subst. cbn [check_vars filter].
    destruct (env var) as [v|] eqn:Hvar.
    + destruct (truthy (Some v)) eqn:Hv; cbn [negb].
      * rewrite (IH _ _ _ Hnd'). f_equal. apply filter_ext_in.
        intros x Hin. rewrite setenv_other; [reflexivity|]. intros ->. contradiction.
      * rewrite (IH _ _ _ Hnd'). now rewrite <- app_assoc.
    + cbn [truthy negb]. rewrite (IH _ _ _ Hnd'). now rewrite <- app_assoc.
Qed.

Lemma check_vars_environ (vars : list string) : forall env missing_vars shown name,
  NoDup vars ->
  fst (fst (check_vars vars env missing_vars shown)) name
  = if (existsb (String.eqb name) vars && truthy (env name))%bool
    then option_map strip (env name) else env name.
Proof.
  induction vars as [|var rest IH]; intros env missing_vars shown name Hnd.
  - reflexivity.
  - inversion Hnd as [|? ? Hnotin Hnd']; subst. cbn [check_vars existsb].
    assert (Hrest : name = var -> existsb (String.eqb name) rest = false).
    { intros ->. destruct (existsb (String.eqb var) rest) eqn:E; [|reflexivity].
      apply existsb_exists in E as [x [Hin Hx]]. apply String.eqb_eq in Hx. subst x.
      contradiction. }
    destruct (env var) as [v|] eqn:Hvar.
    + destruct (truthy (Some v)) eqn:Hv; cbn [negb].
      * rewrite (IH _ _ _ _ Hnd'). destruct (String.eqb_spec name var) as [->|Hne].
        -- rewrite (Hrest eq_refl), setenv_same, Hvar, Hv. reflexivity.
        -- rewrite (@setenv_other _ _ _ _ Hne). reflexivity.
      * rewrite (IH _ _ _ _ Hnd'). destruct (String.eqb_spec name var) as [->|Hne].
        -- rewrite Hvar, Hv, !andb_false_r. reflexivity.
        -- reflexivity.
    + rewrite (IH _ _ _ _ Hnd'). destruct (String.eqb_spec name var) as [->|Hne].
      * rewrite Hvar. cbn [truthy]. rewrite !andb_false_r. reflexivity.
      * reflexivity.
Qed.

Lemma required_vars_nodup : NoDup required_vars.
Proof.
  unfold required_vars. repeat constructor; cbn [In]; intros H;
    repeat (destruct H as [H|H]; [discriminate|]); exact H.
Qed.

Lemma environment_test_passes_iff (env : environ) :
  fst (fst (test_environment_setup env)) = true
  <-> forall var, In var required_vars -> is_set env var.
Proof.
  unfold test_environment_setup.
  pose proof (@check_vars_missing required_vars env [] [] required_vars_nodup) as Hm.
  destruct (check_vars required_vars env [] []) as [[env' missing_vars] shown].
  cbn [fst snd app] in Hm. subst missing_vars.
  destruct (filter _ required_vars) as [|m ms] eqn:E; cbn [fst].
  - split; [intros _|reflexivity]. intros var Hin. apply is_set_truthy.
    apply (proj1 (@filter_nil_iff _ _ _) E) in Hin. now apply negb_false_iff in Hin.
  - split; [discriminate|]. intros H.
    assert (Hnil : filter (fun var => negb (truthy (env var))) required_vars = []).
    { apply filter_nil_iff. intros x Hin. apply negb_false_iff. apply is_set_truthy.
      now apply H. }
    congruence.
Qed.

Lemma environment_test_environ (env : environ) (name : string) :
  snd (fst (test_environment_setup env)) name
  = if (existsb (String.eqb name) required_vars && truthy (env name))%bool
    then option_map strip (env name) else env name.
Proof.
  unfold test_environment_setup.
  pose proof (@check_vars_environ required_vars env [] [] name required_vars_nodup) as He.
  destruct (check_vars required_vars env [] []) as [[env' missing_vars] shown].
  cbn [fst snd] in He. destruct missing_vars; exact He.
Qed.

Lemma length_substring (n m : nat) : forall s,
  (n + m <= String.length s)%nat -> String.length (substring n m s) = m.
Proof.
  induction n as [|n IH]; intros s H.
  - revert s H. induction m as [|m IHm]; intros s H.
    + destruct s; reflexivity.
    + destruct s as [|c s]; [cbn in H; lia|]. cbn [substring String.length].
      f_equal. apply IHm. cbn [String.length] in H. lia.
  - destruct s as [|c s]; [cbn in H; lia|]. cbn [substring]. apply IH.
    cbn [String.length] in H. lia.
Qed.

Lemma string_length_app (a b : string) :
  String.length (a ++ b) = (String.length a + String.length b)%nat.
Proof. induction a as [|c a IH]; cbn [append String.length]; [reflexivity | now rewrite IH]. Qed.

Lemma substring_whole (s : string) : substring 0 (String.length s) s = s.
Proof. induction s as [|c s IH]; cbn [substring String.length]; [reflexivity | now rewrite IH]. Qed.

Lemma substring_after (a b : string) :
  substring (String.length a) (String.length b) (a ++ b) = b.
Proof.
  induction a as [|c a IH]; cbn [append String.length substring].
  - apply substring_whole.
  - exact IH.
Qed.

End ApiTestFacts.

(** X25: the environment test passes exactly when each of the three keys is
    set to a value that is not empty; it leaves each such key set to its
    value stripped of white space, and every other name as it was. *)
Theorem environment_test (env : ApiTests.environ) :
  let result := ApiTests.test_environment_setup env in
  (fst (fst result) = true <-> forall var, In var ApiTests.required_vars -> is_set env var)
  /\ (forall var value, In var ApiTests.required_vars ->
        env var = Some value -> value <> "" ->
        snd (fst result) var = Some (PyText.strip value))
  /\ (forall name, ~ In name ApiTests.required_vars -> snd (fst result) name = env name).
Proof.
  cbv zeta. split; [apply environment_test_passes_iff|]. split.
  - intros var value Hin Hvar Hne. rewrite environment_test_environ.
    assert (Hex : existsb (String.eqb var) ApiTests.required_vars = true).
    { apply existsb_exists. exists var. split; [exact Hin | apply String.eqb_refl]. }
    rewrite Hex, Hvar. destruct value; [congruence | reflexivity].
  - intros name Hnot. rewrite environment_test_environ.
    destruct (existsb (String.eqb name) ApiTests.required_vars) eqn:Hex; [|reflexivity].
    apply existsb_exists in Hex as [x [Hin Hx]]. apply String.eqb_eq in Hx. subst x.
    contradiction.
Qed.

(** X26: the masked form of a value is 14 characters long and shows of the
    value its last four characters only: ten stars and then those four when
    the value is longer than four characters, fourteen stars otherwise. *)
Theorem mask_shows_last_four (value : string) :
  String.length (ApiTests.mask value) = 14%nat
  /\ (forall hidden shown, hidden <> "" -> String.length shown = 4%nat ->
        ApiTests.mask (hidden ++ shown) = "**********" ++ shown)
  /\ ((String.length value <= 4)%nat -> ApiTests.mask value = "**************").
Proof.
  unfold ApiTests.mask, PyText.last_chars. split; [|split].
  - destruct (4 <? String.length value)%nat eqn:Hlen; [|reflexivity].
    apply Nat.ltb_lt in Hlen. rewrite string_length_app, length_substring; [reflexivity | lia].
  - intros hidden shown Hne Hshown.
    assert (Hlen : (4 <? String.length (hidden ++ shown))%nat = true).
    { apply Nat.ltb_lt. rewrite string_length_app, Hshown.
      destruct hidden; [congruence | cbn [String.length]; lia]. }
    rewrite Hlen. rewrite string_length_app, Hshown, Nat.add_sub.
    rewrite <- Hshown at 1. now rewrite substring_after.
  - intros Hlen. apply Nat.ltb_ge in Hlen. now rewrite Hlen.
Qed.

(** X27: the test script exits with 0 exactly when the three keys are set and
    every later test returned [True]; a test that returned [False] or raised
    makes it exit with 1. *)
Theorem test_script_exit_status (env : ApiTests.environ) (others : list (exc bool)) :
  (ApiTests.exit_status env others = 0
   <-> (forall var, In var ApiTests.required_vars -> is_set env var)
       /\ Forall (fun outcome => outcome = Ok true) others)
  /\ (ApiTests.exit_status env others = 0 \/ ApiTests.exit_status env others = 1).
Proof.
  unfold ApiTests.exit_status, ApiTests.main, ApiTests.results_of.
  cbn [map forallb]. rewrite <- environment_test_passes_iff.
  assert (Hothers : forallb (fun result : bool => result)
                      (map (fun outcome : exc bool =>
                              match outcome with Ok result => result | Raised _ => false end)
                           others) = true
                    <-> Forall (fun outcome => outcome = Ok true) others).
  { induction others as [|o others IH]; cbn [map forallb].
    - split; [constructor | reflexivity].
    - rewrite andb_true_iff, IH. split.
      + intros [Ho Hrest]. constructor; [|exact Hrest].
        destruct o as [[]|]; [reflexivity | discriminate | discriminate].
      + intros H. inversion H as [|? ? Ho Hrest]; subst. now split. }
  split.
  - rewrite <- Hothers, <- andb_true_iff.
    destruct (_ && _)%bool; split; (reflexivity || discriminate || auto).
  - destruct (_ && _)%bool; auto.
Qed.

Lemma environment_test_witness :
  let env : ApiTests.environ :=
    fun name => if String.eqb name "HOME" then None else Some "  key-1234 " in
  let result := ApiTests.test_environment_setup env in
  (fst (fst result) = true <-> forall var, In var ApiTests.required_vars -> is_set env var)
  /\ (forall var value, In var ApiTests.required_vars ->
        env var = Some value -> value <> "" ->
        snd (fst result) var = Some (PyText.strip value))
  /\ (forall name, ~ In name ApiTests.required_vars -> snd (fst result) name = env name).
Proof.
  exact (environment_test
           (fun name => if String.eqb name "HOME" then None else Some "  key-1234 ")).
Defined.

Lemma mask_shows_last_four_witness :
  ApiTests.mask ("AIzaSyD-secret-" ++ "9f3Q") = "**********" ++ "9f3Q".
Proof.
  apply (proj1 (proj2 (mask_shows_last_four ""))); [discriminate | reflexivity].
Defined.

Lemma test_script_exit_status_witness :
  ApiTests.exit_status (fun _ => Some "key") [Ok true; Ok true; Ok true; Ok true; Ok true] = 0.
Proof.
  apply (proj1 (test_script_exit_status (fun _ => Some "key")
                  [Ok true; Ok true; Ok true; Ok true; Ok true])).
  split.
  - intros var _. exists "key". split; [reflexivity | discriminate].
  - repeat constructor.
Defined.

(** ** The limiters of the plain classes *)



(** ** The crew-layer driver end to end *)

Section CrewScenarios.
Import Runtime.
Local Open Scope list_scope.
Variable R : Type.
Variable lag : nat -> Z.
Variable kickoff : nat -> Z -> exc R.

Local Abbreviation self := EnhancedNewsCrew.init.
Local Abbreviation loop := (EnhancedNewsCrew.attempts_loop lag kickoff self).







End CrewScenarios.


